(** * Veterinary-clinic backend: clinical workflow and authentication

    A shallow embedding of the CRUD layer ([app/crud]) and of the route
    handlers of [app/api/v1/endpoints/consultas.py] that drive the
    clinical workflow, together with the authentication helper
    [app/crud/auth_crud.py].

    Conventions of the embedding.
    - A table is a finite map from primary key to row ([gmap Z row]); the
      key of a row is not repeated inside the row.
    - A nullable column is an [option]; [DateTime]/[Date] columns are
      instants ([Z]); [Numeric(p, 2)] columns are counted in hundredths.
    - Python [str] is the [string] of its UTF-8 bytes; [Py.len] counts its
      characters.
    - [datetime.now()] is a parameter [ahora] of the handler that reads it:
      one instant per call.
    - The store of the embedding is the committed content of the database.
      [db.commit()] either makes the pending change durable or raises; which
      of the two happens is decided by the database engine (constraints,
      connectivity), taken as the parameter [motor] of the development.
    - The rows of the store are rows a query can load: a value outside the
      enumeration of an Enum column enters only by an assignment, and the
      [db.refresh] that follows the commit of that assignment is where
      reading it back fails.  The rows the handlers create come from
      requests whose validators admit only values of the enumerations. *)

From Stdlib Require Import ZArith Ascii.
From stdpp Require Import gmap strings list fin_maps.

Local Open Scope string_scope.
Local Open Scope Z_scope.

(** ** Python string helpers *)

Module Py.

(** [str.lower] on ASCII letters. *)
Definition lower_ascii (c : ascii) : ascii :=
  let n := nat_of_ascii c in
  if ((65 <=? n) && (n <=? 90))%nat then ascii_of_nat (n + 32) else c.

Fixpoint lower (s : string) : string :=
  match s with
  | EmptyString => EmptyString
  | String c r => String (lower_ascii c) (lower r)
  end.

(** [s.replace(c, '')] for a single character [c]. *)
Fixpoint remove_char (c : ascii) (s : string) : string :=
  match s with
  | EmptyString => EmptyString
  | String d r =>
      if Ascii.eqb c d then remove_char c r else String d (remove_char c r)
  end.

(** White space as [str.strip] without arguments knows it, on the UTF-8
    bytes of the string.  One byte: U+0009 to U+000D, U+001C to U+001F and
    U+0020. *)
Definition is_space (c : ascii) : bool :=
  let n := nat_of_ascii c in
  (((9 <=? n) && (n <=? 13)) || ((28 <=? n) && (n <=? 32)))%nat.

(** Two bytes: U+0085 (C2 85) and U+00A0 (C2 A0). *)
Definition is_space2 (c d : ascii) : bool :=
  let n := nat_of_ascii c in
  let m := nat_of_ascii d in
  ((n =? 194) && ((m =? 133) || (m =? 160)))%nat.

(** Three bytes: U+1680 (E1 9A 80), U+2000 to U+200A (E2 80 80 to
    E2 80 8A), U+2028, U+2029 and U+202F (E2 80 A8, A9, AF), U+205F
    (E2 81 9F) and U+3000 (E3 80 80). *)
Definition is_space3 (c d e : ascii) : bool :=
  let n := nat_of_ascii c in
  let m := nat_of_ascii d in
  let k := nat_of_ascii e in
  (((n =? 225) && (m =? 154) && (k =? 128))
   || ((n =? 226) && (m =? 128)
       && (((128 <=? k) && (k <=? 138)) || (k =? 168) || (k =? 169) || (k =? 175)))
   || ((n =? 226) && (m =? 129) && (k =? 159))
   || ((n =? 227) && (m =? 128) && (k =? 128)))%nat.

(** The byte can begin a white-space character. *)
Definition inicia_espacio (c : ascii) : bool :=
  let n := nat_of_ascii c in
  (is_space c || (n =? 194) || (n =? 225) || (n =? 226) || (n =? 227))%nat.

Fixpoint lstrip (s : string) : string :=
  match s with
  | EmptyString => EmptyString
  | String c r =>
      if is_space c then lstrip r
      else
        match r with
        | EmptyString => s
        | String d r2 =>
            if is_space2 c d then lstrip r2
            else
              match r2 with
              | EmptyString => s
              | String e r3 => if is_space3 c d e then lstrip r3 else s
              end
        end
  end.

(** From the right: what is left of the tail is extended by the byte
    unless the two together are exactly one white-space character. *)
Fixpoint rstrip (s : string) : string :=
  match s with
  | EmptyString => EmptyString
  | String c r =>
      match rstrip r with
      | EmptyString => if is_space c then EmptyString else String c EmptyString
      | String d EmptyString =>
          if is_space2 c d then EmptyString else String c (String d EmptyString)
      | String d (String e EmptyString) =>
          if is_space3 c d e then EmptyString
          else String c (String d (String e EmptyString))
      | r' => String c r'
      end
  end.

Definition strip (s : string) : string := rstrip (lstrip s).

(** [sep.join(l)] *)
Fixpoint join (sep : string) (l : list string) : string :=
  match l with
  | [] => ""
  | [x] => x
  | x :: r => x +:+ sep +:+ join sep r
  end.

(** Truth value of an [Optional[int]]: [None] and [0] are false. *)
Definition truthy_int (o : option Z) : bool :=
  match o with
  | Some n => negb (Z.eqb n 0)
  | None => false
  end.

(** Truth value of an [Optional[str]]: [None] and [''] are false. *)
Definition truthy_str (o : option string) : bool :=
  match o with
  | Some s => negb (String.eqb s "")
  | None => false
  end.

(** [len(s)]: the characters of a string are its bytes other than the
    continuation bytes (10xxxxxx) of UTF-8. *)
Definition es_continuacion (c : ascii) : bool :=
  let n := nat_of_ascii c in ((128 <=? n) && (n <=? 191))%nat.

Fixpoint len (s : string) : nat :=
  match s with
  | EmptyString => 0%nat
  | String c r => ((if es_continuacion c then 0 else 1) + len r)%nat
  end.

(** [len(s) < n] *)
Definition len_lt (s : string) (n : nat) : bool := (len s <? n)%nat.

End Py.

(** ** ORM models ([app/models])

    One module per mapped class; the record lists the columns of the class
    except its auto-incremented primary key, which is the key of the table.
    For the classes whose rows [CRUDBase.create] builds from a dict
    (SolicitudAtencion, Consulta, HistorialClinico) every column filled from
    the dict is an [option], also a NOT NULL one: the pending row holds
    [None] there until the engine refuses the commit. *)

Module Usuario.
Record t := mk {
  username : string;
  contraseña : string;
  tipo_usuario : string;
  fecha_creacion : option Z;
  estado : option string
}.
Definition con_contraseña (u : t) (p : string) : t :=
  mk (username u) p (tipo_usuario u) (fecha_creacion u) (estado u).
End Usuario.

Module Administrador.
Record t := mk {
  id_usuario : Z;
  nombre : string;
  apellido_paterno : string;
  apellido_materno : string;
  dni : string;
  telefono : string;
  email : string;
  fecha_ingreso : Z;
  genero : string
}.
End Administrador.

Module Veterinario.
Record t := mk {
  id_usuario : Z;
  id_especialidad : Z;
  codigo_CMVP : string;
  tipo_veterinario : string;
  fecha_nacimiento : Z;
  genero : string;
  nombre : string;
  apellido_paterno : string;
  apellido_materno : string;
  dni : string;
  telefono : string;
  email : string;
  fecha_ingreso : Z;
  disposicion : option string;
  turno : string
}.
Definition con_disposicion (v : t) (d : option string) : t :=
  mk (id_usuario v) (id_especialidad v) (codigo_CMVP v) (tipo_veterinario v)
     (fecha_nacimiento v) (genero v) (nombre v) (apellido_paterno v)
     (apellido_materno v) (dni v) (telefono v) (email v) (fecha_ingreso v)
     d (turno v).
End Veterinario.

Module Recepcionista.
Record t := mk {
  id_usuario : Z;
  nombre : string;
  apellido_paterno : string;
  apellido_materno : string;
  dni : string;
  telefono : string;
  email : string;
  fecha_ingreso : option Z;
  turno : option string;
  genero : string
}.
End Recepcionista.

Module Mascota.
Record t := mk {
  id_raza : Z;
  nombre : string;
  sexo : string;
  color : option string;
  edad_anios : option Z;
  edad_meses : option Z;
  esterilizado : option bool;
  imagen : option string
}.
End Mascota.

Module SolicitudAtencion.
Record t := mk {
  id_mascota : option Z;
  id_recepcionista : option Z;
  fecha_hora_solicitud : option Z;
  tipo_solicitud : option string;
  estado : option string
}.
Definition con_estado (s : t) (e : option string) : t :=
  mk (id_mascota s) (id_recepcionista s) (fecha_hora_solicitud s)
     (tipo_solicitud s) e.
End SolicitudAtencion.

Module Triaje.
Record t := mk {
  id_solicitud : Z;
  id_veterinario : Z;
  fecha_hora_triaje : Z;
  peso_mascota : Z;
  latido_por_minuto : Z;
  frecuencia_respiratoria_rpm : Z;
  temperatura : Z;
  talla : option Z;
  tiempo_capilar : option string;
  color_mucosas : option string;
  frecuencia_pulso : Z;
  porce_deshidratacion : option Z;
  condicion_corporal : option string;
  clasificacion_urgencia : string
}.
End Triaje.

Module Consulta.
Record t := mk {
  id_triaje : option Z;
  id_veterinario : option Z;
  tipo_consulta : option string;
  fecha_consulta : option Z;
  motivo_consulta : option string;
  sintomas_observados : option string;
  diagnostico_preliminar : option string;
  observaciones : option string;
  condicion_general : option string;
  es_seguimiento : option bool
}.
End Consulta.

Module Diagnostico.
Record t := mk {
  id_consulta : option Z;
  id_patologia : option Z;
  tipo_diagnostico : string;
  fecha_diagnostico : Z;
  estado_patologia : string;
  diagnostico : string
}.
End Diagnostico.

Module HistorialClinico.
Record t := mk {
  id_mascota : option Z;
  id_consulta : option Z;
  id_diagnostico : option Z;
  id_tratamiento : option Z;
  id_veterinario : option Z;
  fecha_evento : option Z;
  tipo_evento : option string;
  edad_meses : option Z;
  descripcion_evento : option string;
  peso_momento : option Z;
  observaciones : option string
}.
End HistorialClinico.

Module Cita.
Record t := mk {
  id_mascota : option Z;
  id_servicio : option Z;
  id_servicio_solicitado : option Z;
  fecha_hora_programada : Z;
  estado_cita : option string;
  requiere_ayuno : option bool;
  observaciones : option string
}.
Definition con_estado_cita (c : t) (e : option string) : t :=
  mk (id_mascota c) (id_servicio c) (id_servicio_solicitado c)
     (fecha_hora_programada c) e (requiere_ayuno c) (observaciones c).
Definition con_fecha_hora_programada (c : t) (f : Z) : t :=
  mk (id_mascota c) (id_servicio c) (id_servicio_solicitado c)
     f (estado_cita c) (requiere_ayuno c) (observaciones c).
End Cita.

(** ** The store: one table per mapped class *)

Record BD := mkBD {
  usuarios : gmap Z Usuario.t;
  administradores : gmap Z Administrador.t;
  veterinarios : gmap Z Veterinario.t;
  recepcionistas : gmap Z Recepcionista.t;
  mascotas : gmap Z Mascota.t;
  solicitudes : gmap Z SolicitudAtencion.t;
  triajes : gmap Z Triaje.t;
  consultas : gmap Z Consulta.t;
  diagnosticos : gmap Z Diagnostico.t;
  historiales : gmap Z HistorialClinico.t;
  citas : gmap Z Cita.t
}.

Definition con_usuarios (bd : BD) (m : gmap Z Usuario.t) : BD :=
  mkBD m (administradores bd) (veterinarios bd) (recepcionistas bd)
       (mascotas bd) (solicitudes bd) (triajes bd) (consultas bd)
       (diagnosticos bd) (historiales bd) (citas bd).

Definition con_administradores (bd : BD) (m : gmap Z Administrador.t) : BD :=
  mkBD (usuarios bd) m (veterinarios bd) (recepcionistas bd)
       (mascotas bd) (solicitudes bd) (triajes bd) (consultas bd)
       (diagnosticos bd) (historiales bd) (citas bd).

Definition con_veterinarios (bd : BD) (m : gmap Z Veterinario.t) : BD :=
  mkBD (usuarios bd) (administradores bd) m (recepcionistas bd)
       (mascotas bd) (solicitudes bd) (triajes bd) (consultas bd)
       (diagnosticos bd) (historiales bd) (citas bd).

Definition con_recepcionistas (bd : BD) (m : gmap Z Recepcionista.t) : BD :=
  mkBD (usuarios bd) (administradores bd) (veterinarios bd) m
       (mascotas bd) (solicitudes bd) (triajes bd) (consultas bd)
       (diagnosticos bd) (historiales bd) (citas bd).

Definition con_mascotas (bd : BD) (m : gmap Z Mascota.t) : BD :=
  mkBD (usuarios bd) (administradores bd) (veterinarios bd) (recepcionistas bd)
       m (solicitudes bd) (triajes bd) (consultas bd)
       (diagnosticos bd) (historiales bd) (citas bd).

Definition con_solicitudes (bd : BD) (m : gmap Z SolicitudAtencion.t) : BD :=
  mkBD (usuarios bd) (administradores bd) (veterinarios bd) (recepcionistas bd)
       (mascotas bd) m (triajes bd) (consultas bd)
       (diagnosticos bd) (historiales bd) (citas bd).

Definition con_triajes (bd : BD) (m : gmap Z Triaje.t) : BD :=
  mkBD (usuarios bd) (administradores bd) (veterinarios bd) (recepcionistas bd)
       (mascotas bd) (solicitudes bd) m (consultas bd)
       (diagnosticos bd) (historiales bd) (citas bd).

Definition con_consultas (bd : BD) (m : gmap Z Consulta.t) : BD :=
  mkBD (usuarios bd) (administradores bd) (veterinarios bd) (recepcionistas bd)
       (mascotas bd) (solicitudes bd) (triajes bd) m
       (diagnosticos bd) (historiales bd) (citas bd).

Definition con_historiales (bd : BD) (m : gmap Z HistorialClinico.t) : BD :=
  mkBD (usuarios bd) (administradores bd) (veterinarios bd) (recepcionistas bd)
       (mascotas bd) (solicitudes bd) (triajes bd) (consultas bd)
       (diagnosticos bd) m (citas bd).

Definition con_citas (bd : BD) (m : gmap Z Cita.t) : BD :=
  mkBD (usuarios bd) (administradores bd) (veterinarios bd) (recepcionistas bd)
       (mascotas bd) (solicitudes bd) (triajes bd) (consultas bd)
       (diagnosticos bd) (historiales bd) m.

(** ** Queries

    [Query.first()] adds LIMIT 1 and no ORDER BY: which of several matching
    rows comes back is the engine's choice.  The embedding fixes one
    enumeration of the table; the properties below that depend on the row
    returned are stated for queries with at most one match. *)

Definition first {A} (P : Z * A → Prop) `{!∀ p, Decision (P p)}
    (m : gmap Z A) : option (Z * A) :=
  head (filter P (map_to_list m)).

(** AUTO_INCREMENT: the key given to a new row is above every key in use
    and at least 1. *)
Definition siguiente_id {A} (m : gmap Z A) : Z :=
  1 + map_fold (λ k _ acc, Z.max k acc) 0 m.

(** ** Requests, exceptions and the session monad *)

(** A value of a pydantic field, as [model.dict()] holds it. *)
Inductive Valor :=
| VNone
| VInt (n : Z)
| VStr (s : string)
| VBool (b : bool)
| VFecha (t : Z)
| VNum (x : Z).

Definition de_opcion {A} (f : A → Valor) (o : option A) : Valor :=
  match o with
  | Some a => f a
  | None => VNone
  end.

Definition a_int (v : option Valor) : option Z :=
  match v with Some (VInt n) => Some n | _ => None end.
Definition a_str (v : option Valor) : option string :=
  match v with Some (VStr s) => Some s | _ => None end.
Definition a_bool (v : option Valor) : option bool :=
  match v with Some (VBool b) => Some b | _ => None end.
Definition a_fecha (v : option Valor) : option Z :=
  match v with Some (VFecha t) => Some t | _ => None end.
Definition a_num (v : option Valor) : option Z :=
  match v with Some (VNum x) => Some x | _ => None end.

(** [d.get(key, default)]: the default is used only when the key is absent. *)
Definition dict_get (d : gmap string Valor) (key : string) (por_defecto : Valor)
    : Valor :=
  default por_defecto (d !! key).

Inductive Excepcion :=
| HTTPException (status_code : Z) (detail : string)
| Exception (msg : string).

(** Outcome of running code against the store: a value or a raised
    exception, and the committed store left behind in both cases. *)
Inductive Resultado (A : Type) :=
| Ret (a : A) (bd : BD)
| Raise (e : Excepcion) (bd : BD).
Arguments Ret {A} a bd.
Arguments Raise {A} e bd.

Definition M (A : Type) : Type := BD → Resultado A.

#[global] Instance M_ret : MRet M := λ A a bd, Ret a bd.
#[global] Instance M_bind : MBind M := λ A B f m bd,
  match m bd with
  | Ret a bd' => f a bd'
  | Raise e bd' => Raise e bd'
  end.

#[global] Instance M_fmap : FMap M := λ A B f m bd,
  match m bd with
  | Ret a bd' => Ret (f a) bd'
  | Raise e bd' => Raise e bd'
  end.

Definition raise {A} (e : Excepcion) : M A := λ bd, Raise e bd.
Definition leer {A} (f : BD → A) : M A := λ bd, Ret (f bd) bd.

(** The [try: ... except HTTPException: raise / except Exception as e:
    raise HTTPException(500, f"<prefijo>{str(e)}")] frame of a handler. *)
Definition try_except {A} (prefijo : string) (m : M A) : M A := λ bd,
  match m bd with
  | Ret a bd' => Ret a bd'
  | Raise (HTTPException c d) bd' => Raise (HTTPException c d) bd'
  | Raise (Exception msg) bd' => Raise (HTTPException 500 (prefijo +:+ msg)) bd'
  end.

(** HTTP status of a handler's outcome, [ok] being the status declared on
    the route. *)
Definition status_http {A} (ok : Z) (r : Resultado A) : Z :=
  match r with
  | Ret _ _ => ok
  | Raise (HTTPException c _) _ => c
  | Raise (Exception _) _ => 500
  end.

Definition estado_final {A} (r : Resultado A) : BD :=
  match r with
  | Ret _ bd => bd
  | Raise _ bd => bd
  end.

(** ** [app/crud/base_crud.py] *)

(** What [CRUDBase] needs from the mapped class it is instantiated with. *)
Class Modelo (A : Type) := {
  tablename : string;
  primary_key : string;
  (** mapped attributes of the class, the primary key included *)
  columnas : list string;
  (** [getattr(row, c)] for an integer column other than the primary key *)
  entero : string → A → option Z;
  tabla : BD → gmap Z A;
  con_tabla : BD → gmap Z A → BD
}.
Arguments tablename A {_}.
Arguments primary_key A {_}.
Arguments columnas A {_}.

(** [self.model] applied to a dict as keyword arguments *)
Class DesdeKwargs (A : Type) := de_kwargs : gmap string Valor → A.

(** The [Column(default=...)] of a mapped class: at INSERT a column whose
    attribute is [None], set so or never set, takes its default. *)
Class ValoresPorDefecto (A : Type) := por_defecto : A → A.

(** The [Enum] columns of a mapped class: for the name of such a column,
    how its value is read off a row and the values of the enumeration. *)
Class ColumnasEnum (A : Type) :=
  enum : string → option ((A → option string) * list string).

(** The value of column [columna] in the row when the column is an Enum
    and the value is outside its enumeration ([None] for NULL, for a value
    of the enumeration and for a column that is no Enum). *)
Definition fuera_de_enum {A} `{ColumnasEnum A} (columna : string) (fila : A)
    : option string :=
  '(leer_columna, valores) ← enum columna;
  valor ← leer_columna fila;
  if decide (valor ∈ valores) then None else Some valor.

(** [str(e)] for the [LookupError] that the result processor of an Enum
    column raises on a value outside the enumeration; the text is the
    library's and continues with the name and the values of the Enum. *)
Definition lookup_error (valor : string) : string :=
  "'" +:+ valor +:+ "' is not among the defined enum values".

Module CRUDBase.

(** Names tried by [get], in order, for the id column. *)
Definition candidatos (A : Type) `{Modelo A} : list string :=
  [ "id_" +:+ Py.lower (tablename A);
    "id_" +:+ Py.remove_char "_"%char (Py.lower (tablename A));
    "id";
    "id_solicitud";
    "id_cita" ].

(** The first candidate for which [hasattr(self.model, candidate)]. *)
Definition id_field (A : Type) `{Modelo A} : option string :=
  head (filter (λ c, c ∈ columnas A) (candidatos A)).

(** An ORM object is a row together with its primary key. *)
Definition get {A} `{Modelo A} (id : Z) : M (option (Z * A)) :=
  match id_field A with
  | Some campo =>
      if decide (campo = primary_key A)
      then leer (λ bd, pair id <$> tabla bd !! id)
      else leer (λ bd, first (λ p, entero campo p.2 = Some id) (tabla bd))
  | None => raise (Exception "No se pudo determinar el campo de ID")
  end.

End CRUDBase.

#[global] Instance Usuario_modelo : Modelo Usuario.t := {|
  tablename := "usuarios";
  primary_key := "id_usuario";
  columnas := ["id_usuario"; "username"; "contraseña"; "tipo_usuario";
               "fecha_creacion"; "estado"; "administrador"; "veterinario";
               "recepcionista"; "is_active"; "is_admin"; "is_veterinario";
               "is_recepcionista"; "get_perfil"; "get_nombre_completo";
               "activate"; "deactivate"; "change_password"];
  entero _ _ := None;
  tabla := usuarios;
  con_tabla := con_usuarios
|}.

#[global] Instance Mascota_modelo : Modelo Mascota.t := {|
  tablename := "Mascota";
  primary_key := "id_mascota";
  columnas := ["id_mascota"; "id_raza"; "nombre"; "sexo"; "color";
               "edad_anios"; "edad_meses"; "esterilizado"; "imagen"];
  entero c m :=
    if decide (c = "id_raza") then Some (Mascota.id_raza m)
    else if decide (c = "edad_anios") then Mascota.edad_anios m
    else if decide (c = "edad_meses") then Mascota.edad_meses m
    else None;
  tabla := mascotas;
  con_tabla := con_mascotas
|}.

#[global] Instance Recepcionista_modelo : Modelo Recepcionista.t := {|
  tablename := "Recepcionista";
  primary_key := "id_recepcionista";
  columnas := ["id_recepcionista"; "id_usuario"; "nombre"; "apellido_paterno";
               "apellido_materno"; "dni"; "telefono"; "email";
               "fecha_ingreso"; "turno"; "genero"; "usuario"];
  entero c r :=
    if decide (c = "id_usuario") then Some (Recepcionista.id_usuario r) else None;
  tabla := recepcionistas;
  con_tabla := con_recepcionistas
|}.

#[global] Instance Veterinario_modelo : Modelo Veterinario.t := {|
  tablename := "Veterinario";
  primary_key := "id_veterinario";
  columnas := ["id_veterinario"; "id_usuario"; "id_especialidad"; "codigo_CMVP";
               "tipo_veterinario"; "fecha_nacimiento"; "genero"; "nombre";
               "apellido_paterno"; "apellido_materno"; "dni"; "telefono";
               "email"; "fecha_ingreso"; "disposicion"; "turno"; "usuario";
               "especialidad"];
  entero c v :=
    if decide (c = "id_usuario") then Some (Veterinario.id_usuario v)
    else if decide (c = "id_especialidad") then Some (Veterinario.id_especialidad v)
    else None;
  tabla := veterinarios;
  con_tabla := con_veterinarios
|}.

#[global] Instance SolicitudAtencion_modelo : Modelo SolicitudAtencion.t := {|
  tablename := "Solicitud_atencion";
  primary_key := "id_solicitud";
  columnas := ["id_solicitud"; "id_mascota"; "id_recepcionista";
               "fecha_hora_solicitud"; "tipo_solicitud"; "estado"];
  entero c s :=
    if decide (c = "id_mascota") then SolicitudAtencion.id_mascota s
    else if decide (c = "id_recepcionista") then SolicitudAtencion.id_recepcionista s
    else None;
  tabla := solicitudes;
  con_tabla := con_solicitudes
|}.

#[global] Instance Triaje_modelo : Modelo Triaje.t := {|
  tablename := "Triaje";
  primary_key := "id_triaje";
  columnas := ["id_triaje"; "id_solicitud"; "id_veterinario";
               "fecha_hora_triaje"; "peso_mascota"; "latido_por_minuto";
               "frecuencia_respiratoria_rpm"; "temperatura"; "talla";
               "tiempo_capilar"; "color_mucosas"; "frecuencia_pulso";
               "porce_deshidratacion"; "condicion_corporal";
               "clasificacion_urgencia"];
  entero c t :=
    if decide (c = "id_solicitud") then Some (Triaje.id_solicitud t)
    else if decide (c = "id_veterinario") then Some (Triaje.id_veterinario t)
    else if decide (c = "latido_por_minuto") then Some (Triaje.latido_por_minuto t)
    else if decide (c = "frecuencia_respiratoria_rpm")
         then Some (Triaje.frecuencia_respiratoria_rpm t)
    else if decide (c = "frecuencia_pulso") then Some (Triaje.frecuencia_pulso t)
    else None;
  tabla := triajes;
  con_tabla := con_triajes
|}.

#[global] Instance Consulta_modelo : Modelo Consulta.t := {|
  tablename := "Consulta";
  primary_key := "id_consulta";
  columnas := ["id_consulta"; "id_triaje"; "id_veterinario"; "tipo_consulta";
               "fecha_consulta"; "motivo_consulta"; "sintomas_observados";
               "diagnostico_preliminar"; "observaciones"; "condicion_general";
               "es_seguimiento"];
  entero c k :=
    if decide (c = "id_triaje") then Consulta.id_triaje k
    else if decide (c = "id_veterinario") then Consulta.id_veterinario k
    else None;
  tabla := consultas;
  con_tabla := con_consultas
|}.

#[global] Instance HistorialClinico_modelo : Modelo HistorialClinico.t := {|
  tablename := "Historial_clinico";
  primary_key := "id_historial";
  columnas := ["id_historial"; "id_mascota"; "id_consulta"; "id_diagnostico";
               "id_tratamiento"; "id_veterinario"; "fecha_evento";
               "tipo_evento"; "edad_meses"; "descripcion_evento";
               "peso_momento"; "observaciones"];
  entero c h :=
    if decide (c = "id_mascota") then HistorialClinico.id_mascota h
    else if decide (c = "id_consulta") then HistorialClinico.id_consulta h
    else if decide (c = "id_diagnostico") then HistorialClinico.id_diagnostico h
    else if decide (c = "id_tratamiento") then HistorialClinico.id_tratamiento h
    else if decide (c = "id_veterinario") then HistorialClinico.id_veterinario h
    else if decide (c = "edad_meses") then HistorialClinico.edad_meses h
    else None;
  tabla := historiales;
  con_tabla := con_historiales
|}.

#[global] Instance Cita_modelo : Modelo Cita.t := {|
  tablename := "Cita";
  primary_key := "id_cita";
  columnas := ["id_cita"; "id_mascota"; "id_servicio"; "id_servicio_solicitado";
               "fecha_hora_programada"; "estado_cita"; "requiere_ayuno";
               "observaciones"];
  entero c k :=
    if decide (c = "id_mascota") then Cita.id_mascota k
    else if decide (c = "id_servicio") then Cita.id_servicio k
    else if decide (c = "id_servicio_solicitado") then Cita.id_servicio_solicitado k
    else None;
  tabla := citas;
  con_tabla := con_citas
|}.

(** The constructors of [SolicitudAtencion], [Consulta] and
    [HistorialClinico]: every column takes the kwarg of its name
    and is [None] without one.  (A kwarg that names no attribute makes the
    constructor raise; the dicts built by the handlers below name columns
    only.) *)
#[global] Instance SolicitudAtencion_kwargs : DesdeKwargs SolicitudAtencion.t :=
  λ d, SolicitudAtencion.mk
         (a_int (d !! "id_mascota"))
         (a_int (d !! "id_recepcionista"))
         (a_fecha (d !! "fecha_hora_solicitud"))
         (a_str (d !! "tipo_solicitud"))
         (a_str (d !! "estado")).

#[global] Instance Consulta_kwargs : DesdeKwargs Consulta.t :=
  λ d, Consulta.mk
         (a_int (d !! "id_triaje"))
         (a_int (d !! "id_veterinario"))
         (a_str (d !! "tipo_consulta"))
         (a_fecha (d !! "fecha_consulta"))
         (a_str (d !! "motivo_consulta"))
         (a_str (d !! "sintomas_observados"))
         (a_str (d !! "diagnostico_preliminar"))
         (a_str (d !! "observaciones"))
         (a_str (d !! "condicion_general"))
         (a_bool (d !! "es_seguimiento")).

#[global] Instance HistorialClinico_kwargs : DesdeKwargs HistorialClinico.t :=
  λ d, HistorialClinico.mk
         (a_int (d !! "id_mascota"))
         (a_int (d !! "id_consulta"))
         (a_int (d !! "id_diagnostico"))
         (a_int (d !! "id_tratamiento"))
         (a_int (d !! "id_veterinario"))
         (a_fecha (d !! "fecha_evento"))
         (a_str (d !! "tipo_evento"))
         (a_int (d !! "edad_meses"))
         (a_str (d !! "descripcion_evento"))
         (a_num (d !! "peso_momento"))
         (a_str (d !! "observaciones")).

(** [default='Pendiente'] on [SolicitudAtencion.estado],
    [default=False] on [Consulta.es_seguimiento]; [HistorialClinico] has no
    column default. *)
#[global] Instance SolicitudAtencion_por_defecto
    : ValoresPorDefecto SolicitudAtencion.t :=
  λ s, if SolicitudAtencion.estado s is None
       then SolicitudAtencion.con_estado s (Some "Pendiente")
       else s.

#[global] Instance Consulta_por_defecto : ValoresPorDefecto Consulta.t :=
  λ c, Consulta.mk (Consulta.id_triaje c) (Consulta.id_veterinario c)
         (Consulta.tipo_consulta c) (Consulta.fecha_consulta c)
         (Consulta.motivo_consulta c) (Consulta.sintomas_observados c)
         (Consulta.diagnostico_preliminar c) (Consulta.observaciones c)
         (Consulta.condicion_general c)
         (Some (default false (Consulta.es_seguimiento c))).

#[global] Instance HistorialClinico_por_defecto
    : ValoresPorDefecto HistorialClinico.t := λ h, h.

(** The enumerations, under the [name=] of each [SQLEnum]. *)
Definition tipo_usuario_enum : list string :=
  ["Veterinario"; "Recepcionista"; "Administrador"].
Definition estado_usuario_enum : list string := ["Activo"; "Inactivo"].
Definition tipo_veterinario_enum : list string := ["Medico General"; "Especializado"].
Definition disposicion_enum : list string := ["Ocupado"; "Libre"].
Definition turno_enum : list string := ["Mañana"; "Tarde"; "Noche"].
Definition sexo_enum : list string := ["Macho"; "Hembra"].
Definition tipo_solicitud_enum : list string :=
  ["Consulta urgente"; "Consulta normal"; "Servicio programado"].
Definition estado_solicitud_enum : list string :=
  ["Pendiente"; "En triaje"; "En atencion"; "Completada"; "Cancelada"].
Definition condicion_general_enum : list string :=
  ["Excelente"; "Buena"; "Regular"; "Mala"; "Critica"].
Definition tipo_diagnostico_enum : list string :=
  ["Presuntivo"; "Confirmado"; "Descartado"].
Definition estado_patologia_enum : list string :=
  ["Activa"; "Controlada"; "Curada"; "En seguimiento"].
Definition estado_cita_enum : list string := ["Programada"; "Cancelada"; "Atendida"].

#[global] Instance Usuario_enum : ColumnasEnum Usuario.t := λ c,
  if decide (c = "tipo_usuario")
  then Some (λ u, Some (Usuario.tipo_usuario u), tipo_usuario_enum)
  else if decide (c = "estado") then Some (Usuario.estado, estado_usuario_enum)
  else None.

#[global] Instance Veterinario_enum : ColumnasEnum Veterinario.t := λ c,
  if decide (c = "tipo_veterinario")
  then Some (λ v, Some (Veterinario.tipo_veterinario v), tipo_veterinario_enum)
  else if decide (c = "disposicion")
  then Some (Veterinario.disposicion, disposicion_enum)
  else if decide (c = "turno") then Some (λ v, Some (Veterinario.turno v), turno_enum)
  else None.

#[global] Instance Mascota_enum : ColumnasEnum Mascota.t := λ c,
  if decide (c = "sexo") then Some (λ m, Some (Mascota.sexo m), sexo_enum)
  else None.

#[global] Instance SolicitudAtencion_enum : ColumnasEnum SolicitudAtencion.t := λ c,
  if decide (c = "tipo_solicitud")
  then Some (SolicitudAtencion.tipo_solicitud, tipo_solicitud_enum)
  else if decide (c = "estado")
  then Some (SolicitudAtencion.estado, estado_solicitud_enum)
  else None.

#[global] Instance Consulta_enum : ColumnasEnum Consulta.t := λ c,
  if decide (c = "condicion_general")
  then Some (Consulta.condicion_general, condicion_general_enum)
  else None.

#[global] Instance Diagnostico_enum : ColumnasEnum Diagnostico.t := λ c,
  if decide (c = "tipo_diagnostico")
  then Some (λ d, Some (Diagnostico.tipo_diagnostico d), tipo_diagnostico_enum)
  else if decide (c = "estado_patologia")
  then Some (λ d, Some (Diagnostico.estado_patologia d), estado_patologia_enum)
  else None.

#[global] Instance HistorialClinico_enum : ColumnasEnum HistorialClinico.t :=
  λ _, None.

#[global] Instance Cita_enum : ColumnasEnum Cita.t := λ c,
  if decide (c = "estado_cita") then Some (Cita.estado_cita, estado_cita_enum)
  else None.

(** ** Request schemas ([app/schemas/consulta_schema.py])

    A value of these records is a request body that passed the schema's
    validators.  [dict] is pydantic's [.dict()]: every declared field is a
    key of the result, an unset optional one with the value [None]. *)

Module SolicitudAtencionCreate.
Record t := mk {
  id_mascota : Z;
  id_recepcionista : Z;
  tipo_solicitud : string;
  fecha_hora_solicitud : option Z
}.
Definition dict (x : t) : gmap string Valor :=
  list_to_map
    [ ("id_mascota", VInt (id_mascota x));
      ("id_recepcionista", VInt (id_recepcionista x));
      ("tipo_solicitud", VStr (tipo_solicitud x));
      ("fecha_hora_solicitud", de_opcion VFecha (fecha_hora_solicitud x)) ].
End SolicitudAtencionCreate.

Module ConsultaCreate.
Record t := mk {
  id_triaje : Z;
  id_veterinario : Z;
  tipo_consulta : string;
  motivo_consulta : option string;
  sintomas_observados : option string;
  diagnostico_preliminar : option string;
  observaciones : option string;
  condicion_general : string;
  es_seguimiento : bool;
  fecha_consulta : option Z
}.
Definition dict (x : t) : gmap string Valor :=
  list_to_map
    [ ("id_triaje", VInt (id_triaje x));
      ("id_veterinario", VInt (id_veterinario x));
      ("tipo_consulta", VStr (tipo_consulta x));
      ("motivo_consulta", de_opcion VStr (motivo_consulta x));
      ("sintomas_observados", de_opcion VStr (sintomas_observados x));
      ("diagnostico_preliminar", de_opcion VStr (diagnostico_preliminar x));
      ("observaciones", de_opcion VStr (observaciones x));
      ("condicion_general", VStr (condicion_general x));
      ("es_seguimiento", VBool (es_seguimiento x));
      ("fecha_consulta", de_opcion VFecha (fecha_consulta x)) ].
End ConsultaCreate.

Module HistorialClinicoCreate.
Record t := mk {
  id_mascota : Z;
  tipo_evento : string;
  descripcion_evento : string;
  id_consulta : option Z;
  id_diagnostico : option Z;
  id_tratamiento : option Z;
  id_veterinario : option Z;
  edad_meses : option Z;
  peso_momento : option Z;
  observaciones : option string;
  fecha_evento : option Z
}.
Definition dict (x : t) : gmap string Valor :=
  list_to_map
    [ ("id_mascota", VInt (id_mascota x));
      ("tipo_evento", VStr (tipo_evento x));
      ("descripcion_evento", VStr (descripcion_evento x));
      ("id_consulta", de_opcion VInt (id_consulta x));
      ("id_diagnostico", de_opcion VInt (id_diagnostico x));
      ("id_tratamiento", de_opcion VInt (id_tratamiento x));
      ("id_veterinario", de_opcion VInt (id_veterinario x));
      ("edad_meses", de_opcion VInt (edad_meses x));
      ("peso_momento", de_opcion VNum (peso_momento x));
      ("observaciones", de_opcion VStr (observaciones x));
      ("fecha_evento", de_opcion VFecha (fecha_evento x)) ].
End HistorialClinicoCreate.

(** ** [app/crud/auth_crud.py]: the static permission table *)

Module CRUDAuth.

Definition permissions : gmap string (gmap string bool) :=
  list_to_map
    [ ("Administrador",
       list_to_map
         [ ("ver_dashboard", true);
           ("gestionar_usuarios", true);
           ("gestionar_clientes", true);
           ("gestionar_mascotas", true);
           ("gestionar_veterinarios", true);
           ("gestionar_recepcionistas", true);
           ("ver_reportes", true);
           ("gestionar_catalogos", true);
           ("realizar_triaje", true);
           ("realizar_consultas", true);
           ("gestionar_citas", true);
           ("ver_historial", true);
           ("configurar_sistema", true) ]);
      ("Veterinario",
       list_to_map
         [ ("ver_dashboard", true);
           ("gestionar_usuarios", false);
           ("gestionar_clientes", true);
           ("gestionar_mascotas", true);
           ("gestionar_veterinarios", false);
           ("gestionar_recepcionistas", false);
           ("ver_reportes", true);
           ("gestionar_catalogos", false);
           ("realizar_triaje", true);
           ("realizar_consultas", true);
           ("gestionar_citas", true);
           ("ver_historial", true);
           ("configurar_sistema", false) ]);
      ("Recepcionista",
       list_to_map
         [ ("ver_dashboard", false);
           ("gestionar_usuarios", false);
           ("gestionar_clientes", true);
           ("gestionar_mascotas", true);
           ("gestionar_veterinarios", false);
           ("gestionar_recepcionistas", false);
           ("ver_reportes", false);
           ("gestionar_catalogos", false);
           ("realizar_triaje", false);
           ("realizar_consultas", false);
           ("gestionar_citas", true);
           ("ver_historial", false);
           ("configurar_sistema", false) ]) ].

Definition _get_user_permissions (tipo_usuario : string) : gmap string bool :=
  default ∅ (permissions !! tipo_usuario).

Definition verify_permission (user_type permission : string) : bool :=
  let permisos := _get_user_permissions user_type in
  default false (permisos !! permission).

Inductive Perfil :=
| PerfilAdministrador (a : Z * Administrador.t)
| PerfilVeterinario (v : Z * Veterinario.t)
| PerfilRecepcionista (r : Z * Recepcionista.t).

Definition _get_user_profile (bd : BD) (usuario : Z * Usuario.t)
    : option Perfil :=
  if decide (Usuario.tipo_usuario usuario.2 = "Administrador") then
    PerfilAdministrador <$>
      first (λ p, Administrador.id_usuario p.2 = usuario.1) (administradores bd)
  else if decide (Usuario.tipo_usuario usuario.2 = "Veterinario") then
    PerfilVeterinario <$>
      first (λ p, Veterinario.id_usuario p.2 = usuario.1) (veterinarios bd)
  else if decide (Usuario.tipo_usuario usuario.2 = "Recepcionista") then
    PerfilRecepcionista <$>
      first (λ p, Recepcionista.id_usuario p.2 = usuario.1) (recepcionistas bd)
  else None.

(** The dict returned by [authenticate_user] and [get_user_by_id]. *)
Record DatosUsuario := mkDatos {
  usuario : Z * Usuario.t;
  perfil : option Perfil;
  tipo_usuario : string;
  permisos : gmap string bool
}.

Definition authenticate_user (bd : BD) (username password : string)
    : option DatosUsuario :=
  match first (λ p, Usuario.username p.2 = username
                    ∧ Usuario.estado p.2 = Some "Activo") (usuarios bd) with
  | None => None
  | Some usuario =>
      if decide (Usuario.contraseña usuario.2 ≠ password) then None
      else
        let perfil := _get_user_profile bd usuario in
        Some (mkDatos usuario perfil (Usuario.tipo_usuario usuario.2)
                (_get_user_permissions (Usuario.tipo_usuario usuario.2)))
  end.

End CRUDAuth.

(** ** Operations that write: the session *)

Section Sesion.

(** The database engine at [db.commit()]: [None] when the pending store is
    accepted, [Some msg] when the commit raises, [msg] being the text of
    the exception. *)
Variable motor : BD → option string.

(** Text of pydantic's [ValidationError] for the fields that failed. *)
Variable validation_error : list string → string.

(** Flush the pending change and commit it.  A refused commit raises and
    leaves the committed store as it was. *)
Definition commit (pendiente : BD → BD) : M () := λ bd,
  match motor (pendiente bd) with
  | None => Ret () (pendiente bd)
  | Some msg => Raise (Exception msg) bd
  end.

(** Assign to attributes of an ORM object, then [db.commit()]: the row
    under the object's key is replaced. *)
Definition guardar {A} `{Modelo A} (obj : Z * A) : M (Z * A) :=
  commit (λ bd, con_tabla bd (<[obj.1 := obj.2]> (tabla bd)));;
  mret obj.

(** [db.refresh(obj)] after the assignment of column [columna] and the
    commit: the row is read back, and reading an Enum column whose stored
    value is outside the enumeration raises LookupError; the commit stays.
    The object was fetched by a query earlier in the same call, so the
    column assigned since is the one whose value can be outside. *)
Definition refresh {A} `{ColumnasEnum A} (columna : string) (obj : Z * A)
    : M (Z * A) :=
  match fuera_de_enum columna obj.2 with
  | Some valor => raise (Exception (lookup_error valor))
  | None => mret obj
  end.

(** [CRUDBase.create]: [jsonable_encoder] keeps the content of the dict;
    [db.add], [db.commit], the INSERT filling in the column defaults, and
    [db.refresh], by which the object returned holds the row as stored.
    The Enum columns of the row hold what the dict gave them: in the
    handlers below, a field that passed the validator of its request
    ([tipo_solicitud], [condicion_general]) or a constant of the
    enumeration, which [db.refresh] reads back. *)
Definition create {A} `{Modelo A, DesdeKwargs A, ValoresPorDefecto A}
    (obj_in : gmap string Valor) : M (Z * A) :=
  let db_obj := por_defecto (de_kwargs obj_in) in
  id ← leer (λ bd, siguiente_id (tabla bd));
  guardar (id, db_obj).

(** *** [app/crud/veterinario_crud.py] *)

Definition cambiar_disposicion (veterinario_id : Z) (nueva_disposicion : string)
    : M (option (Z * Veterinario.t)) :=
  veterinario ← CRUDBase.get veterinario_id;
  match veterinario with
  | Some v =>
      Some <$> (guardar (v.1, Veterinario.con_disposicion v.2
                                (Some nueva_disposicion))
                ≫= refresh "disposicion")
  | None => mret None
  end.

(** *** [app/crud/consulta_crud.py] *)

Definition cambiar_estado (solicitud_id : Z) (nuevo_estado : string)
    : M (option (Z * SolicitudAtencion.t)) :=
  solicitud ← CRUDBase.get solicitud_id;
  match solicitud with
  | Some s =>
      Some <$> (guardar (s.1, SolicitudAtencion.con_estado s.2 (Some nuevo_estado))
                ≫= refresh "estado")
  | None => mret None
  end.

Definition get_by_triaje (bd : BD) (triaje_id : Z) : option (Z * Consulta.t) :=
  first (λ p, Consulta.id_triaje p.2 = Some triaje_id) (consultas bd).

Definition verificar_disponibilidad (bd : BD) (fecha_hora : Z)
    (exclude_id : option Z) : bool :=
  let query :=
    filter (λ p, Cita.fecha_hora_programada p.2 = fecha_hora
                 ∧ Cita.estado_cita p.2 = Some "Programada")
           (map_to_list (citas bd)) in
  let query :=
    if Py.truthy_int exclude_id
    then filter (λ p, Some p.1 ≠ exclude_id) query
    else query in
  bool_decide (head query = None).

Definition cancelar_cita (cita_id : Z) : M (option (Z * Cita.t)) :=
  cita ← CRUDBase.get cita_id;
  match cita with
  | Some c =>
      if decide (Cita.estado_cita c.2 = Some "Programada")
      then Some <$> (guardar (c.1, Cita.con_estado_cita c.2 (Some "Cancelada"))
                     ≫= refresh "estado_cita")
      else mret (Some c)
  | None => mret None
  end.

Definition marcar_atendida (cita_id : Z) : M (option (Z * Cita.t)) :=
  cita ← CRUDBase.get cita_id;
  match cita with
  | Some c =>
      if decide (Cita.estado_cita c.2 = Some "Programada")
      then Some <$> (guardar (c.1, Cita.con_estado_cita c.2 (Some "Atendida"))
                     ≫= refresh "estado_cita")
      else mret (Some c)
  | None => mret None
  end.

Definition reprogramar_cita (cita_id : Z) (nueva_fecha_hora : Z)
    : M (option (Z * Cita.t)) :=
  disponible ← leer (λ bd, verificar_disponibilidad bd nueva_fecha_hora (Some cita_id));
  if negb disponible then mret None
  else
    cita ← CRUDBase.get cita_id;
    match cita with
    | Some c =>
        if decide (Cita.estado_cita c.2 = Some "Programada")
        then Some <$> (guardar (c.1, Cita.con_fecha_hora_programada c.2
                                       nueva_fecha_hora)
                       ≫= refresh "fecha_hora_programada")
        else mret (Some c)
    | None => mret None
    end.

(** [HistorialClinicoCreate(...)] as [add_evento_consulta] calls it: the
    required [id_mascota] must be an int, and the two validators strip
    their field and bound its length from below.  The fields that fail are
    reported together in one [ValidationError]. *)
Definition nuevo_HistorialClinicoCreate (id_mascota id_consulta id_veterinario : option Z)
    (tipo_evento descripcion_evento : string) (peso_momento : option Z)
    (fecha_evento : Z) : M HistorialClinicoCreate.t :=
  let errores :=
    ((if id_mascota is Some _ then [] else ["id_mascota"])
     ++ (if Py.len_lt (Py.strip tipo_evento) 4 then ["tipo_evento"] else [])
     ++ (if Py.len_lt (Py.strip descripcion_evento) 5
         then ["descripcion_evento"] else []))%list in
  match id_mascota, errores with
  | Some id_mascota, [] =>
      mret (HistorialClinicoCreate.mk id_mascota (Py.strip tipo_evento)
              (Py.strip descripcion_evento) id_consulta None None
              id_veterinario None peso_momento None (Some fecha_evento))
  | _, _ => raise (Exception (validation_error errores))
  end.

Definition add_evento (ahora : Z) (evento_data : HistorialClinicoCreate.t)
    : M (Z * HistorialClinico.t) :=
  let evento_dict := HistorialClinicoCreate.dict evento_data in
  let evento_dict :=
    <["fecha_evento" := dict_get evento_dict "fecha_evento" (VFecha ahora)]>
      evento_dict in
  create evento_dict.

Definition add_evento_consulta (ahora : Z) (mascota_id : option Z)
    (consulta_id veterinario_id : Z) (descripcion : string)
    (peso_actual : option Z) : M (Z * HistorialClinico.t) :=
  evento_data ← nuevo_HistorialClinicoCreate mascota_id (Some consulta_id)
                  (Some veterinario_id) "Consulta médica" descripcion
                  peso_actual ahora;
  add_evento ahora evento_data.

(** *** [app/crud/auth_crud.py]: password changes *)

Definition change_password (user_id : Z) (current_password new_password : string)
    : M (bool * string) :=
  usuario ← leer (λ bd, first (λ p, p.1 = user_id) (usuarios bd));
  match usuario with
  | None => mret (false, "Usuario no encontrado")
  | Some u =>
      if decide (Usuario.contraseña u.2 ≠ current_password)
      then mret (false, "Contraseña actual incorrecta")
      else if Py.len_lt new_password 3
      then mret (false, "La nueva contraseña debe tener al menos 3 caracteres")
      else
        guardar (u.1, Usuario.con_contraseña u.2 new_password);;
        mret (true, "Contraseña cambiada exitosamente")
  end.

Definition reset_password (username new_password : string) : M (bool * string) :=
  usuario ← leer (λ bd, first (λ p, Usuario.username p.2 = username) (usuarios bd));
  match usuario with
  | None => mret (false, "Usuario no encontrado")
  | Some u =>
      if Py.len_lt new_password 3
      then mret (false, "La contraseña debe tener al menos 3 caracteres")
      else
        guardar (u.1, Usuario.con_contraseña u.2 new_password);;
        mret (true, "Contraseña reseteada exitosamente")
  end.

(** *** [app/api/v1/endpoints/consultas.py] *)

Definition estados_validos : list string :=
  ["Pendiente"; "En triaje"; "En atencion"; "Completada"; "Cancelada"].

(** Body of the answer of [actualizar_estado_solicitud]. *)
Record EstadoActualizado := mkEstadoActualizado {
  message : string;
  solicitud : Z * SolicitudAtencion.t
}.

Definition actualizar_estado_solicitud (solicitud_id : Z) (nuevo_estado : string)
    : M EstadoActualizado :=
  try_except "Error al actualizar estado: " (
    (if decide (nuevo_estado ∈ estados_validos) then mret ()
     else raise (HTTPException 400
                   ("Estado inválido. Debe ser uno de: "
                    +:+ Py.join ", " estados_validos)));;
    solicitud_actualizada ← cambiar_estado solicitud_id nuevo_estado;
    match solicitud_actualizada with
    | None => raise (HTTPException 404 "Solicitud no encontrada")
    | Some s => mret (mkEstadoActualizado "Estado actualizado exitosamente" s)
    end).

(** [ahora] is the value of [datetime.now()] during the call. *)
Definition create_solicitud_atencion (ahora : Z)
    (solicitud_data : SolicitudAtencionCreate.t)
    : M (Z * SolicitudAtencion.t) :=
  try_except "Error al crear solicitud: " (
    mascota_obj ← CRUDBase.get (A:=Mascota.t)
                    (SolicitudAtencionCreate.id_mascota solicitud_data);
    (if mascota_obj is Some _ then mret ()
     else raise (HTTPException 400 "Mascota no encontrada"));;
    recep_obj ← CRUDBase.get (A:=Recepcionista.t)
                  (SolicitudAtencionCreate.id_recepcionista solicitud_data);
    (if recep_obj is Some _ then mret ()
     else raise (HTTPException 400 "Recepcionista no encontrada"));;
    let solicitud_dict := SolicitudAtencionCreate.dict solicitud_data in
    let solicitud_dict :=
      <["fecha_hora_solicitud" :=
          dict_get solicitud_dict "fecha_hora_solicitud" (VFecha ahora)]>
        solicitud_dict in
    let solicitud_dict := <["estado" := VStr "Pendiente"]> solicitud_dict in
    create solicitud_dict).

(** The f-string of the historial event written by [create_consulta]. *)
Definition descripcion_consulta (consulta_data : ConsultaCreate.t) : string :=
  "Consulta: " +:+ ConsultaCreate.tipo_consulta consulta_data
  +:+ ". Motivo: "
  +:+ (if Py.truthy_str (ConsultaCreate.motivo_consulta consulta_data)
       then default "" (ConsultaCreate.motivo_consulta consulta_data)
       else "No especificado").

(** [float(peso) if peso else None] on the triaje's weight. *)
Definition peso_actual (triaje_obj : Triaje.t) : option Z :=
  if Z.eqb (Triaje.peso_mascota triaje_obj) 0 then None
  else Some (Triaje.peso_mascota triaje_obj).

(** [create_consulta].  The ORM objects read before a commit are used
    after it only through columns that no write of the handler changes
    ([id_solicitud], [peso_mascota], [id_mascota]), so reading them from
    the value fetched earlier is what the reloaded object gives. *)
Definition create_consulta (ahora : Z) (consulta_data : ConsultaCreate.t)
    : M (Z * Consulta.t) :=
  try_except "Error al crear consulta: " (
    triaje_obj ← CRUDBase.get (A:=Triaje.t) (ConsultaCreate.id_triaje consulta_data);
    match triaje_obj with
    | None => raise (HTTPException 400 "Triaje no encontrado")
    | Some triaje_obj =>
      veterinario_obj ← CRUDBase.get (A:=Veterinario.t)
                          (ConsultaCreate.id_veterinario consulta_data);
      (if veterinario_obj is Some _ then mret ()
       else raise (HTTPException 400 "Veterinario no encontrado"));;
      consulta_existente ←
        leer (λ bd, get_by_triaje bd (ConsultaCreate.id_triaje consulta_data));
      (if consulta_existente is Some _
       then raise (HTTPException 400 "Ya existe una consulta para este triaje")
       else mret ());;
      let consulta_dict := ConsultaCreate.dict consulta_data in
      let consulta_dict :=
        <["fecha_consulta" :=
            dict_get consulta_dict "fecha_consulta" (VFecha ahora)]>
          consulta_dict in
      nueva_consulta ← create (A:=Consulta.t) consulta_dict;
      cambiar_disposicion (ConsultaCreate.id_veterinario consulta_data) "Ocupado";;
      solicitud_obj ← CRUDBase.get (A:=SolicitudAtencion.t)
                        (Triaje.id_solicitud triaje_obj.2);
      (if solicitud_obj is Some _
       then cambiar_estado (Triaje.id_solicitud triaje_obj.2) "En atencion";; mret ()
       else mret ());;
      (if solicitud_obj is Some solicitud_obj
       then add_evento_consulta ahora
              (SolicitudAtencion.id_mascota solicitud_obj.2)
              nueva_consulta.1
              (ConsultaCreate.id_veterinario consulta_data)
              (descripcion_consulta consulta_data)
              (peso_actual triaje_obj.2);; mret ()
       else mret ());;
      mret nueva_consulta
    end).

End Sesion.

(** * Vocabulary of the statements

    Stores reached by the writes, rows built by the handlers and the
    predicates the properties are stated with. *)

(** The roles of the permission table. *)
Definition roles : list string := ["Administrador"; "Veterinario"; "Recepcionista"].

(** The usernames stored, one per row: the UNIQUE constraint on
    [usuarios.username] is [NoDup (usernames bd)]. *)
Definition usernames (bd : BD) : list string :=
  (λ p, Usuario.username p.2) <$> map_to_list (usuarios bd).

(** The store after [change_password] succeeds for user [user_id]. *)
Definition tras_contraseña (bd : BD) (user_id : Z) (u : Usuario.t)
    (new_password : string) : BD :=
  con_usuarios bd (<[user_id := Usuario.con_contraseña u new_password]> (usuarios bd)).

(** The store after the estado of solicitud [solicitud_id] is overwritten. *)
Definition tras_estado (bd : BD) (solicitud_id : Z) (s : SolicitudAtencion.t)
    (nuevo_estado : string) : BD :=
  con_solicitudes bd
    (<[solicitud_id := SolicitudAtencion.con_estado s (Some nuevo_estado)]>
       (solicitudes bd)).

(** The store after the estado_cita of cita [cita_id] becomes [e]. *)
Definition tras_estado_cita (bd : BD) (cita_id : Z) (c : Cita.t) (e : string) : BD :=
  con_citas bd (<[cita_id := Cita.con_estado_cita c (Some e)]> (citas bd)).

(** The two status-changing operations on a cita, as requests. *)
Inductive OperacionCita :=
| Cancelar (cita_id : Z)
| MarcarAtendida (cita_id : Z).

Definition ejecutar (motor : BD → option string) (op : OperacionCita)
    : M (option (Z * Cita.t)) :=
  match op with
  | Cancelar cita_id => cancelar_cita motor cita_id
  | MarcarAtendida cita_id => marcar_atendida motor cita_id
  end.

Definition cita_de (op : OperacionCita) : Z :=
  match op with
  | Cancelar cita_id => cita_id
  | MarcarAtendida cita_id => cita_id
  end.

Definition destino (op : OperacionCita) : string :=
  match op with
  | Cancelar _ => "Cancelada"
  | MarcarAtendida _ => "Atendida"
  end.

(** The store after a sequence of requests, each one starting from the
    store the previous one left, whether it returned or raised. *)
Fixpoint tras_operaciones (motor : BD → option string)
    (ops : list OperacionCita) (bd : BD) : BD :=
  match ops with
  | [] => bd
  | op :: resto =>
      tras_operaciones motor resto (estado_final (ejecutar motor op bd))
  end.

(** The target instant is taken by a cita other than [cita_id] that is
    'Programada'. *)
Definition horario_ocupado (bd : BD) (cita_id : Z) (fecha_hora : Z) : Prop :=
  ∃ j c, j ≠ cita_id
         ∧ citas bd !! j = Some c
         ∧ Cita.fecha_hora_programada c = fecha_hora
         ∧ Cita.estado_cita c = Some "Programada".

(** The store after cita [cita_id] is moved to [fecha_hora]. *)
Definition tras_reprogramar (bd : BD) (cita_id : Z) (c : Cita.t) (fecha_hora : Z)
    : BD :=
  con_citas bd
    (<[cita_id := Cita.con_fecha_hora_programada c fecha_hora]> (citas bd)).

(** The row [create_solicitud_atencion] hands to [create]: the dict of the
    request always has the key [fecha_hora_solicitud], so [dict.get] never
    falls back on the clock. *)
Definition fila_solicitud (solicitud_data : SolicitudAtencionCreate.t)
    : SolicitudAtencion.t :=
  SolicitudAtencion.mk
    (Some (SolicitudAtencionCreate.id_mascota solicitud_data))
    (Some (SolicitudAtencionCreate.id_recepcionista solicitud_data))
    (SolicitudAtencionCreate.fecha_hora_solicitud solicitud_data)
    (Some (SolicitudAtencionCreate.tipo_solicitud solicitud_data))
    (Some "Pendiente").

Definition tras_solicitud (bd : BD) (solicitud_data : SolicitudAtencionCreate.t)
    : BD :=
  con_solicitudes bd
    (<[siguiente_id (solicitudes bd) := fila_solicitud solicitud_data]>
       (solicitudes bd)).

(** The consulta row built from the request. *)
Definition fila_consulta (consulta_data : ConsultaCreate.t) : Consulta.t :=
  Consulta.mk
    (Some (ConsultaCreate.id_triaje consulta_data))
    (Some (ConsultaCreate.id_veterinario consulta_data))
    (Some (ConsultaCreate.tipo_consulta consulta_data))
    (ConsultaCreate.fecha_consulta consulta_data)
    (ConsultaCreate.motivo_consulta consulta_data)
    (ConsultaCreate.sintomas_observados consulta_data)
    (ConsultaCreate.diagnostico_preliminar consulta_data)
    (ConsultaCreate.observaciones consulta_data)
    (Some (ConsultaCreate.condicion_general consulta_data))
    (Some (ConsultaCreate.es_seguimiento consulta_data)).

(** The historial row of the event 'Consulta médica'. *)
Definition fila_evento (ahora : Z) (consulta_data : ConsultaCreate.t)
    (consulta_id mascota_id : Z) (triaje_obj : Triaje.t) : HistorialClinico.t :=
  HistorialClinico.mk
    (Some mascota_id) (Some consulta_id) None None
    (Some (ConsultaCreate.id_veterinario consulta_data))
    (Some ahora) (Some "Consulta médica") None
    (Some (Py.strip (descripcion_consulta consulta_data)))
    (peso_actual triaje_obj) None.

(** The stores after the first, second, third and fourth commit. *)
Definition tras_consulta (bd : BD) (consulta_data : ConsultaCreate.t) : BD :=
  con_consultas bd
    (<[siguiente_id (consultas bd) := fila_consulta consulta_data]> (consultas bd)).

Definition tras_disposicion (bd : BD) (consulta_data : ConsultaCreate.t)
    (v : Veterinario.t) : BD :=
  con_veterinarios (tras_consulta bd consulta_data)
    (<[ConsultaCreate.id_veterinario consulta_data :=
         Veterinario.con_disposicion v (Some "Ocupado")]> (veterinarios bd)).

Definition tras_en_atencion (bd : BD) (consulta_data : ConsultaCreate.t)
    (v : Veterinario.t) (triaje_obj : Triaje.t) (s : SolicitudAtencion.t) : BD :=
  con_solicitudes (tras_disposicion bd consulta_data v)
    (<[Triaje.id_solicitud triaje_obj :=
         SolicitudAtencion.con_estado s (Some "En atencion")]> (solicitudes bd)).

Definition tras_evento (bd : BD) (ahora : Z) (consulta_data : ConsultaCreate.t)
    (v : Veterinario.t) (triaje_obj : Triaje.t) (s : SolicitudAtencion.t)
    (mascota_id : Z) : BD :=
  con_historiales (tras_en_atencion bd consulta_data v triaje_obj s)
    (<[siguiente_id (historiales bd) :=
         fila_evento ahora consulta_data (siguiente_id (consultas bd))
           mascota_id triaje_obj]> (historiales bd)).

(** Preconditions under which [create_consulta] reaches its writes and
    all four of them apply: the triaje and the veterinarian exist, the
    triaje has no consulta yet, and the solicitud of the triaje exists and
    names its mascota. *)
Record consulta_creable (bd : BD) (consulta_data : ConsultaCreate.t)
    (v : Veterinario.t) (triaje_obj : Triaje.t) (s : SolicitudAtencion.t)
    (mascota_id : Z) : Prop := {
  existe_triaje :
    triajes bd !! ConsultaCreate.id_triaje consulta_data = Some triaje_obj;
  existe_veterinario :
    veterinarios bd !! ConsultaCreate.id_veterinario consulta_data = Some v;
  sin_consulta_previa :
    get_by_triaje bd (ConsultaCreate.id_triaje consulta_data) = None;
  existe_solicitud :
    solicitudes bd !! Triaje.id_solicitud triaje_obj = Some s;
  con_mascota : SolicitudAtencion.id_mascota s = Some mascota_id
}.

Definition error_500 (msg : string) : Excepcion :=
  HTTPException 500 ("Error al crear consulta: " +:+ msg).

(** ** Example data

    A small clinic: an active administrator and an inactive veterinarian
    as users, one mascota, one recepcionista, a solicitud in triage with its
    triaje, and three citas. *)

Definition motor_acepta : BD → option string := λ _, None.

(** An engine that refuses any commit once the historial is not empty. *)
Definition motor_sin_historial : BD → option string := λ bd,
  if decide (historiales bd = ∅) then None else Some "historial rechazado".

Definition texto_validacion : list string → string := λ campos,
  "valor no válido para " +:+ Py.join ", " campos.

Definition veterinario_ejemplo : Veterinario.t :=
  Veterinario.mk 2 1 "CMVP-0001" "Medico General" 0 "F" "Rosa" "Quispe" "Luna"
    "40000001" "900000001" "rosa@clinica.pe" 0 (Some "Libre") "Mañana".

Definition triaje_ejemplo : Triaje.t :=
  Triaje.mk 1 1 950 1250 90 30 3850 None None None 80 None (Some "Ideal") "Urgente".

Definition solicitud_ejemplo : SolicitudAtencion.t :=
  SolicitudAtencion.mk (Some 3) (Some 5) (Some 900) (Some "Consulta normal")
    (Some "En triaje").

Definition cita_ejemplo (fecha_hora : Z) (estado_cita : string) : Cita.t :=
  Cita.mk (Some 3) (Some 1) None fecha_hora (Some estado_cita) None None.

Definition bd_ejemplo : BD := {|
  usuarios :=
    {[ 1 := Usuario.mk "admin" "admin123" "Administrador" None (Some "Activo");
       2 := Usuario.mk "rosa" "clave" "Veterinario" None (Some "Inactivo") ]};
  administradores := ∅;
  veterinarios := {[ 1 := veterinario_ejemplo ]};
  recepcionistas :=
    {[ 5 := Recepcionista.mk 7 "Ana" "Perez" "Diaz" "40000002" "900000002"
              "ana@clinica.pe" None None "F" ]};
  mascotas := {[ 3 := Mascota.mk 1 "Firulais" "Macho" None None None None None ]};
  solicitudes := {[ 1 := solicitud_ejemplo ]};
  triajes := {[ 1 := triaje_ejemplo ]};
  consultas := ∅;
  diagnosticos := ∅;
  historiales := ∅;
  citas := {[ 1 := cita_ejemplo 5000 "Programada";
              2 := cita_ejemplo 6000 "Cancelada";
              3 := cita_ejemplo 7000 "Programada" ]}
|}.

Definition consulta_ejemplo : ConsultaCreate.t :=
  ConsultaCreate.mk 1 1 "Consulta general" (Some "Vomitos desde ayer") None None
    None "Regular" false (Some 1000).

Definition solicitud_sin_fecha : SolicitudAtencionCreate.t :=
  SolicitudAtencionCreate.mk 3 5 "Consulta normal" None.

(** * Further operations

    The rest of the code around the operations above: the generic
    [CRUDBase] methods, the read side of [CRUDAuth], the user CRUD that
    goes through [CRUDBase.get], the diagnosis confirmation and two more
    handlers of the clinical workflow. *)

#[global] Instance Diagnostico_modelo : Modelo Diagnostico.t := {|
  tablename := "Diagnostico";
  primary_key := "id_diagnostico";
  columnas := ["id_diagnostico"; "id_consulta"; "id_patologia";
               "tipo_diagnostico"; "fecha_diagnostico"; "estado_patologia";
               "diagnostico"];
  entero c d :=
    if decide (c = "id_consulta") then Diagnostico.id_consulta d
    else if decide (c = "id_patologia") then Diagnostico.id_patologia d
    else None;
  tabla := diagnosticos;
  con_tabla bd m :=
    mkBD (usuarios bd) (administradores bd) (veterinarios bd) (recepcionistas bd)
         (mascotas bd) (solicitudes bd) (triajes bd) (consultas bd)
         m (historiales bd) (citas bd)
|}.

Definition Diagnostico_con_tipo (d : Diagnostico.t) (tipo : string) : Diagnostico.t :=
  Diagnostico.mk (Diagnostico.id_consulta d) (Diagnostico.id_patologia d) tipo
    (Diagnostico.fecha_diagnostico d) (Diagnostico.estado_patologia d)
    (Diagnostico.diagnostico d).

Definition Usuario_con_estado (u : Usuario.t) (e : option string) : Usuario.t :=
  Usuario.mk (Usuario.username u) (Usuario.contraseña u) (Usuario.tipo_usuario u)
    (Usuario.fecha_creacion u) e.

(** [setattr(obj, 'estado', e)] for the classes that have the attribute
    [estado]; [None] for a class without it. *)
Class AtributoEstado (A : Type) := poner_estado : option (A → string → A).

#[global] Instance Usuario_estado : AtributoEstado Usuario.t :=
  Some (λ u e, Usuario_con_estado u (Some e)).
#[global] Instance SolicitudAtencion_estado : AtributoEstado SolicitudAtencion.t :=
  Some (λ s e, SolicitudAtencion.con_estado s (Some e)).
#[global] Instance Mascota_estado : AtributoEstado Mascota.t := None.
#[global] Instance Cita_estado : AtributoEstado Cita.t := None.
#[global] Instance Consulta_estado : AtributoEstado Consulta.t := None.
#[global] Instance Diagnostico_estado : AtributoEstado Diagnostico.t := None.
#[global] Instance HistorialClinico_estado : AtributoEstado HistorialClinico.t := None.

(** ** [app/crud/base_crud.py]: the other generic methods *)

Module Base.
Section Metodos.
Variable motor : BD → option string.
Context {A : Type} `{Modelo A}.

(** [self.get(db, id)] for an id that may be [None]: the comparison with
    [None] is IS NULL, which no primary key satisfies. *)
Definition get_opcional (id : option Z) : M (option (Z * A)) :=
  match id with
  | Some id => CRUDBase.get id
  | None =>
      match CRUDBase.id_field A with
      | Some campo =>
          if decide (campo = primary_key A) then mret None
          else leer (λ bd, first (λ p, entero campo p.2 = None) (tabla bd))
      | None => raise (Exception "No se pudo determinar el campo de ID")
      end
  end.

Definition remove (id : Z) : M (option (Z * A)) :=
  obj ← CRUDBase.get id;
  match obj with
  | Some o =>
      commit motor (λ bd, con_tabla bd (delete o.1 (tabla bd)));;
      mret (Some o)
  | None => mret None
  end.

Definition soft_delete `{AtributoEstado A, ColumnasEnum A} (id : Z)
    : M (option (Z * A)) :=
  obj ← CRUDBase.get id;
  match obj, poner_estado with
  | Some o, Some poner =>
      Some <$> (guardar motor (o.1, poner o.2 "Inactivo") ≫= refresh "estado")
  | _, _ => mret obj
  end.

Definition count (bd : BD) : nat := size (tabla bd).

Definition exists_ (id : Z) : M bool :=
  obj ← CRUDBase.get id;
  mret (bool_decide (is_Some obj)).

End Metodos.
End Base.

(** ** [app/crud/auth_crud.py]: reading a user *)

Definition get_user_by_id (bd : BD) (user_id : Z) : option CRUDAuth.DatosUsuario :=
  match first (λ p, p.1 = user_id) (usuarios bd) with
  | None => None
  | Some usuario =>
      let perfil := CRUDAuth._get_user_profile bd usuario in
      Some (CRUDAuth.mkDatos usuario perfil (Usuario.tipo_usuario usuario.2)
              (CRUDAuth._get_user_permissions (Usuario.tipo_usuario usuario.2)))
  end.

Definition validate_user_status (bd : BD) (user_id : Z) : bool * string :=
  match first (λ p, p.1 = user_id) (usuarios bd) with
  | None => (false, "Usuario no encontrado")
  | Some usuario =>
      if decide (Usuario.estado usuario.2 = Some "Inactivo")
      then (false, "Usuario inactivo")
      else (true, "Usuario válido")
  end.

(** ** [app/crud/usuario_crud.py] *)

Module CRUDUsuario.
Section Metodos.
Variable motor : BD → option string.

Definition get_by_username (bd : BD) (username : string) : option (Z * Usuario.t) :=
  first (λ p, Usuario.username p.2 = username) (usuarios bd).

Definition authenticate (bd : BD) (username password : string)
    : option (Z * Usuario.t) :=
  match get_by_username bd username with
  | Some usuario =>
      if decide (Usuario.contraseña usuario.2 = password
                 ∧ Usuario.estado usuario.2 = Some "Activo")
      then Some usuario
      else None
  | None => None
  end.

Definition exists_by_username (bd : BD) (username : string) (exclude_id : option Z)
    : bool :=
  let query :=
    filter (λ p, Usuario.username p.2 = username) (map_to_list (usuarios bd)) in
  let query :=
    if Py.truthy_int exclude_id
    then filter (λ p, Some p.1 ≠ exclude_id) query
    else query in
  bool_decide (head query ≠ None).

Definition change_password (user_id : Z) (new_password : string)
    : M (option (Z * Usuario.t)) :=
  usuario ← CRUDBase.get user_id;
  match usuario with
  | Some u =>
      Some <$> (guardar motor (u.1, Usuario.con_contraseña u.2 new_password)
                ≫= refresh "contraseña")
  | None => mret None
  end.

Definition activate_user (user_id : Z) : M (option (Z * Usuario.t)) :=
  usuario ← CRUDBase.get user_id;
  match usuario with
  | Some u =>
      Some <$> (guardar motor (u.1, Usuario_con_estado u.2 (Some "Activo"))
                ≫= refresh "estado")
  | None => mret None
  end.

Definition deactivate_user (user_id : Z) : M (option (Z * Usuario.t)) :=
  usuario ← CRUDBase.get user_id;
  match usuario with
  | Some u =>
      Some <$> (guardar motor (u.1, Usuario_con_estado u.2 (Some "Inactivo"))
                ≫= refresh "estado")
  | None => mret None
  end.

End Metodos.
End CRUDUsuario.

(** ** [app/crud/consulta_crud.py]: diagnosis confirmation *)

Section Mas_operaciones.
Variable motor : BD → option string.
Variable validation_error : list string → string.

Definition confirmar_diagnostico (diagnostico_id : Z)
    : M (option (Z * Diagnostico.t)) :=
  diagnostico_obj ← CRUDBase.get diagnostico_id;
  match diagnostico_obj with
  | Some d =>
      if decide (Diagnostico.tipo_diagnostico d.2 = "Presuntivo")
      then Some <$> (guardar motor (d.1, Diagnostico_con_tipo d.2 "Confirmado")
                     ≫= refresh "tipo_diagnostico")
      else mret (Some d)
  | None => mret None
  end.

(** [cambiar_disposicion] and [cambiar_estado] called with a column value
    that may be [None]. *)
Definition cambiar_disposicion_de (veterinario_id : option Z)
    (nueva_disposicion : string) : M (option (Z * Veterinario.t)) :=
  veterinario ← Base.get_opcional veterinario_id;
  match veterinario with
  | Some v =>
      Some <$> (guardar motor
                  (v.1, Veterinario.con_disposicion v.2 (Some nueva_disposicion))
                ≫= refresh "disposicion")
  | None => mret None
  end.

(** *** [app/api/v1/endpoints/consultas.py]: two more handlers *)

Definition get_solicitud_atencion (solicitud_id : Z)
    : M (Z * SolicitudAtencion.t) :=
  try_except "Error al obtener solicitud: " (
    solicitud ← CRUDBase.get (A:=SolicitudAtencion.t) solicitud_id;
    match solicitud with
    | None => raise (HTTPException 404 "Solicitud no encontrada")
    | Some s => mret s
    end).

(** Body of the answer of [finalizar_consulta]. *)
Record ConsultaFinalizada := mkConsultaFinalizada {
  mensaje_finalizada : string;
  success : bool;
  consulta_id_finalizada : Z
}.

Definition finalizar_consulta (consulta_id : Z) : M ConsultaFinalizada :=
  try_except "Error al finalizar consulta: " (
    consulta_obj ← CRUDBase.get (A:=Consulta.t) consulta_id;
    match consulta_obj with
    | None => raise (HTTPException 404 "Consulta no encontrada")
    | Some consulta_obj =>
      cambiar_disposicion_de (Consulta.id_veterinario consulta_obj.2) "Libre";;
      triaje_obj ← Base.get_opcional (A:=Triaje.t) (Consulta.id_triaje consulta_obj.2);
      (if triaje_obj is Some triaje_obj
       then cambiar_estado motor (Triaje.id_solicitud triaje_obj.2) "Completada";;
            mret ()
       else mret ());;
      mret (mkConsultaFinalizada "Consulta finalizada exitosamente" true consulta_id)
    end).

(** *** Requests, for statements about sequences of calls *)

(** The three operations on a cita that write. *)
Inductive PeticionCita :=
| PCancelar (cita_id : Z)
| PMarcarAtendida (cita_id : Z)
| PReprogramar (cita_id : Z) (nueva_fecha_hora : Z).

Definition atender_cita (p : PeticionCita) : M (option (Z * Cita.t)) :=
  match p with
  | PCancelar cita_id => cancelar_cita motor cita_id
  | PMarcarAtendida cita_id => marcar_atendida motor cita_id
  | PReprogramar cita_id nueva_fecha_hora =>
      reprogramar_cita motor cita_id nueva_fecha_hora
  end.

Fixpoint tras_peticiones_cita (ps : list PeticionCita) (bd : BD) : BD :=
  match ps with
  | [] => bd
  | p :: resto => tras_peticiones_cita resto (estado_final (atender_cita p bd))
  end.

(** The handlers of the clinical workflow that write a solicitud or a
    consulta; [ahora] is the clock reading of the call. *)
Inductive PeticionClinica :=
| PCrearSolicitud (ahora : Z) (solicitud_data : SolicitudAtencionCreate.t)
| PActualizarEstado (solicitud_id : Z) (nuevo_estado : string)
| PCrearConsulta (ahora : Z) (consulta_data : ConsultaCreate.t)
| PFinalizarConsulta (consulta_id : Z).

(** The store a request leaves, whether the handler returned or raised. *)
Definition atender (p : PeticionClinica) (bd : BD) : BD :=
  match p with
  | PCrearSolicitud ahora solicitud_data =>
      estado_final (create_solicitud_atencion motor ahora solicitud_data bd)
  | PActualizarEstado solicitud_id nuevo_estado =>
      estado_final (actualizar_estado_solicitud motor solicitud_id nuevo_estado bd)
  | PCrearConsulta ahora consulta_data =>
      estado_final (create_consulta motor validation_error ahora consulta_data bd)
  | PFinalizarConsulta consulta_id =>
      estado_final (finalizar_consulta consulta_id bd)
  end.

Fixpoint tras_peticiones (ps : list PeticionClinica) (bd : BD) : BD :=
  match ps with
  | [] => bd
  | p :: resto => tras_peticiones resto (atender p bd)
  end.

End Mas_operaciones.

(** ** Pagination of the search handlers

    [(total + per_page - 1) // per_page] and
    [query.offset((page - 1) * per_page).limit(per_page).all()] over the
    ordered result of a query. *)

Definition total_pages (total per_page : Z) : Z :=
  (total + per_page - 1) `div` per_page.

Definition pagina {A} (resultado : list A) (page per_page : Z) : list A :=
  take (Z.to_nat per_page) (drop (Z.to_nat ((page - 1) * per_page)) resultado).

(** ** Vocabulary of the further statements *)

(** Every stored solicitud has one of the five states of the
    estado-update handler. *)
Definition estados_enumerados (bd : BD) : Prop :=
  ∀ i s, solicitudes bd !! i = Some s →
         ∃ e, SolicitudAtencion.estado s = Some e ∧ e ∈ estados_validos.

(** No triaje has two consultas. *)
Definition una_consulta_por_triaje (bd : BD) : Prop :=
  ∀ i j c d t, consultas bd !! i = Some c → consultas bd !! j = Some d →
               Consulta.id_triaje c = Some t → Consulta.id_triaje d = Some t →
               i = j.

(** No two 'Programada' citas hold the same instant. *)
Definition sin_doble_reserva (bd : BD) : Prop :=
  ∀ i j c d, citas bd !! i = Some c → citas bd !! j = Some d →
             Cita.estado_cita c = Some "Programada" →
             Cita.estado_cita d = Some "Programada" →
             Cita.fecha_hora_programada c = Cita.fecha_hora_programada d →
             i = j.

(** The permissions a role holds. *)
Definition permisos_de (rol : string) : gset string :=
  dom (filter (λ kv, kv.2 = true) (CRUDAuth._get_user_permissions rol)).


(** The computation keeps [P]: from a store with [P] it leaves a store
    with [P], whether it returns or raises. *)
Definition conserva {A} (P : BD → Prop) (m : M A) : Prop :=
  ∀ bd, P bd → P (estado_final (m bd)).


(** The stores after the two commits of [finalizar_consulta]. *)
Definition tras_liberar (bd : BD) (veterinario_id : Z) (v : Veterinario.t) : BD :=
  con_veterinarios bd
    (<[veterinario_id := Veterinario.con_disposicion v (Some "Libre")]>
       (veterinarios bd)).

Definition tras_completada (bd : BD) (veterinario_id : Z) (v : Veterinario.t)
    (solicitud_id : Z) (s : SolicitudAtencion.t) : BD :=
  con_solicitudes (tras_liberar bd veterinario_id v)
    (<[solicitud_id := SolicitudAtencion.con_estado s (Some "Completada")]>
       (solicitudes bd)).


(** * Properties *)

(** ** Queries and keys *)

Section Consultas_sobre_tablas.
Context {A : Type}.
Implicit Types (m : gmap Z A) (p : Z * A).

Lemma first_Some (P : Z * A → Prop) `{!∀ p, Decision (P p)} m p :
  first P m = Some p → m !! p.1 = Some p.2 ∧ P p.
Proof.
  unfold first. intros Hh.
  apply head_Some_elem_of in Hh.
  apply list_elem_of_filter in Hh as [HP Hin].
  destruct p as [i x]. by apply elem_of_map_to_list in Hin.
Qed.

Lemma first_None (P : Z * A → Prop) `{!∀ p, Decision (P p)} m :
  first P m = None ↔ ∀ i x, m !! i = Some x → ¬ P (i, x).
Proof.
  unfold first. rewrite head_None. split.
  - intros Hnil i x Hix HP.
    assert (Hin : (i, x) ∈ filter P (map_to_list m)).
    { apply list_elem_of_filter. split; [done|]. by apply elem_of_map_to_list. }
    rewrite Hnil in Hin. by apply not_elem_of_nil in Hin.
  - intros Hno. destruct (filter P (map_to_list m)) as [|[i x] l] eqn:Hf; [done|].
    assert (Hin : (i, x) ∈ filter P (map_to_list m)) by (rewrite Hf; left).
    apply list_elem_of_filter in Hin as [HP Hin].
    apply elem_of_map_to_list in Hin. by destruct (Hno i x).
Qed.

(** A query with exactly one match returns it. *)
Lemma first_unico (P : Z * A → Prop) `{!∀ p, Decision (P p)} m i x :
  m !! i = Some x → P (i, x) →
  (∀ j y, m !! j = Some y → P (j, y) → j = i) →
  first P m = Some (i, x).
Proof.
  intros Hix HP Huniq. destruct (first P m) as [[j y]|] eqn:Hf.
  - apply first_Some in Hf as [Hjy HPj]. simpl in *.
    pose proof (Huniq j y Hjy HPj) as ->. congruence.
  - rewrite first_None in Hf. by destruct (Hf i x).
Qed.

(** Filtering on the primary key is a lookup. *)
Lemma first_clave m k : first (λ p, p.1 = k) m = pair k <$> m !! k.
Proof.
  destruct (m !! k) as [x|] eqn:Hk; simpl.
  - apply first_unico; [done..|]. by intros j y _ ?.
  - apply first_None. intros i x Hix Hik. simpl in Hik. congruence.
Qed.

Lemma siguiente_id_cota m k : is_Some (m !! k) → k < siguiente_id m.
Proof.
  unfold siguiente_id. revert k.
  apply (map_fold_weak_ind
           (λ acc m, ∀ k, is_Some (m !! k) → k < 1 + acc)).
  - intros k [x Hx]. by rewrite lookup_empty in Hx.
  - intros i x m' r Hi IH k Hk.
    destruct (decide (k = i)) as [->|Hne]; [lia|].
    rewrite lookup_insert_ne in Hk by done.
    specialize (IH k Hk). lia.
Qed.

(** The key given to a new row is free. *)
Lemma siguiente_id_libre m : m !! siguiente_id m = None.
Proof.
  destruct (m !! siguiente_id m) eqn:Hs; [|done].
  assert (siguiente_id m < siguiente_id m); [|lia].
  apply siguiente_id_cota. by rewrite Hs.
Qed.

Lemma siguiente_id_positivo m : 1 ≤ siguiente_id m.
Proof.
  unfold siguiente_id.
  apply (map_fold_weak_ind (λ acc (_ : gmap Z A), 1 ≤ 1 + acc)); intros; lia.
Qed.

End Consultas_sobre_tablas.

(** For every class read through [CRUDBase.get] in this development the id
    column found is the primary key, so [get] is a lookup by key. *)
Lemma id_field_Mascota : CRUDBase.id_field Mascota.t = Some "id_mascota".
Proof. reflexivity. Qed.
Lemma id_field_Recepcionista :
  CRUDBase.id_field Recepcionista.t = Some "id_recepcionista".
Proof. reflexivity. Qed.
Lemma id_field_Veterinario : CRUDBase.id_field Veterinario.t = Some "id_veterinario".
Proof. reflexivity. Qed.
Lemma id_field_SolicitudAtencion :
  CRUDBase.id_field SolicitudAtencion.t = Some "id_solicitud".
Proof. reflexivity. Qed.
Lemma id_field_Triaje : CRUDBase.id_field Triaje.t = Some "id_triaje".
Proof. reflexivity. Qed.
Lemma id_field_Cita : CRUDBase.id_field Cita.t = Some "id_cita".
Proof. reflexivity. Qed.

Lemma get_Mascota id bd :
  CRUDBase.get (A:=Mascota.t) id bd = Ret (pair id <$> mascotas bd !! id) bd.
Proof. reflexivity. Qed.
Lemma get_Recepcionista id bd :
  CRUDBase.get (A:=Recepcionista.t) id bd
  = Ret (pair id <$> recepcionistas bd !! id) bd.
Proof. reflexivity. Qed.
Lemma get_Veterinario id bd :
  CRUDBase.get (A:=Veterinario.t) id bd = Ret (pair id <$> veterinarios bd !! id) bd.
Proof. reflexivity. Qed.
Lemma get_SolicitudAtencion id bd :
  CRUDBase.get (A:=SolicitudAtencion.t) id bd
  = Ret (pair id <$> solicitudes bd !! id) bd.
Proof. reflexivity. Qed.
Lemma get_Triaje id bd :
  CRUDBase.get (A:=Triaje.t) id bd = Ret (pair id <$> triajes bd !! id) bd.
Proof. reflexivity. Qed.
Lemma get_Cita id bd :
  CRUDBase.get (A:=Cita.t) id bd = Ret (pair id <$> citas bd !! id) bd.
Proof. reflexivity. Qed.

(** ** Authentication and authorization ([CRUDAuth]) *)

(** Closed decidable facts are settled by evaluation. *)
Ltac por_calculo := apply (bool_decide_unpack _); vm_compute; exact I.

Lemma dom_permissions :
  dom CRUDAuth.permissions = list_to_set (C:=gset string) roles.
Proof. por_calculo. Qed.

Lemma permissions_fuera_de_roles user_type :
  user_type ∉ roles → CRUDAuth.permissions !! user_type = None.
Proof.
  intros Hno. apply not_elem_of_dom.
  by rewrite dom_permissions, elem_of_list_to_set.
Qed.

Lemma permisos_Administrador_todos :
  map_Forall (λ _ (b : bool), b = true)
    (CRUDAuth._get_user_permissions "Administrador").
Proof. por_calculo. Qed.

(** C6.  [verify_permission] is a function of the role and the permission
    name alone, read off a fixed table whose rows are exactly the three
    roles Administrador, Veterinario and Recepcionista: it answers True
    exactly when the table has a row for the role holding True under the
    permission name; an unknown role or a permission name missing from the
    role's row gives False; and every entry of the Administrador row is
    True. *)
Theorem verify_permission_tabla_estatica :
  dom CRUDAuth.permissions = list_to_set roles
  ∧ (∀ user_type permission,
       CRUDAuth.verify_permission user_type permission = true
       ↔ ∃ permisos, CRUDAuth.permissions !! user_type = Some permisos
                     ∧ permisos !! permission = Some true)
  ∧ (∀ user_type permission,
       user_type ∉ roles →
       CRUDAuth.verify_permission user_type permission = false)
  ∧ (∀ user_type permission,
       CRUDAuth._get_user_permissions user_type !! permission = None →
       CRUDAuth.verify_permission user_type permission = false)
  ∧ (∀ permission b,
       CRUDAuth._get_user_permissions "Administrador" !! permission = Some b →
       b = true).
Proof.
  split; [exact dom_permissions|]. split; [|split; [|split]].
  - intros user_type permission.
    unfold CRUDAuth.verify_permission, CRUDAuth._get_user_permissions.
    generalize CRUDAuth.permissions. intros tabla_permisos.
    destruct (tabla_permisos !! user_type) as [permisos|]; simpl.
    + destruct (permisos !! permission) as [[]|] eqn:Hp; simpl.
      * split; [|done]. intros _. by exists permisos.
      * split; [done|]. intros (? & [= <-] & ?). congruence.
      * split; [done|]. intros (? & [= <-] & ?). congruence.
    + rewrite lookup_empty. simpl. split; [done|]. by intros (? & ? & ?).
  - intros user_type permission Hno.
    unfold CRUDAuth.verify_permission, CRUDAuth._get_user_permissions.
    rewrite (permissions_fuera_de_roles _ Hno). simpl.
    by rewrite lookup_empty.
  - intros user_type permission Hnone.
    unfold CRUDAuth.verify_permission. by rewrite Hnone.
  - intros permission b Hb.
    exact (permisos_Administrador_todos permission b Hb).
Qed.

Lemma NoDup_fmap_iny {A B} (f : A → B) (l : list A) x y :
  NoDup (f <$> l) → x ∈ l → y ∈ l → f x = f y → x = y.
Proof.
  induction l as [|a l IH]; intros Hnd Hx Hy Hf.
  - by apply not_elem_of_nil in Hx.
  - rewrite fmap_cons in Hnd. apply NoDup_cons in Hnd as [Ha Hnd].
    apply elem_of_cons in Hx as [->|Hx]; apply elem_of_cons in Hy as [->|Hy].
    + done.
    + destruct Ha. rewrite Hf. by apply list_elem_of_fmap_2.
    + destruct Ha. rewrite <- Hf. by apply list_elem_of_fmap_2.
    + by apply IH.
  Qed.

Lemma username_determina_usuario bd i j u v :
  NoDup (usernames bd) →
  usuarios bd !! i = Some u → usuarios bd !! j = Some v →
  Usuario.username u = Usuario.username v → i = j ∧ u = v.
Proof.
  intros Hnd Hi Hj Hname.
  apply elem_of_map_to_list in Hi, Hj.
  pose proof (NoDup_fmap_iny (λ p : Z * Usuario.t, Usuario.username p.2)
                _ (i, u) (j, v) Hnd Hi Hj Hname) as Heq.
  by injection Heq.
Qed.

(** C5.  With usernames unique, as the schema declares them,
    [authenticate_user] returns a result other than None exactly when some
    user carries the given username, has estado 'Activo' and stores a
    contraseña equal, as a string, to the password supplied; in every other
    case it returns None. *)
Theorem authenticate_user_contrasena_en_claro bd username password :
  NoDup (usernames bd) →
  CRUDAuth.authenticate_user bd username password ≠ None
  ↔ ∃ i u, usuarios bd !! i = Some u
           ∧ Usuario.username u = username
           ∧ Usuario.estado u = Some "Activo"
           ∧ Usuario.contraseña u = password.
Proof.
  intros Hnd. unfold CRUDAuth.authenticate_user.
  destruct (first _ (usuarios bd)) as [[k w]|] eqn:Hq.
  - apply first_Some in Hq as (Hk & Hname & Hact). simpl in *.
    destruct (decide (Usuario.contraseña w ≠ password)) as [Hne|Heq].
    + split; [done|]. intros (i & u & Hi & Hu & _ & Hpw).
      destruct (username_determina_usuario bd i k u w Hnd Hi Hk) as [_ ->];
        congruence.
    + split; [|done]. intros _. exists k, w.
      repeat split; try done. by destruct (decide (Usuario.contraseña w = password)).
  - split; [done|]. intros (i & u & Hi & Hu & Hact & _).
    rewrite first_None in Hq. by destruct (Hq i u Hi).
Qed.

(** ** Writes through the session *)

Section Escrituras.
Variable motor : BD → option string.
Variable validation_error : list string → string.

Lemma guardar_aceptado {A} `{Modelo A} (obj : Z * A) bd :
  motor (con_tabla bd (<[obj.1 := obj.2]> (tabla bd))) = None →
  guardar motor obj bd
  = Ret obj (con_tabla bd (<[obj.1 := obj.2]> (tabla bd))).
Proof.
  intros Hm. unfold guardar, commit, mbind, M_bind, mret, M_ret.
  by rewrite Hm.
Qed.

Lemma guardar_rechazado {A} `{Modelo A} (obj : Z * A) bd msg :
  motor (con_tabla bd (<[obj.1 := obj.2]> (tabla bd))) = Some msg →
  guardar motor obj bd = Raise (Exception msg) bd.
Proof.
  intros Hm. unfold guardar, commit, mbind, M_bind, mret, M_ret.
  by rewrite Hm.
Qed.

(** The store is either left as it was or replaced by the pending one. *)
Lemma guardar_estado_final {A} `{Modelo A} (obj : Z * A) bd :
  estado_final (guardar motor obj bd) = bd
  ∨ estado_final (guardar motor obj bd)
    = con_tabla bd (<[obj.1 := obj.2]> (tabla bd)).
Proof.
  unfold guardar, commit, mbind, M_bind, mret, M_ret.
  destruct (motor _); simpl; auto.
Qed.

Lemma change_password_eq bd user_id current_password new_password :
  change_password motor user_id current_password new_password bd
  = match usuarios bd !! user_id with
    | None => Ret (false, "Usuario no encontrado") bd
    | Some u =>
        if decide (Usuario.contraseña u ≠ current_password)
        then Ret (false, "Contraseña actual incorrecta") bd
        else if Py.len_lt new_password 3
        then Ret (false, "La nueva contraseña debe tener al menos 3 caracteres") bd
        else match motor (tras_contraseña bd user_id u new_password) with
             | None => Ret (true, "Contraseña cambiada exitosamente")
                           (tras_contraseña bd user_id u new_password)
             | Some msg => Raise (Exception msg) bd
             end
    end.
Proof.
  unfold change_password, mbind, M_bind, leer at 1.
  rewrite first_clave.
  destruct (usuarios bd !! user_id) as [u|]; simpl; [|done].
  destruct (decide (Usuario.contraseña u ≠ current_password)); [done|].
  destruct (Py.len_lt new_password 3); [done|].
  unfold guardar, commit, mbind, M_bind, mret, M_ret, tras_contraseña. simpl.
  by destruct (motor _).
Qed.

(** C8.  [change_password] answers (False, message) and leaves the store
    untouched when the user id is unknown, when the current password
    supplied differs from the stored one, and, that check having passed,
    when the new password has fewer than 3 characters.  When the three
    checks pass and the engine accepts the commit it answers
    (True, message) and the stored contraseña is the new password, every
    other row being as before; a refused commit raises and leaves the
    store untouched.  It answers True in no other case. *)
Theorem change_password_atomico bd user_id current_password new_password :
  let llamada := change_password motor user_id current_password new_password bd in
  (usuarios bd !! user_id = None →
     llamada = Ret (false, "Usuario no encontrado") bd)
  ∧ (∀ u, usuarios bd !! user_id = Some u →
       Usuario.contraseña u ≠ current_password →
       llamada = Ret (false, "Contraseña actual incorrecta") bd)
  ∧ (∀ u, usuarios bd !! user_id = Some u →
       Usuario.contraseña u = current_password →
       (Py.len new_password < 3)%nat →
       llamada
       = Ret (false, "La nueva contraseña debe tener al menos 3 caracteres") bd)
  ∧ (∀ u, usuarios bd !! user_id = Some u →
       Usuario.contraseña u = current_password →
       (3 ≤ Py.len new_password)%nat →
       let bd' := tras_contraseña bd user_id u new_password in
       (motor bd' = None →
          llamada = Ret (true, "Contraseña cambiada exitosamente") bd'
          ∧ Usuario.contraseña <$> usuarios bd' !! user_id = Some new_password
          ∧ ∀ j, j ≠ user_id → usuarios bd' !! j = usuarios bd !! j)
       ∧ (∀ msg, motor bd' = Some msg → llamada = Raise (Exception msg) bd))
  ∧ (∀ mensaje bd', llamada = Ret (true, mensaje) bd' →
       ∃ u, usuarios bd !! user_id = Some u
            ∧ Usuario.contraseña u = current_password
            ∧ (3 ≤ Py.len new_password)%nat
            ∧ bd' = tras_contraseña bd user_id u new_password)
  ∧ (∀ mensaje bd', llamada = Ret (false, mensaje) bd' → bd' = bd)
  ∧ (usuarios bd !! user_id = None
     ∨ (∃ u, usuarios bd !! user_id = Some u
             ∧ Usuario.contraseña u ≠ current_password)
     ∨ (Py.len new_password < 3)%nat →
     ∃ mensaje, llamada = Ret (false, mensaje) bd).
Proof.
  intros llamada. subst llamada. rewrite change_password_eq.
  unfold Py.len_lt.
  split; [|split; [|split; [|split; [|split; [|split]]]]].
  - by intros ->.
  - intros u -> Hne. by rewrite decide_True.
  - intros u -> Heq Hlen. rewrite decide_False by (by intros ?).
    by destruct (Nat.ltb_spec (Py.len new_password) 3); [|lia].
  - intros u Hu Heq Hlen. rewrite Hu, decide_False by (by intros ?).
    destruct (Nat.ltb_spec (Py.len new_password) 3); [lia|].
    split.
    + intros ->. split; [done|]. unfold tras_contraseña. simpl. split.
      * by rewrite lookup_insert_eq.
      * intros j Hj. by rewrite lookup_insert_ne.
    + by intros msg ->.
  - intros mensaje bd'.
    destruct (usuarios bd !! user_id) as [u|]; [|done].
    destruct (decide (Usuario.contraseña u ≠ current_password)) as [|Heq]; [done|].
    destruct (Nat.ltb_spec (Py.len new_password) 3); [done|].
    destruct (motor _); [done|]. intros [= <- <-].
    exists u. repeat split; try done.
    by destruct (decide (Usuario.contraseña u = current_password)).
  - intros mensaje bd'.
    destruct (usuarios bd !! user_id) as [u|]; [|by intros [= _ <-]].
    destruct (decide (Usuario.contraseña u ≠ current_password)); [by intros [= _ <-]|].
    destruct (Nat.ltb_spec (Py.len new_password) 3); [by intros [= _ <-]|].
    by destruct (motor _).
  - intros Hcaso.
    destruct (usuarios bd !! user_id) as [u|] eqn:Hu; [|by eexists].
    destruct (decide (Usuario.contraseña u ≠ current_password)) as [|Heq];
      [by eexists|].
    destruct (Nat.ltb_spec (Py.len new_password) 3) as [|Hlen]; [by eexists|].
    destruct Hcaso as [?|[(u' & [= <-] & Hne)|?]]; [done|done|lia].
Qed.

(** C9.  [reset_password] looks at nothing but the username and the
    length of the new password: for a user stored under that username,
    whatever its estado ('Inactivo' included) and whatever its current
    contraseña, and a new password of at least 3 characters, an accepted
    commit makes the call answer (True, message) with the stored
    contraseña overwritten and every other row as before. *)
Theorem reset_password_sin_contrasena_previa bd i u username new_password :
  NoDup (usernames bd) →
  usuarios bd !! i = Some u →
  Usuario.username u = username →
  (3 ≤ Py.len new_password)%nat →
  motor (tras_contraseña bd i u new_password) = None →
  reset_password motor username new_password bd
  = Ret (true, "Contraseña reseteada exitosamente")
        (tras_contraseña bd i u new_password)
  ∧ Usuario.contraseña <$> usuarios (tras_contraseña bd i u new_password) !! i
    = Some new_password
  ∧ ∀ j, j ≠ i →
      usuarios (tras_contraseña bd i u new_password) !! j = usuarios bd !! j.
Proof.
  intros Hnd Hi Hname Hlen Hm. split; [|split].
  - unfold reset_password, mbind, M_bind, leer at 1.
    rewrite (first_unico _ (usuarios bd) i u Hi Hname).
    + unfold Py.len_lt.
      destruct (Nat.ltb_spec (Py.len new_password) 3); [lia|].
      rewrite guardar_aceptado by exact Hm. done.
    + intros j v Hj Hv. simpl in Hv.
      by destruct (username_determina_usuario bd j i v u Hnd Hj Hi); [congruence|].
  - unfold tras_contraseña. simpl. by rewrite lookup_insert_eq.
  - intros j Hj. unfold tras_contraseña. simpl. by rewrite lookup_insert_ne.
Qed.

Lemma cambiar_estado_eq bd solicitud_id nuevo_estado :
  cambiar_estado motor solicitud_id nuevo_estado bd
  = match solicitudes bd !! solicitud_id with
    | None => Ret None bd
    | Some s =>
        match motor (tras_estado bd solicitud_id s nuevo_estado) with
        | None =>
            if decide (nuevo_estado ∈ estado_solicitud_enum)
            then Ret (Some (solicitud_id,
                            SolicitudAtencion.con_estado s (Some nuevo_estado)))
                     (tras_estado bd solicitud_id s nuevo_estado)
            else Raise (Exception (lookup_error nuevo_estado))
                       (tras_estado bd solicitud_id s nuevo_estado)
        | Some msg => Raise (Exception msg) bd
        end
    end.
Proof.
  unfold cambiar_estado, mbind, M_bind. rewrite get_SolicitudAtencion.
  destruct (solicitudes bd !! solicitud_id) as [s|]; simpl; [|done].
  unfold fmap, M_fmap, guardar, commit, mbind, M_bind, mret, M_ret, tras_estado.
  simpl. destruct (motor _); [done|].
  unfold refresh, fuera_de_enum. simpl.
  by destruct (decide (nuevo_estado ∈ estado_solicitud_enum)).
Qed.

(** The five states of the handler are the values of the column's Enum. *)
Lemma estados_validos_enum : estados_validos = estado_solicitud_enum.
Proof. reflexivity. Qed.


(** C3.  The estado-update handler assigns any of the five enumerated
    states to any solicitud that exists, whatever its estado: with the
    commit accepted it answers with the updated solicitud, stored under the
    new estado.  A value outside the enumeration is refused with HTTP 400
    and the store is as before; a valid value for an id with no solicitud
    gives HTTP 404, the store as before. *)
Theorem actualizar_estado_solicitud_sin_maquina bd solicitud_id nuevo_estado :
  estados_validos
  = ["Pendiente"; "En triaje"; "En atencion"; "Completada"; "Cancelada"]
  ∧ (∀ s, nuevo_estado ∈ estados_validos →
       solicitudes bd !! solicitud_id = Some s →
       motor (tras_estado bd solicitud_id s nuevo_estado) = None →
       actualizar_estado_solicitud motor solicitud_id nuevo_estado bd
       = Ret (mkEstadoActualizado "Estado actualizado exitosamente"
                (solicitud_id, SolicitudAtencion.con_estado s (Some nuevo_estado)))
             (tras_estado bd solicitud_id s nuevo_estado)
       ∧ SolicitudAtencion.estado
           <$> solicitudes (tras_estado bd solicitud_id s nuevo_estado) !! solicitud_id
         = Some (Some nuevo_estado))
  ∧ (nuevo_estado ∉ estados_validos →
       actualizar_estado_solicitud motor solicitud_id nuevo_estado bd
       = Raise (HTTPException 400
                  "Estado inválido. Debe ser uno de: Pendiente, En triaje, En atencion, Completada, Cancelada")
               bd)
  ∧ (nuevo_estado ∈ estados_validos →
       solicitudes bd !! solicitud_id = None →
       actualizar_estado_solicitud motor solicitud_id nuevo_estado bd
       = Raise (HTTPException 404 "Solicitud no encontrada") bd).
Proof.
  split; [done|].
  unfold actualizar_estado_solicitud, try_except, mbind, M_bind.
  split; [|split].
  - intros s Hin Hs Hm. rewrite decide_True by done. simpl.
    rewrite cambiar_estado_eq, Hs, Hm, decide_True by done. split; [done|].
    unfold tras_estado. simpl. by rewrite lookup_insert_eq.
  - intros Hno. by rewrite decide_False.
  - intros Hin Hs. rewrite decide_True by done. simpl.
    by rewrite cambiar_estado_eq, Hs.
Qed.

(** *** Appointments *)

Lemma ejecutar_eq op bd :
  ejecutar motor op bd
  = match citas bd !! cita_de op with
    | None => Ret None bd
    | Some c =>
        if decide (Cita.estado_cita c = Some "Programada")
        then match motor (tras_estado_cita bd (cita_de op) c (destino op)) with
             | None => Ret (Some (cita_de op,
                                  Cita.con_estado_cita c (Some (destino op))))
                           (tras_estado_cita bd (cita_de op) c (destino op))
             | Some msg => Raise (Exception msg) bd
             end
        else Ret (Some (cita_de op, c)) bd
    end.
Proof.
  destruct op as [cita_id|cita_id]; simpl;
    unfold cancelar_cita, marcar_atendida, mbind, M_bind;
    rewrite get_Cita;
    (destruct (citas bd !! cita_id) as [c|]; simpl; [|done]);
    (destruct (decide (Cita.estado_cita c = Some "Programada")); [|done]);
    unfold fmap, M_fmap, guardar, commit, mbind, M_bind, mret, M_ret,
      tras_estado_cita; simpl;
    by destruct (motor _).
Qed.

(** A request either leaves the store as it was or moves one cita from
    'Programada' to its target state. *)
Lemma ejecutar_estado_final op bd :
  estado_final (ejecutar motor op bd) = bd
  ∨ ∃ c, citas bd !! cita_de op = Some c
         ∧ Cita.estado_cita c = Some "Programada"
         ∧ estado_final (ejecutar motor op bd)
           = tras_estado_cita bd (cita_de op) c (destino op).
Proof.
  rewrite ejecutar_eq.
  destruct (citas bd !! cita_de op) as [c|] eqn:Hc; [|by left].
  destruct (decide (Cita.estado_cita c = Some "Programada")) as [Hp|]; [|by left].
  destruct (motor _); [by left|]. right. by exists c.
Qed.

Lemma cita_terminal_estable op bd j c :
  citas bd !! j = Some c →
  Cita.estado_cita c ≠ Some "Programada" →
  citas (estado_final (ejecutar motor op bd)) !! j = Some c.
Proof.
  intros Hj Hterm.
  destruct (ejecutar_estado_final op bd) as [->|(c0 & Hc0 & Hp & ->)]; [done|].
  unfold tras_estado_cita. simpl.
  destruct (decide (cita_de op = j)) as [<-|Hne]; [congruence|].
  by rewrite lookup_insert_ne.
Qed.

(** C4.  [cancelar_cita] and [marcar_atendida] act on a cita only when
    its estado_cita is 'Programada', taking it to 'Cancelada' and to
    'Atendida' respectively (when the commit is accepted); on a cita in any
    other state both return the cita as it is and leave the store as it
    was.  Any change of estado_cita they make goes from 'Programada' to the
    target of the operation, and a cita that is 'Cancelada' or 'Atendida'
    stays exactly as it is through any sequence of these operations. *)
Theorem cita_transiciones_implicitas bd cita_id :
  (∀ c, citas bd !! cita_id = Some c →
     Cita.estado_cita c = Some "Programada" →
     (motor (tras_estado_cita bd cita_id c "Cancelada") = None →
        cancelar_cita motor cita_id bd
        = Ret (Some (cita_id, Cita.con_estado_cita c (Some "Cancelada")))
              (tras_estado_cita bd cita_id c "Cancelada"))
     ∧ (motor (tras_estado_cita bd cita_id c "Atendida") = None →
          marcar_atendida motor cita_id bd
          = Ret (Some (cita_id, Cita.con_estado_cita c (Some "Atendida")))
                (tras_estado_cita bd cita_id c "Atendida")))
  ∧ (∀ c, citas bd !! cita_id = Some c →
       Cita.estado_cita c ≠ Some "Programada" →
       cancelar_cita motor cita_id bd = Ret (Some (cita_id, c)) bd
       ∧ marcar_atendida motor cita_id bd = Ret (Some (cita_id, c)) bd)
  ∧ (∀ op j c c',
       citas bd !! j = Some c →
       citas (estado_final (ejecutar motor op bd)) !! j = Some c' →
       Cita.estado_cita c' ≠ Cita.estado_cita c →
       Cita.estado_cita c = Some "Programada"
       ∧ Cita.estado_cita c' = Some (destino op))
  ∧ (∀ ops j c,
       citas bd !! j = Some c →
       Cita.estado_cita c = Some "Cancelada" ∨ Cita.estado_cita c = Some "Atendida" →
       citas (tras_operaciones motor ops bd) !! j = Some c).
Proof.
  split; [|split; [|split]].
  - intros c Hc Hp. split; intros Hm.
    + change (cancelar_cita motor cita_id) with (ejecutar motor (Cancelar cita_id)).
      rewrite ejecutar_eq. simpl. by rewrite Hc, decide_True, Hm.
    + change (marcar_atendida motor cita_id) with (ejecutar motor (MarcarAtendida cita_id)).
      rewrite ejecutar_eq. simpl. by rewrite Hc, decide_True, Hm.
  - intros c Hc Hp. split.
    + change (cancelar_cita motor cita_id) with (ejecutar motor (Cancelar cita_id)).
      rewrite ejecutar_eq. simpl. by rewrite Hc, decide_False.
    + change (marcar_atendida motor cita_id) with (ejecutar motor (MarcarAtendida cita_id)).
      rewrite ejecutar_eq. simpl. by rewrite Hc, decide_False.
  - intros op j c c' Hj Hj' Hdif.
    destruct (ejecutar_estado_final op bd) as [Heq|(c0 & Hc0 & Hp & Heq)];
      rewrite Heq in Hj'; [congruence|].
    unfold tras_estado_cita in Hj'. simpl in Hj'.
    destruct (decide (cita_de op = j)) as [<-|Hne].
    + rewrite lookup_insert_eq in Hj'. injection Hj' as <-.
      split; [congruence|done].
    + rewrite lookup_insert_ne in Hj' by done. congruence.
  - intros ops. revert bd. induction ops as [|op resto IH]; intros bd j c Hj Hterm.
    + done.
    + simpl. apply IH; [|done].
      apply cita_terminal_estable; [done|].
      by destruct Hterm as [-> | ->].
Qed.

Lemma lista_no_vacia {A} (l : list A) : l ≠ [] ↔ ∃ x, x ∈ l.
Proof.
  destruct l as [|a l]; split; try done.
  - by intros [x Hx%not_elem_of_nil].
  - intros _. exists a. left.
Qed.

(** [verificar_disponibilidad] answers False exactly when some
    'Programada' cita holds the instant; the cita [exclude_id] is left out
    of the search only when [exclude_id] is not 0. *)
Lemma verificar_disponibilidad_False bd fecha_hora exclude_id :
  verificar_disponibilidad bd fecha_hora (Some exclude_id) = false
  ↔ ∃ j c, citas bd !! j = Some c
           ∧ Cita.fecha_hora_programada c = fecha_hora
           ∧ Cita.estado_cita c = Some "Programada"
           ∧ (exclude_id ≠ 0 → j ≠ exclude_id).
Proof.
  unfold verificar_disponibilidad, Py.truthy_int.
  rewrite bool_decide_eq_false, head_None, lista_no_vacia.
  destruct (Z.eqb_spec exclude_id 0) as [->|Hnz]; simpl.
  - split.
    + intros [[j c] Hin]. apply list_elem_of_filter in Hin as [[Hf He] Hin].
      apply elem_of_map_to_list in Hin. by exists j, c.
    + intros (j & c & Hj & Hf & He & _). exists (j, c).
      apply list_elem_of_filter. split; [done|]. by apply elem_of_map_to_list.
  - split.
    + intros [[j c] Hin]. apply list_elem_of_filter in Hin as [Hne Hin].
      apply list_elem_of_filter in Hin as [[Hf He] Hin].
      apply elem_of_map_to_list in Hin. exists j, c.
      repeat split; try done. intros _ ->. by apply Hne.
    + intros (j & c & Hj & Hf & He & Hne). exists (j, c).
      apply list_elem_of_filter. split.
      * simpl. intros [= ->]. by apply Hne.
      * apply list_elem_of_filter. split; [done|]. by apply elem_of_map_to_list.
Qed.

Lemma reprogramar_cita_eq bd cita_id nueva_fecha_hora :
  reprogramar_cita motor cita_id nueva_fecha_hora bd
  = if verificar_disponibilidad bd nueva_fecha_hora (Some cita_id)
    then match citas bd !! cita_id with
         | None => Ret None bd
         | Some c =>
             if decide (Cita.estado_cita c = Some "Programada")
             then match motor (tras_reprogramar bd cita_id c nueva_fecha_hora) with
                  | None =>
                      Ret (Some (cita_id,
                                 Cita.con_fecha_hora_programada c nueva_fecha_hora))
                          (tras_reprogramar bd cita_id c nueva_fecha_hora)
                  | Some msg => Raise (Exception msg) bd
                  end
             else Ret (Some (cita_id, c)) bd
         end
    else Ret None bd.
Proof.
  unfold reprogramar_cita, mbind, M_bind, leer at 1.
  destruct (verificar_disponibilidad bd nueva_fecha_hora (Some cita_id)); simpl;
    [|done].
  destruct (citas bd !! cita_id) as [c|]; simpl; [|done].
  destruct (decide (Cita.estado_cita c = Some "Programada")); [|done].
  unfold fmap, M_fmap, guardar, commit, mbind, M_bind, mret, M_ret,
    tras_reprogramar; simpl.
  by destruct (motor _).
Qed.

(** C10.  [reprogramar_cita] checks the slot before it fetches the cita.
    When another 'Programada' cita holds the target instant it returns
    None and the store is as before, whether or not [cita_id] names a cita
    (so also for an id with no cita).  When no other cita holds it, keys
    being the positive ones AUTO_INCREMENT gives (no row under key 0): a
    cita that exists and is 'Programada' gets the new instant, with the
    commit accepted; a cita in another state is returned as it is and an
    id with no cita gives None, the store as before in both cases. *)
Theorem reprogramar_cita_disponibilidad_primero bd cita_id nueva_fecha_hora :
  (horario_ocupado bd cita_id nueva_fecha_hora →
     reprogramar_cita motor cita_id nueva_fecha_hora bd = Ret None bd)
  ∧ (¬ horario_ocupado bd cita_id nueva_fecha_hora →
     citas bd !! 0 = None →
     (∀ c, citas bd !! cita_id = Some c →
        Cita.estado_cita c = Some "Programada" →
        motor (tras_reprogramar bd cita_id c nueva_fecha_hora) = None →
        reprogramar_cita motor cita_id nueva_fecha_hora bd
        = Ret (Some (cita_id, Cita.con_fecha_hora_programada c nueva_fecha_hora))
              (tras_reprogramar bd cita_id c nueva_fecha_hora)
        ∧ Cita.fecha_hora_programada
            <$> citas (tras_reprogramar bd cita_id c nueva_fecha_hora) !! cita_id
          = Some nueva_fecha_hora)
     ∧ (∀ c, citas bd !! cita_id = Some c →
          Cita.estado_cita c ≠ Some "Programada" →
          reprogramar_cita motor cita_id nueva_fecha_hora bd
          = Ret (Some (cita_id, c)) bd)
     ∧ (citas bd !! cita_id = None →
          reprogramar_cita motor cita_id nueva_fecha_hora bd = Ret None bd)).
Proof.
  rewrite reprogramar_cita_eq. split.
  - intros (j & c & Hne & Hj & Hf & He).
    assert (Hv : verificar_disponibilidad bd nueva_fecha_hora (Some cita_id) = false).
    { apply verificar_disponibilidad_False. by exists j, c. }
    by rewrite Hv.
  - intros Hlibre Hcero.
    assert (Hv : verificar_disponibilidad bd nueva_fecha_hora (Some cita_id) = true).
    { destruct (verificar_disponibilidad bd nueva_fecha_hora (Some cita_id)) eqn:Hv;
        [done|].
      apply verificar_disponibilidad_False in Hv as (j & c & Hj & Hf & He & Hne).
      destruct Hlibre. exists j, c. repeat split; try done.
      destruct (decide (cita_id = 0)) as [->|Hnz]; [|by apply Hne].
      intros ->. congruence. }
    rewrite Hv. split; [|split].
    + intros c Hc Hp Hm. rewrite Hc, decide_True, Hm by done. split; [done|].
      unfold tras_reprogramar. simpl. by rewrite lookup_insert_eq.
    + intros c Hc Hp. by rewrite Hc, decide_False.
    + by intros ->.
Qed.

(** *** Creation handlers *)

Lemma dict_solicitud_tiene_fecha solicitud_data :
  SolicitudAtencionCreate.dict solicitud_data !! "fecha_hora_solicitud"
  = Some (de_opcion VFecha
            (SolicitudAtencionCreate.fecha_hora_solicitud solicitud_data)).
Proof. destruct solicitud_data as [m r t f]. by vm_compute. Qed.

Lemma de_kwargs_solicitud ahora solicitud_data :
  por_defecto
    (de_kwargs
    (<["estado" := VStr "Pendiente"]>
       (<["fecha_hora_solicitud" :=
            dict_get (SolicitudAtencionCreate.dict solicitud_data)
              "fecha_hora_solicitud" (VFecha ahora)]>
          (SolicitudAtencionCreate.dict solicitud_data))))
  = fila_solicitud solicitud_data.
Proof. destruct solicitud_data as [m r t [f|]]; by vm_compute. Qed.

Lemma create_solicitud_atencion_eq bd ahora solicitud_data :
  create_solicitud_atencion motor ahora solicitud_data bd
  = match mascotas bd !! SolicitudAtencionCreate.id_mascota solicitud_data with
    | None => Raise (HTTPException 400 "Mascota no encontrada") bd
    | Some _ =>
        match recepcionistas bd
              !! SolicitudAtencionCreate.id_recepcionista solicitud_data with
        | None => Raise (HTTPException 400 "Recepcionista no encontrada") bd
        | Some _ =>
            match motor (tras_solicitud bd solicitud_data) with
            | None => Ret (siguiente_id (solicitudes bd), fila_solicitud solicitud_data)
                          (tras_solicitud bd solicitud_data)
            | Some msg =>
                Raise (HTTPException 500 ("Error al crear solicitud: " +:+ msg)) bd
            end
        end
    end.
Proof.
  unfold create_solicitud_atencion, try_except, mbind, M_bind.
  rewrite get_Mascota.
  destruct (mascotas bd !! _) as [m|]; simpl; [|done].
  destruct (recepcionistas bd !! _) as [r|]; simpl; [|done].
  unfold create, guardar, commit, mbind, M_bind, mret, M_ret, leer.
  rewrite de_kwargs_solicitud. simpl. fold (tras_solicitud bd solicitud_data).
  by destruct (motor _).
Qed.

(** The existence checks come before any write: a request naming a
    mascota or a recepcionista that does not exist is refused with HTTP 400
    and the store is as before. *)
Lemma create_solicitud_atencion_verifica_existencia bd ahora solicitud_data :
  (mascotas bd !! SolicitudAtencionCreate.id_mascota solicitud_data = None →
     create_solicitud_atencion motor ahora solicitud_data bd
     = Raise (HTTPException 400 "Mascota no encontrada") bd)
  ∧ (is_Some (mascotas bd !! SolicitudAtencionCreate.id_mascota solicitud_data) →
     recepcionistas bd
       !! SolicitudAtencionCreate.id_recepcionista solicitud_data = None →
     create_solicitud_atencion motor ahora solicitud_data bd
     = Raise (HTTPException 400 "Recepcionista no encontrada") bd).
Proof.
  rewrite create_solicitud_atencion_eq. split.
  - by intros ->.
  - intros [m ->] Hr. by rewrite Hr.
Qed.

(** A request that names an existing mascota and recepcionista and is
    accepted by the engine is answered 201 with the new solicitud, stored
    with estado 'Pendiente' and with the fecha_hora_solicitud of the
    request. *)
Lemma create_solicitud_atencion_creada bd ahora solicitud_data :
  is_Some (mascotas bd !! SolicitudAtencionCreate.id_mascota solicitud_data) →
  is_Some (recepcionistas bd
             !! SolicitudAtencionCreate.id_recepcionista solicitud_data) →
  motor (tras_solicitud bd solicitud_data) = None →
  create_solicitud_atencion motor ahora solicitud_data bd
  = Ret (siguiente_id (solicitudes bd), fila_solicitud solicitud_data)
        (tras_solicitud bd solicitud_data)
  ∧ solicitudes bd !! siguiente_id (solicitudes bd) = None
  ∧ solicitudes (tras_solicitud bd solicitud_data) !! siguiente_id (solicitudes bd)
    = Some (fila_solicitud solicitud_data)
  ∧ SolicitudAtencion.estado (fila_solicitud solicitud_data) = Some "Pendiente"
  ∧ SolicitudAtencion.fecha_hora_solicitud (fila_solicitud solicitud_data)
    = SolicitudAtencionCreate.fecha_hora_solicitud solicitud_data.
Proof.
  intros [m Hm] [r Hr] Hok. rewrite create_solicitud_atencion_eq, Hm, Hr, Hok.
  split; [done|]. split; [apply siguiente_id_libre|].
  split; [|done]. unfold tras_solicitud. simpl. by rewrite lookup_insert_eq.
Qed.

(** C7 (what the code does where the claim fails).  For a request that
    carries no fecha_hora_solicitud and names an existing mascota and
    recepcionista, the handler answers 201 and stores the solicitud with
    estado 'Pendiente' and with fecha_hora_solicitud None: the reading of
    the clock is not used, whatever it is. *)
Theorem create_solicitud_atencion_fecha_sin_defecto bd ahora solicitud_data :
  is_Some (mascotas bd !! SolicitudAtencionCreate.id_mascota solicitud_data) →
  is_Some (recepcionistas bd
             !! SolicitudAtencionCreate.id_recepcionista solicitud_data) →
  SolicitudAtencionCreate.fecha_hora_solicitud solicitud_data = None →
  motor (tras_solicitud bd solicitud_data) = None →
  ∃ id fila,
    create_solicitud_atencion motor ahora solicitud_data bd
    = Ret (id, fila) (tras_solicitud bd solicitud_data)
    ∧ status_http 201 (create_solicitud_atencion motor ahora solicitud_data bd) = 201
    ∧ solicitudes (tras_solicitud bd solicitud_data) !! id = Some fila
    ∧ SolicitudAtencion.estado fila = Some "Pendiente"
    ∧ SolicitudAtencion.fecha_hora_solicitud fila = None
    ∧ SolicitudAtencion.fecha_hora_solicitud fila ≠ Some ahora.
Proof.
  intros Hm Hr Hf Hok.
  destruct (create_solicitud_atencion_creada bd ahora solicitud_data Hm Hr Hok)
    as (Heq & _ & Hl & He & Hfecha).
  exists (siguiente_id (solicitudes bd)), (fila_solicitud solicitud_data).
  rewrite Heq, Hfecha, Hf. by repeat split.
Qed.

(** *** Consultation creation: four writes, four commits *)

Lemma de_kwargs_consulta ahora consulta_data :
  por_defecto
    (de_kwargs
    (<["fecha_consulta" :=
         dict_get (ConsultaCreate.dict consulta_data) "fecha_consulta"
           (VFecha ahora)]>
       (ConsultaCreate.dict consulta_data)))
  = fila_consulta consulta_data.
Proof.
  destruct consulta_data as [t v tipo [m|] [s|] [d|] [o|] c e [f|]]; by vm_compute.
Qed.

Lemma de_kwargs_evento ahora (e : HistorialClinicoCreate.t) :
  por_defecto
    (de_kwargs
    (<["fecha_evento" :=
         dict_get (HistorialClinicoCreate.dict e) "fecha_evento" (VFecha ahora)]>
       (HistorialClinicoCreate.dict e)))
  = HistorialClinico.mk
      (Some (HistorialClinicoCreate.id_mascota e))
      (HistorialClinicoCreate.id_consulta e)
      (HistorialClinicoCreate.id_diagnostico e)
      (HistorialClinicoCreate.id_tratamiento e)
      (HistorialClinicoCreate.id_veterinario e)
      (HistorialClinicoCreate.fecha_evento e)
      (Some (HistorialClinicoCreate.tipo_evento e))
      (HistorialClinicoCreate.edad_meses e)
      (Some (HistorialClinicoCreate.descripcion_evento e))
      (HistorialClinicoCreate.peso_momento e)
      (HistorialClinicoCreate.observaciones e).
Proof.
  destruct e as [m t d [c|] [g|] [r|] [v|] [a|] [p|] [o|] [f|]]; by vm_compute.
Qed.

(** A byte that begins no white-space character is part of none. *)
Lemma inicia_espacio_false c :
  Py.inicia_espacio c = false →
  Py.is_space c = false
  ∧ (∀ d, Py.is_space2 c d = false)
  ∧ (∀ d e, Py.is_space3 c d e = false).
Proof.
  unfold Py.inicia_espacio, Py.is_space2, Py.is_space3. intros Hc.
  do 4 (apply orb_false_iff in Hc as [Hc ?]).
  split; [done|]. split; intros;
    by repeat match goal with
       | H : (_ =? _)%nat = false |- _ => rewrite H; clear H
       end.
Qed.

Lemma rstrip_no_espacio c r :
  Py.inicia_espacio c = false → Py.rstrip (String c r) = String c (Py.rstrip r).
Proof.
  intros (Hc & Hc2 & Hc3)%inicia_espacio_false. simpl.
  destruct (Py.rstrip r) as [|d [|e [|f r']]]; by rewrite ?Hc, ?Hc2, ?Hc3.
Qed.

Lemma append_String c r s : String c r +:+ s = String c (r +:+ s).
Proof. reflexivity. Qed.

Lemma lstrip_no_espacio c r :
  Py.inicia_espacio c = false → Py.lstrip (String c r) = String c r.
Proof.
  intros (Hc & Hc2 & Hc3)%inicia_espacio_false. simpl. rewrite Hc.
  destruct r as [|d [|e r3]]; by rewrite ?Hc2, ?Hc3.
Qed.

(** The description of the event passes its validator: it starts with
    'Consulta:' and so keeps at least 5 characters when stripped. *)
Lemma descripcion_consulta_valida consulta_data :
  Py.len_lt (Py.strip (descripcion_consulta consulta_data)) 5 = false.
Proof.
  unfold descripcion_consulta, Py.strip, Py.len_lt.
  rewrite !append_String.
  rewrite lstrip_no_espacio by done.
  rewrite !rstrip_no_espacio by done. done.
Qed.

(** The course of [create_consulta] once its three checks pass and the
    solicitud of the triaje is found: four commits in a row, the building
    of the historial event between the third and the fourth. *)
Lemma create_consulta_pasos bd ahora consulta_data v triaje_obj s :
  triajes bd !! ConsultaCreate.id_triaje consulta_data = Some triaje_obj →
  veterinarios bd !! ConsultaCreate.id_veterinario consulta_data = Some v →
  get_by_triaje bd (ConsultaCreate.id_triaje consulta_data) = None →
  solicitudes bd !! Triaje.id_solicitud triaje_obj = Some s →
  create_consulta motor validation_error ahora consulta_data bd
  = match motor (tras_consulta bd consulta_data) with
    | Some msg => Raise (error_500 msg) bd
    | None =>
    match motor (tras_disposicion bd consulta_data v) with
    | Some msg => Raise (error_500 msg) (tras_consulta bd consulta_data)
    | None =>
    match motor (tras_en_atencion bd consulta_data v triaje_obj s) with
    | Some msg => Raise (error_500 msg) (tras_disposicion bd consulta_data v)
    | None =>
    match SolicitudAtencion.id_mascota s with
    | None =>
        Raise (error_500 (validation_error ["id_mascota"]))
              (tras_en_atencion bd consulta_data v triaje_obj s)
    | Some mascota_id =>
    match motor (tras_evento bd ahora consulta_data v triaje_obj s mascota_id) with
    | Some msg =>
        Raise (error_500 msg) (tras_en_atencion bd consulta_data v triaje_obj s)
    | None =>
        Ret (siguiente_id (consultas bd), fila_consulta consulta_data)
            (tras_evento bd ahora consulta_data v triaje_obj s mascota_id)
    end end end end end.
Proof.
  intros Htr Hv Hno Hsol.
  unfold create_consulta, try_except, mbind, M_bind.
  rewrite get_Triaje, Htr. simpl.
  rewrite Hv. simpl. rewrite Hno. simpl.
  unfold create, guardar, commit, mbind, M_bind, mret, M_ret, leer.
  rewrite de_kwargs_consulta. simpl.
  fold (tras_consulta bd consulta_data).
  destruct (motor (tras_consulta bd consulta_data)) as [msg|]; [done|].
  unfold cambiar_disposicion, mbind, M_bind. rewrite get_Veterinario. simpl.
  rewrite Hv. simpl.
  unfold fmap, M_fmap, guardar, commit, mbind, M_bind, mret, M_ret. simpl.
  fold (tras_consulta bd consulta_data). fold (tras_disposicion bd consulta_data v).
  destruct (motor (tras_disposicion bd consulta_data v)) as [msg|]; [done|].
  unfold refresh, fuera_de_enum. simpl.
  change (solicitudes (tras_disposicion bd consulta_data v)) with (solicitudes bd).
  rewrite Hsol. simpl.
  unfold cambiar_estado, mbind, M_bind. rewrite get_SolicitudAtencion. simpl.
  rewrite Hsol. simpl.
  unfold fmap, M_fmap, guardar, commit, mbind, M_bind, mret, M_ret. simpl.
  fold (tras_consulta bd consulta_data). fold (tras_disposicion bd consulta_data v).
  fold (tras_en_atencion bd consulta_data v triaje_obj s).
  destruct (motor (tras_en_atencion bd consulta_data v triaje_obj s)) as [msg|];
    [done|].
  unfold add_evento_consulta, nuevo_HistorialClinicoCreate, mbind, M_bind.
  rewrite descripcion_consulta_valida.
  replace (Py.len_lt (Py.strip "Consulta médica") 4) with false by (by vm_compute).
  destruct (SolicitudAtencion.id_mascota s) as [mascota_id|]; [|done].
  change (([] ++ [] ++ [])%list) with (@nil string).
  unfold mret, M_ret, add_evento, create, guardar, commit, mbind, M_bind, leer.
  rewrite de_kwargs_evento. simpl.
  replace (Py.strip "Consulta médica") with "Consulta médica" by (by vm_compute).
  fold (fila_evento ahora consulta_data (siguiente_id (consultas bd)) mascota_id
          triaje_obj).
  fold (tras_consulta bd consulta_data). fold (tras_disposicion bd consulta_data v).
  fold (tras_en_atencion bd consulta_data v triaje_obj s).
  fold (tras_evento bd ahora consulta_data v triaje_obj s mascota_id).
  by destruct (motor (tras_evento bd ahora consulta_data v triaje_obj s mascota_id)).
Qed.

Lemma create_consulta_eq bd ahora consulta_data v triaje_obj s mascota_id :
  consulta_creable bd consulta_data v triaje_obj s mascota_id →
  create_consulta motor validation_error ahora consulta_data bd
  = match motor (tras_consulta bd consulta_data) with
    | Some msg => Raise (error_500 msg) bd
    | None =>
    match motor (tras_disposicion bd consulta_data v) with
    | Some msg => Raise (error_500 msg) (tras_consulta bd consulta_data)
    | None =>
    match motor (tras_en_atencion bd consulta_data v triaje_obj s) with
    | Some msg => Raise (error_500 msg) (tras_disposicion bd consulta_data v)
    | None =>
    match motor (tras_evento bd ahora consulta_data v triaje_obj s mascota_id) with
    | Some msg =>
        Raise (error_500 msg) (tras_en_atencion bd consulta_data v triaje_obj s)
    | None =>
        Ret (siguiente_id (consultas bd), fila_consulta consulta_data)
            (tras_evento bd ahora consulta_data v triaje_obj s mascota_id)
    end end end end.
Proof.
  intros [Htr Hv Hno Hsol Hmid].
  by rewrite (create_consulta_pasos _ _ _ _ _ _ Htr Hv Hno Hsol), Hmid.
Qed.

(** The checks of [create_consulta] come before its writes: a missing
    triaje, a missing veterinarian or a consulta already recorded for the
    triaje give HTTP 400 and leave the store as it was. *)
Lemma create_consulta_verificaciones bd ahora consulta_data :
  (triajes bd !! ConsultaCreate.id_triaje consulta_data = None →
     create_consulta motor validation_error ahora consulta_data bd
     = Raise (HTTPException 400 "Triaje no encontrado") bd)
  ∧ (is_Some (triajes bd !! ConsultaCreate.id_triaje consulta_data) →
     veterinarios bd !! ConsultaCreate.id_veterinario consulta_data = None →
     create_consulta motor validation_error ahora consulta_data bd
     = Raise (HTTPException 400 "Veterinario no encontrado") bd)
  ∧ (is_Some (triajes bd !! ConsultaCreate.id_triaje consulta_data) →
     is_Some (veterinarios bd !! ConsultaCreate.id_veterinario consulta_data) →
     is_Some (get_by_triaje bd (ConsultaCreate.id_triaje consulta_data)) →
     create_consulta motor validation_error ahora consulta_data bd
     = Raise (HTTPException 400 "Ya existe una consulta para este triaje") bd).
Proof.
  unfold create_consulta, try_except, mbind, M_bind. rewrite get_Triaje.
  split; [|split].
  - by intros ->.
  - intros [t ->] Hv. simpl. by rewrite Hv.
  - intros [t ->] [v Hv] [c Hc]. simpl. rewrite Hv. simpl. by rewrite Hc.
Qed.

(** A call that returns passed the three checks; when the solicitud of
    the triaje exists it also names its mascota. *)
Lemma create_consulta_Ret_creable bd ahora consulta_data triaje_obj s r bd' :
  triajes bd !! ConsultaCreate.id_triaje consulta_data = Some triaje_obj →
  solicitudes bd !! Triaje.id_solicitud triaje_obj = Some s →
  create_consulta motor validation_error ahora consulta_data bd = Ret r bd' →
  ∃ v mascota_id, consulta_creable bd consulta_data v triaje_obj s mascota_id.
Proof.
  intros Htr Hsol Hret.
  destruct (create_consulta_verificaciones bd ahora consulta_data)
    as (_ & Hvet & Hdup).
  destruct (veterinarios bd !! ConsultaCreate.id_veterinario consulta_data)
    as [v|] eqn:Hv; [|rewrite Hvet in Hret; by eauto].
  destruct (get_by_triaje bd (ConsultaCreate.id_triaje consulta_data))
    as [c|] eqn:Hno; [rewrite Hdup in Hret; by eauto|].
  rewrite (create_consulta_pasos _ _ _ _ _ _ Htr Hv Hno Hsol) in Hret.
  destruct (SolicitudAtencion.id_mascota s) as [mascota_id|] eqn:Hmid.
  - by exists v, mascota_id.
  - destruct (motor (tras_consulta _ _)); [done|].
    destruct (motor (tras_disposicion _ _ _)); [done|].
    by destruct (motor (tras_en_atencion _ _ _ _ _)).
Qed.

(** C1 (as amended).  Every successful call of [create_consulta] for a
    triaje whose solicitud exists writes four tables, each with a commit of
    its own: the new consulta, the disposicion of the veterinarian
    ('Ocupado'), the estado of the solicitud ('En atencion') and a
    historial event; the store it leaves is the one after the fourth
    commit, and the diagnosis table, like every other table, is as before.
    No transaction spans the four commits: when a later one is refused the
    handler answers HTTP 500 and the store is the one after the last
    accepted commit, the writes already committed staying in place. *)
Theorem create_consulta_cuatro_escrituras bd ahora consulta_data triaje_obj s :
  triajes bd !! ConsultaCreate.id_triaje consulta_data = Some triaje_obj →
  solicitudes bd !! Triaje.id_solicitud triaje_obj = Some s →
  let llamada := create_consulta motor validation_error ahora consulta_data bd in
  let nueva := (siguiente_id (consultas bd), fila_consulta consulta_data) in
  let vet_id := ConsultaCreate.id_veterinario consulta_data in
  let sol_id := Triaje.id_solicitud triaje_obj in
  (∀ r bd', llamada = Ret r bd' →
     ∃ v mascota_id,
       veterinarios bd !! vet_id = Some v
       ∧ SolicitudAtencion.id_mascota s = Some mascota_id
       ∧ r = nueva
       ∧ bd' = tras_evento bd ahora consulta_data v triaje_obj s mascota_id
       ∧ consultas bd !! nueva.1 = None
       ∧ consultas bd' = <[nueva.1 := nueva.2]> (consultas bd)
       ∧ veterinarios bd'
         = <[vet_id := Veterinario.con_disposicion v (Some "Ocupado")]>
             (veterinarios bd)
       ∧ solicitudes bd'
         = <[sol_id := SolicitudAtencion.con_estado s (Some "En atencion")]>
             (solicitudes bd)
       ∧ historiales bd'
         = <[siguiente_id (historiales bd) :=
               fila_evento ahora consulta_data nueva.1 mascota_id triaje_obj]>
             (historiales bd)
       ∧ diagnosticos bd' = diagnosticos bd
       ∧ triajes bd' = triajes bd ∧ citas bd' = citas bd
       ∧ mascotas bd' = mascotas bd ∧ usuarios bd' = usuarios bd
       ∧ administradores bd' = administradores bd
       ∧ recepcionistas bd' = recepcionistas bd)
  ∧ (∀ v mascota_id,
       consulta_creable bd consulta_data v triaje_obj s mascota_id →
       let bd1 := tras_consulta bd consulta_data in
       let bd2 := tras_disposicion bd consulta_data v in
       let bd3 := tras_en_atencion bd consulta_data v triaje_obj s in
       let bd4 := tras_evento bd ahora consulta_data v triaje_obj s mascota_id in
       (motor bd1 = None → motor bd2 = None → motor bd3 = None →
        motor bd4 = None → llamada = Ret nueva bd4)
       ∧ (∀ msg, motor bd1 = None → motor bd2 = Some msg →
            llamada = Raise (error_500 msg) bd1
            ∧ consultas bd1 !! nueva.1 = Some nueva.2)
       ∧ (∀ msg, motor bd1 = None → motor bd2 = None → motor bd3 = Some msg →
            llamada = Raise (error_500 msg) bd2
            ∧ consultas bd2 !! nueva.1 = Some nueva.2
            ∧ Veterinario.disposicion <$> veterinarios bd2 !! vet_id
              = Some (Some "Ocupado"))
       ∧ (∀ msg, motor bd1 = None → motor bd2 = None → motor bd3 = None →
            motor bd4 = Some msg →
            llamada = Raise (error_500 msg) bd3
            ∧ consultas bd3 !! nueva.1 = Some nueva.2
            ∧ Veterinario.disposicion <$> veterinarios bd3 !! vet_id
              = Some (Some "Ocupado")
            ∧ SolicitudAtencion.estado <$> solicitudes bd3 !! sol_id
              = Some (Some "En atencion"))).
Proof.
  intros Htr Hsol. simpl. split.
  - intros r bd' Hret.
    destruct (create_consulta_Ret_creable _ _ _ _ _ _ _ Htr Hsol Hret)
      as (v & mascota_id & Hpre).
    exists v, mascota_id.
    split; [apply Hpre|]. split; [apply Hpre|].
    rewrite (create_consulta_eq _ _ _ _ _ _ _ Hpre) in Hret.
    destruct (motor (tras_consulta _ _)); [done|].
    destruct (motor (tras_disposicion _ _ _)); [done|].
    destruct (motor (tras_en_atencion _ _ _ _ _)); [done|].
    destruct (motor (tras_evento _ _ _ _ _ _ _)); [done|].
    injection Hret as <- <-.
    split; [done|]. split; [done|]. split; [apply siguiente_id_libre|].
    by repeat split.
  - intros v mascota_id Hpre.
    rewrite (create_consulta_eq _ _ _ _ _ _ _ Hpre).
    split; [|split; [|split]].
    + by intros -> -> -> ->.
    + intros msg -> ->. split; [done|].
      unfold tras_consulta. simpl. by rewrite lookup_insert_eq.
    + intros msg -> -> ->. split; [done|].
      unfold tras_disposicion, tras_consulta. simpl.
      by rewrite !lookup_insert_eq.
    + intros msg -> -> -> ->. split; [done|].
      unfold tras_en_atencion, tras_disposicion, tras_consulta. simpl.
      by rewrite !lookup_insert_eq.
Qed.

(** A failure that needs no refusal by the engine: when the solicitud of
    the triaje names no mascota, building the historial event fails its
    validation after three commits, the handler answers HTTP 500 and the
    consulta, the disposicion and the estado written before stay. *)
Lemma create_consulta_falla_tras_tres_escrituras
    bd ahora consulta_data v triaje_obj s :
  triajes bd !! ConsultaCreate.id_triaje consulta_data = Some triaje_obj →
  veterinarios bd !! ConsultaCreate.id_veterinario consulta_data = Some v →
  get_by_triaje bd (ConsultaCreate.id_triaje consulta_data) = None →
  solicitudes bd !! Triaje.id_solicitud triaje_obj = Some s →
  SolicitudAtencion.id_mascota s = None →
  motor (tras_consulta bd consulta_data) = None →
  motor (tras_disposicion bd consulta_data v) = None →
  motor (tras_en_atencion bd consulta_data v triaje_obj s) = None →
  create_consulta motor validation_error ahora consulta_data bd
  = Raise (error_500 (validation_error ["id_mascota"]))
          (tras_en_atencion bd consulta_data v triaje_obj s).
Proof.
  intros Htr Hv Hno Hsol Hmid H1 H2 H3.
  by rewrite (create_consulta_pasos _ _ _ _ _ _ Htr Hv Hno Hsol), H1, H2, H3, Hmid.
Qed.

End Escrituras.

(** * Worked examples

    The properties above at the example clinic, and evaluations of the
    handlers on it. *)

Lemma consulta_ejemplo_creable :
  consulta_creable bd_ejemplo consulta_ejemplo veterinario_ejemplo triaje_ejemplo
    solicitud_ejemplo 3.
Proof. split; by vm_compute. Qed.

(** C1 (counterexample to the claim as stated).  A successful consultation
    creation that writes the consulta, veterinarian, solicitud and
    historial tables and leaves the diagnosis table as it was. *)
Lemma create_consulta_no_escribe_diagnostico :
  ∃ r bd',
    create_consulta motor_acepta texto_validacion 1000 consulta_ejemplo bd_ejemplo
    = Ret r bd'
    ∧ consultas bd' ≠ consultas bd_ejemplo
    ∧ veterinarios bd' ≠ veterinarios bd_ejemplo
    ∧ solicitudes bd' ≠ solicitudes bd_ejemplo
    ∧ historiales bd' ≠ historiales bd_ejemplo
    ∧ diagnosticos bd' = diagnosticos bd_ejemplo.
Proof.
  eexists _, _. split; [by vm_compute|].
  repeat split; try (by vm_compute); apply (bool_decide_unpack _); by vm_compute.
Qed.

(** C1: the amended statement at the example, with an engine that accepts
    every commit. *)
Lemma create_consulta_cuatro_escrituras_witness :
  triajes bd_ejemplo !! 1 = Some triaje_ejemplo
  ∧ solicitudes bd_ejemplo !! 1 = Some solicitud_ejemplo
  ∧ create_consulta motor_acepta texto_validacion 1000 consulta_ejemplo bd_ejemplo
    = Ret (1, fila_consulta consulta_ejemplo)
          (tras_evento bd_ejemplo 1000 consulta_ejemplo veterinario_ejemplo
             triaje_ejemplo solicitud_ejemplo 3).
Proof.
  split; [reflexivity|]. split; [reflexivity|].
  destruct (create_consulta_cuatro_escrituras motor_acepta texto_validacion
              bd_ejemplo 1000 consulta_ejemplo triaje_ejemplo solicitud_ejemplo
              eq_refl eq_refl) as [_ Hpasos].
  destruct (Hpasos veterinario_ejemplo 3 consulta_ejemplo_creable) as [Hok _].
  apply Hok; reflexivity.
Defined.

(** With the engine that refuses the historial, the call fails at its
    fourth commit and the three earlier writes are in the store. *)
Lemma create_consulta_sin_rollback_ejemplo :
  ∃ bd',
    create_consulta motor_sin_historial texto_validacion 1000 consulta_ejemplo
      bd_ejemplo
    = Raise (HTTPException 500 "Error al crear consulta: historial rechazado") bd'
    ∧ consultas bd' !! 1 = Some (fila_consulta consulta_ejemplo)
    ∧ Veterinario.disposicion <$> veterinarios bd' !! 1 = Some (Some "Ocupado")
    ∧ SolicitudAtencion.estado <$> solicitudes bd' !! 1 = Some (Some "En atencion")
    ∧ historiales bd' = ∅.
Proof. eexists. split; [by vm_compute|]. repeat split; by vm_compute. Qed.

(** C5 at the example: the administrator authenticates with the stored
    password. *)
Lemma authenticate_user_contrasena_en_claro_witness :
  NoDup (usernames bd_ejemplo)
  ∧ (CRUDAuth.authenticate_user bd_ejemplo "admin" "admin123" ≠ None
     ↔ ∃ i u, usuarios bd_ejemplo !! i = Some u
              ∧ Usuario.username u = "admin"
              ∧ Usuario.estado u = Some "Activo"
              ∧ Usuario.contraseña u = "admin123").
Proof.
  assert (Hnd : NoDup (usernames bd_ejemplo)) by por_calculo.
  split; [exact Hnd|].
  exact (authenticate_user_contrasena_en_claro bd_ejemplo "admin" "admin123" Hnd).
Defined.

Example authenticate_user_ejemplos :
  CRUDAuth.authenticate_user bd_ejemplo "admin" "admin123" ≠ None
  ∧ CRUDAuth.authenticate_user bd_ejemplo "admin" "Admin123" = None
  ∧ CRUDAuth.authenticate_user bd_ejemplo "rosa" "clave" = None
  ∧ CRUDAuth.authenticate_user bd_ejemplo "nadie" "admin123" = None.
Proof. repeat split; by vm_compute. Qed.

Example verify_permission_ejemplos :
  CRUDAuth.verify_permission "Administrador" "configurar_sistema" = true
  ∧ CRUDAuth.verify_permission "Veterinario" "configurar_sistema" = false
  ∧ CRUDAuth.verify_permission "Recepcionista" "gestionar_citas" = true
  ∧ CRUDAuth.verify_permission "Administrador" "borrar_todo" = false
  ∧ CRUDAuth.verify_permission "administrador" "ver_dashboard" = false.
Proof. repeat split; by vm_compute. Qed.

(** C7 at the failing input: the request without a date, at clock
    reading 1000. *)
Lemma create_solicitud_atencion_fecha_sin_defecto_witness :
  ∃ id fila,
    create_solicitud_atencion motor_acepta 1000 solicitud_sin_fecha bd_ejemplo
    = Ret (id, fila) (tras_solicitud bd_ejemplo solicitud_sin_fecha)
    ∧ status_http 201
        (create_solicitud_atencion motor_acepta 1000 solicitud_sin_fecha bd_ejemplo)
      = 201
    ∧ solicitudes (tras_solicitud bd_ejemplo solicitud_sin_fecha) !! id = Some fila
    ∧ SolicitudAtencion.estado fila = Some "Pendiente"
    ∧ SolicitudAtencion.fecha_hora_solicitud fila = None
    ∧ SolicitudAtencion.fecha_hora_solicitud fila ≠ Some 1000.
Proof.
  apply (create_solicitud_atencion_fecha_sin_defecto motor_acepta bd_ejemplo 1000
           solicitud_sin_fecha).
  - eexists. by vm_compute.
  - eexists. by vm_compute.
  - reflexivity.
  - reflexivity.
Defined.

Example create_solicitud_atencion_sin_fecha_ejemplo :
  create_solicitud_atencion motor_acepta 1000 solicitud_sin_fecha bd_ejemplo
  = Ret (2, SolicitudAtencion.mk (Some 3) (Some 5) None (Some "Consulta normal")
              (Some "Pendiente"))
        (tras_solicitud bd_ejemplo solicitud_sin_fecha).
Proof. by vm_compute. Qed.

(** C8 at the example: the administrator changes the password. *)
Lemma change_password_atomico_witness :
  change_password motor_acepta 1 "admin123" "nueva" bd_ejemplo
  = Ret (true, "Contraseña cambiada exitosamente")
        (tras_contraseña bd_ejemplo 1
           (Usuario.mk "admin" "admin123" "Administrador" None (Some "Activo"))
           "nueva")
  ∧ change_password motor_acepta 1 "otra" "nueva" bd_ejemplo
    = Ret (false, "Contraseña actual incorrecta") bd_ejemplo.
Proof.
  destruct (change_password_atomico motor_acepta bd_ejemplo 1 "admin123" "nueva")
    as (_ & _ & _ & Hok & _).
  destruct (change_password_atomico motor_acepta bd_ejemplo 1 "otra" "nueva")
    as (_ & Hmal & _).
  split.
  - apply (Hok (Usuario.mk "admin" "admin123" "Administrador" None (Some "Activo")));
      [reflexivity | reflexivity | vm_compute; lia | reflexivity].
  - apply (Hmal (Usuario.mk "admin" "admin123" "Administrador" None (Some "Activo")));
      [reflexivity | by vm_compute].
Defined.

(** C9 at the example: the password of the inactive user is reset. *)
Lemma reset_password_sin_contrasena_previa_witness :
  Usuario.estado (Usuario.mk "rosa" "clave" "Veterinario" None (Some "Inactivo"))
  = Some "Inactivo"
  ∧ reset_password motor_acepta "rosa" "abc" bd_ejemplo
    = Ret (true, "Contraseña reseteada exitosamente")
          (tras_contraseña bd_ejemplo 2
             (Usuario.mk "rosa" "clave" "Veterinario" None (Some "Inactivo")) "abc").
Proof.
  split; [reflexivity|].
  apply (reset_password_sin_contrasena_previa motor_acepta bd_ejemplo 2
           (Usuario.mk "rosa" "clave" "Veterinario" None (Some "Inactivo"))
           "rosa" "abc").
  - por_calculo.
  - reflexivity.
  - reflexivity.
  - vm_compute; lia.
  - reflexivity.
Defined.


(** C3 at the example. *)
Lemma actualizar_estado_solicitud_sin_maquina_witness :
  actualizar_estado_solicitud motor_acepta 1 "Pendiente" bd_ejemplo
  = Ret (mkEstadoActualizado "Estado actualizado exitosamente"
           (1, SolicitudAtencion.con_estado solicitud_ejemplo (Some "Pendiente")))
        (tras_estado bd_ejemplo 1 solicitud_ejemplo "Pendiente")
  ∧ status_http 200 (actualizar_estado_solicitud motor_acepta 1 "Archivada" bd_ejemplo)
    = 400
  ∧ estado_final (actualizar_estado_solicitud motor_acepta 1 "Archivada" bd_ejemplo)
    = bd_ejemplo
  ∧ status_http 200 (actualizar_estado_solicitud motor_acepta 9 "Pendiente" bd_ejemplo)
    = 404.
Proof.
  destruct (actualizar_estado_solicitud_sin_maquina motor_acepta bd_ejemplo 1
              "Pendiente") as (_ & Hok & _).
  destruct (actualizar_estado_solicitud_sin_maquina motor_acepta bd_ejemplo 1
              "Archivada") as (_ & _ & H400 & _).
  destruct (actualizar_estado_solicitud_sin_maquina motor_acepta bd_ejemplo 9
              "Pendiente") as (_ & _ & _ & H404).
  split; [|split; [|split]].
  - apply (Hok solicitud_ejemplo); [por_calculo | reflexivity | reflexivity].
  - rewrite H400; [reflexivity | por_calculo].
  - rewrite H400; [reflexivity | por_calculo].
  - rewrite H404; [reflexivity | por_calculo | reflexivity].
Defined.

(** C4 at the example: cita 1 is cancelled; cita 2, already cancelled,
    stays so whatever is asked next. *)
Lemma cita_transiciones_implicitas_witness :
  cancelar_cita motor_acepta 1 bd_ejemplo
  = Ret (Some (1, cita_ejemplo 5000 "Cancelada"))
        (tras_estado_cita bd_ejemplo 1 (cita_ejemplo 5000 "Programada") "Cancelada")
  ∧ marcar_atendida motor_acepta 2 bd_ejemplo
    = Ret (Some (2, cita_ejemplo 6000 "Cancelada")) bd_ejemplo
  ∧ citas (tras_operaciones motor_acepta
             [MarcarAtendida 2; Cancelar 1; Cancelar 2; MarcarAtendida 1] bd_ejemplo)
      !! 2
    = Some (cita_ejemplo 6000 "Cancelada").
Proof.
  destruct (cita_transiciones_implicitas motor_acepta bd_ejemplo 1)
    as (Hprog & _ & _ & _).
  destruct (cita_transiciones_implicitas motor_acepta bd_ejemplo 2)
    as (_ & Hotro & _ & Hnunca).
  split; [|split].
  - apply (Hprog (cita_ejemplo 5000 "Programada")); reflexivity.
  - apply (Hotro (cita_ejemplo 6000 "Cancelada")); [reflexivity | by vm_compute].
  - apply Hnunca; [reflexivity | by left].
Defined.

(** C10 at the example: cita 1 cannot move onto the instant of cita 3, nor
    can an id with no cita; it moves to a free instant. *)
Lemma reprogramar_cita_disponibilidad_primero_witness :
  reprogramar_cita motor_acepta 1 7000 bd_ejemplo = Ret None bd_ejemplo
  ∧ reprogramar_cita motor_acepta 9 7000 bd_ejemplo = Ret None bd_ejemplo
  ∧ reprogramar_cita motor_acepta 1 8000 bd_ejemplo
    = Ret (Some (1, cita_ejemplo 8000 "Programada"))
          (tras_reprogramar bd_ejemplo 1 (cita_ejemplo 5000 "Programada") 8000).
Proof.
  destruct (reprogramar_cita_disponibilidad_primero motor_acepta bd_ejemplo 1 7000)
    as [Hocupado _].
  destruct (reprogramar_cita_disponibilidad_primero motor_acepta bd_ejemplo 9 7000)
    as [Hocupado9 _].
  destruct (reprogramar_cita_disponibilidad_primero motor_acepta bd_ejemplo 1 8000)
    as [_ Hlibre].
  split; [|split].
  - apply Hocupado. exists 3, (cita_ejemplo 7000 "Programada").
    split; [lia | repeat split; by vm_compute].
  - apply Hocupado9. exists 3, (cita_ejemplo 7000 "Programada").
    split; [lia | repeat split; by vm_compute].
  - assert (Hno : ¬ horario_ocupado bd_ejemplo 1 8000).
    { intros (j & c & Hj & Hc & Hf & He).
      assert (Hdom : j ∈ dom (citas bd_ejemplo)) by (apply elem_of_dom; eauto).
      replace (dom (citas bd_ejemplo)) with (list_to_set (C:=gset Z) [1; 2; 3])
        in Hdom by por_calculo.
      rewrite elem_of_list_to_set, !elem_of_cons in Hdom.
      destruct Hdom as [->|[->|[->|Hnil]]];
        [lia | | | by apply not_elem_of_nil in Hnil];
        vm_compute in Hc; injection Hc as <-; vm_compute in Hf; lia. }
    destruct (Hlibre Hno eq_refl) as (Hmueve & _ & _).
    destruct (Hmueve (cita_ejemplo 5000 "Programada") eq_refl eq_refl eq_refl)
      as [Heq _].
    exact Heq.
Defined.

(** * Further properties *)

(** ** Reading users and permissions *)

Lemma get_user_by_id_eq bd user_id :
  get_user_by_id bd user_id
  = (λ u, CRUDAuth.mkDatos (user_id, u) (CRUDAuth._get_user_profile bd (user_id, u))
            (Usuario.tipo_usuario u)
            (CRUDAuth._get_user_permissions (Usuario.tipo_usuario u)))
    <$> usuarios bd !! user_id.
Proof.
  unfold get_user_by_id. rewrite first_clave.
  by destruct (usuarios bd !! user_id).
Qed.

(** X1.  [validate_user_status] accepts exactly the users that exist and
    whose estado is not 'Inactivo' (a user without estado included), with
    the message of each case; every user that [authenticate_user] accepts
    is a valid one. *)
Theorem validate_user_status_acepta bd :
  (∀ user_id,
     validate_user_status bd user_id = (true, "Usuario válido")
     ↔ ∃ u, usuarios bd !! user_id = Some u
            ∧ Usuario.estado u ≠ Some "Inactivo")
  ∧ (∀ user_id,
       validate_user_status bd user_id = (false, "Usuario no encontrado")
       ↔ usuarios bd !! user_id = None)
  ∧ (∀ user_id,
       validate_user_status bd user_id = (false, "Usuario inactivo")
       ↔ ∃ u, usuarios bd !! user_id = Some u
              ∧ Usuario.estado u = Some "Inactivo")
  ∧ (∀ username password datos,
       CRUDAuth.authenticate_user bd username password = Some datos →
       validate_user_status bd (CRUDAuth.usuario datos).1 = (true, "Usuario válido")).
Proof.
  assert (Heq : ∀ user_id,
    validate_user_status bd user_id
    = match usuarios bd !! user_id with
      | None => (false, "Usuario no encontrado")
      | Some u => if decide (Usuario.estado u = Some "Inactivo")
                  then (false, "Usuario inactivo") else (true, "Usuario válido")
      end).
  { intros user_id. unfold validate_user_status. rewrite first_clave.
    by destruct (usuarios bd !! user_id). }
  split; [|split; [|split]].
  - intros user_id. rewrite Heq.
    destruct (usuarios bd !! user_id) as [u|].
    + destruct (decide (Usuario.estado u = Some "Inactivo")) as [Hi|Hi].
      * split; [done|]. intros (u' & [= <-] & Hne). done.
      * split; [|done]. intros _. by exists u.
    + split; [done|]. by intros (u' & ? & _).
  - intros user_id. rewrite Heq.
    destruct (usuarios bd !! user_id) as [u|]; [|done].
    by destruct (decide (Usuario.estado u = Some "Inactivo")).
  - intros user_id. rewrite Heq.
    destruct (usuarios bd !! user_id) as [u|].
    + destruct (decide (Usuario.estado u = Some "Inactivo")) as [Hi|Hi].
      * split; [|done]. intros _. by exists u.
      * split; [done|]. intros (u' & [= <-] & He). done.
    + split; [done|]. by intros (u' & ? & _).
  - intros username password datos. unfold CRUDAuth.authenticate_user.
    destruct (first _ (usuarios bd)) as [[k w]|] eqn:Hq; [|done].
    apply first_Some in Hq as (Hk & _ & Hact). simpl in *.
    destruct (decide (Usuario.contraseña w ≠ password)); [done|].
    intros [= <-]. simpl. rewrite Heq, Hk.
    rewrite decide_False; [done|]. rewrite Hact. by intros [=].
Qed.

(** X2.  What [authenticate_user] returns for the user it accepts is what
    [get_user_by_id] returns for that user's id, and the permissions in it
    are the ones [verify_permission] answers for the user's role;
    [get_user_by_id] returns None exactly for an id with no user. *)
Theorem authenticate_user_datos_de_get_user_by_id bd :
  (∀ username password datos,
     CRUDAuth.authenticate_user bd username password = Some datos →
     get_user_by_id bd (CRUDAuth.usuario datos).1 = Some datos
     ∧ Usuario.username (CRUDAuth.usuario datos).2 = username
     ∧ CRUDAuth.tipo_usuario datos = Usuario.tipo_usuario (CRUDAuth.usuario datos).2)
  ∧ (∀ user_id datos,
       get_user_by_id bd user_id = Some datos →
       (CRUDAuth.usuario datos).1 = user_id
       ∧ usuarios bd !! user_id = Some (CRUDAuth.usuario datos).2
       ∧ ∀ permission,
           CRUDAuth.verify_permission (CRUDAuth.tipo_usuario datos) permission
           = default false (CRUDAuth.permisos datos !! permission))
  ∧ (∀ user_id, get_user_by_id bd user_id = None ↔ usuarios bd !! user_id = None).
Proof.
  split; [|split].
  - intros username password datos. unfold CRUDAuth.authenticate_user.
    destruct (first _ (usuarios bd)) as [[k w]|] eqn:Hq; [|done].
    apply first_Some in Hq as (Hk & Hname & _). simpl in *.
    destruct (decide (Usuario.contraseña w ≠ password)); [done|].
    intros [= <-]. simpl. by rewrite get_user_by_id_eq, Hk.
  - intros user_id datos. rewrite get_user_by_id_eq.
    destruct (usuarios bd !! user_id) as [u|]; [|done].
    by intros [= <-].
  - intros user_id. rewrite get_user_by_id_eq.
    by destruct (usuarios bd !! user_id).
Qed.

Lemma verify_permission_permisos_de rol permission :
  CRUDAuth.verify_permission rol permission = true ↔ permission ∈ permisos_de rol.
Proof.
  unfold CRUDAuth.verify_permission, permisos_de.
  rewrite elem_of_dom. unfold is_Some.
  setoid_rewrite map_lookup_filter_Some. simpl.
  destruct (CRUDAuth._get_user_permissions rol !! permission) as [[]|]; simpl.
  - split; [|done]. intros _. by exists true.
  - split; [done|]. intros (b & [= <-] & [=]).
  - split; [done|]. by intros (b & [=] & _).
Qed.

Lemma permisos_de_jerarquia :
  permisos_de "Recepcionista" ⊆ permisos_de "Veterinario"
  ∧ permisos_de "Veterinario" ⊆ permisos_de "Administrador"
  ∧ permisos_de "Veterinario" ≠ permisos_de "Recepcionista"
  ∧ permisos_de "Administrador" ≠ permisos_de "Veterinario".
Proof. repeat split; por_calculo. Qed.

(** X3.  The three roles are ordered: whatever [verify_permission] grants
    to Recepcionista it grants to Veterinario, and whatever it grants to
    Veterinario it grants to Administrador; each step is strict, and the
    three rows of the table name the same permissions. *)
Theorem verify_permission_jerarquia_de_roles :
  (∀ permission,
     CRUDAuth.verify_permission "Recepcionista" permission = true →
     CRUDAuth.verify_permission "Veterinario" permission = true)
  ∧ (∀ permission,
       CRUDAuth.verify_permission "Veterinario" permission = true →
       CRUDAuth.verify_permission "Administrador" permission = true)
  ∧ (∃ permission,
       CRUDAuth.verify_permission "Veterinario" permission = true
       ∧ CRUDAuth.verify_permission "Recepcionista" permission = false)
  ∧ (∃ permission,
       CRUDAuth.verify_permission "Administrador" permission = true
       ∧ CRUDAuth.verify_permission "Veterinario" permission = false)
  ∧ dom (CRUDAuth._get_user_permissions "Recepcionista")
    = dom (CRUDAuth._get_user_permissions "Veterinario")
  ∧ dom (CRUDAuth._get_user_permissions "Veterinario")
    = dom (CRUDAuth._get_user_permissions "Administrador").
Proof.
  destruct permisos_de_jerarquia as (Hrv & Hva & _ & _).
  split; [|split; [|split; [|split; [|split]]]].
  - intros permission. rewrite !verify_permission_permisos_de. apply Hrv.
  - intros permission. rewrite !verify_permission_permisos_de. apply Hva.
  - exists "ver_historial". split; by vm_compute.
  - exists "configurar_sistema". split; by vm_compute.
  - por_calculo.
  - por_calculo.
Qed.

(** ** Passwords and the two authentication paths *)

Section Mas_propiedades.
Variable motor : BD → option string.
Variable validation_error : list string → string.

Lemma con_usuarios_id bd : con_usuarios bd (usuarios bd) = bd.
Proof. by destruct bd. Qed.

Lemma authenticate_user_unico bd i u password :
  usuarios bd !! i = Some u →
  Usuario.estado u = Some "Activo" →
  (∀ j v, usuarios bd !! j = Some v →
          Usuario.username v = Usuario.username u → j = i) →
  CRUDAuth.authenticate_user bd (Usuario.username u) password
  = if decide (Usuario.contraseña u ≠ password) then None
    else Some (CRUDAuth.mkDatos (i, u) (CRUDAuth._get_user_profile bd (i, u))
                 (Usuario.tipo_usuario u)
                 (CRUDAuth._get_user_permissions (Usuario.tipo_usuario u))).
Proof.
  intros Hi Hact Huniq. unfold CRUDAuth.authenticate_user.
  rewrite (first_unico _ (usuarios bd) i u Hi); [done|done|].
  intros j v Hj [Hv _]. by apply (Huniq j v).
Qed.

(** X4.  After [change_password] succeeds for an active user,
    [authenticate_user] accepts the user's username with the new password
    and refuses it with the old one (when the two differ). *)
Theorem change_password_luego_authenticate_user
    bd user_id u current_password new_password :
  NoDup (usernames bd) →
  usuarios bd !! user_id = Some u →
  Usuario.estado u = Some "Activo" →
  Usuario.contraseña u = current_password →
  (3 ≤ Py.len new_password)%nat →
  motor (tras_contraseña bd user_id u new_password) = None →
  ∃ bd',
    change_password motor user_id current_password new_password bd
    = Ret (true, "Contraseña cambiada exitosamente") bd'
    ∧ CRUDAuth.authenticate_user bd' (Usuario.username u) new_password ≠ None
    ∧ (current_password ≠ new_password →
       CRUDAuth.authenticate_user bd' (Usuario.username u) current_password = None).
Proof.
  intros Hnd Hu Hact Hpw Hlen Hm.
  exists (tras_contraseña bd user_id u new_password). split.
  - rewrite change_password_eq, Hu, decide_False by (by intros ?).
    unfold Py.len_lt.
    destruct (Nat.ltb_spec (Py.len new_password) 3); [lia|]. by rewrite Hm.
  - assert (Hauth : ∀ password,
      CRUDAuth.authenticate_user (tras_contraseña bd user_id u new_password)
        (Usuario.username u) password
      = if decide (new_password ≠ password) then None
        else Some (CRUDAuth.mkDatos
                     (user_id, Usuario.con_contraseña u new_password)
                     (CRUDAuth._get_user_profile
                        (tras_contraseña bd user_id u new_password)
                        (user_id, Usuario.con_contraseña u new_password))
                     (Usuario.tipo_usuario u)
                     (CRUDAuth._get_user_permissions (Usuario.tipo_usuario u)))).
    { intros password.
      apply (authenticate_user_unico _ user_id (Usuario.con_contraseña u new_password)).
      - unfold tras_contraseña. simpl. by rewrite lookup_insert_eq.
      - done.
      - intros j v Hj Hv. unfold tras_contraseña in Hj. simpl in *.
        destruct (decide (j = user_id)) as [|Hne]; [done|].
        rewrite lookup_insert_ne in Hj by done.
        by destruct (username_determina_usuario bd j user_id v u Hnd Hj Hu Hv). }
    split.
    + rewrite Hauth. by rewrite decide_False by (by intros ?).
    + intros Hdif. rewrite Hauth. rewrite decide_True; [done|congruence].
Qed.

(** X5.  Changing a password and changing it back, both calls accepted,
    leaves the store exactly as it was. *)
Theorem change_password_ida_y_vuelta bd user_id u new_password :
  usuarios bd !! user_id = Some u →
  (3 ≤ Py.len new_password)%nat →
  (3 ≤ Py.len (Usuario.contraseña u))%nat →
  motor (tras_contraseña bd user_id u new_password) = None →
  motor bd = None →
  ∃ bd',
    change_password motor user_id (Usuario.contraseña u) new_password bd
    = Ret (true, "Contraseña cambiada exitosamente") bd'
    ∧ change_password motor user_id new_password (Usuario.contraseña u) bd'
      = Ret (true, "Contraseña cambiada exitosamente") bd.
Proof.
  intros Hu Hnew Hold Hm1 Hm2.
  exists (tras_contraseña bd user_id u new_password).
  assert (Hvuelta :
    tras_contraseña (tras_contraseña bd user_id u new_password) user_id
      (Usuario.con_contraseña u new_password) (Usuario.contraseña u) = bd).
  { unfold tras_contraseña, con_usuarios.
    destruct bd as [us ? ? ? ? ? ? ? ? ? ?]. simpl in *.
    f_equal. rewrite insert_insert_eq. apply insert_id.
    rewrite Hu. f_equal. by destruct u. }
  split.
  - rewrite change_password_eq, Hu, decide_False by (by intros ?).
    unfold Py.len_lt.
    destruct (Nat.ltb_spec (Py.len new_password) 3); [lia|]. by rewrite Hm1.
  - rewrite change_password_eq.
    replace (usuarios (tras_contraseña bd user_id u new_password) !! user_id)
      with (Some (Usuario.con_contraseña u new_password))
      by (unfold tras_contraseña; simpl; by rewrite lookup_insert_eq).
    rewrite decide_False by (by intros ?).
    unfold Py.len_lt.
    destruct (Nat.ltb_spec (Py.len (Usuario.contraseña u)) 3); [lia|].
    by rewrite Hvuelta, Hm2.
Qed.

(** X6.  With usernames unique, the user CRUD's [authenticate] and
    [CRUDAuth.authenticate_user] accept the same credentials and name the
    same user, although one filters on estado in the query and the other
    tests it afterwards. *)
Theorem CRUDUsuario_authenticate_coincide bd username password :
  NoDup (usernames bd) →
  CRUDUsuario.authenticate bd username password
  = CRUDAuth.usuario <$> CRUDAuth.authenticate_user bd username password.
Proof.
  intros Hnd.
  unfold CRUDUsuario.authenticate, CRUDUsuario.get_by_username,
    CRUDAuth.authenticate_user.
  destruct (first (λ p, Usuario.username p.2 = username) (usuarios bd))
    as [[k w]|] eqn:Hq1.
  - apply first_Some in Hq1 as [Hk Hname]. simpl in *.
    destruct (first (λ p, Usuario.username p.2 = username
                          ∧ Usuario.estado p.2 = Some "Activo") (usuarios bd))
      as [[k' w']|] eqn:Hq2.
    + apply first_Some in Hq2 as (Hk' & Hname' & Hact'). simpl in *.
      destruct (username_determina_usuario bd k' k w' w Hnd Hk' Hk) as [-> ->];
        [congruence|].
      destruct (decide (Usuario.contraseña w ≠ password)) as [Hne|Heq].
      * rewrite decide_False; [done|]. by intros [? _].
      * rewrite decide_True; [done|]. split; [|done].
        by destruct (decide (Usuario.contraseña w = password)).
    + rewrite first_None in Hq2.
      rewrite decide_False; [done|]. intros [_ Hact]. by apply (Hq2 k w).
  - rewrite first_None in Hq1.
    destruct (first (λ p, Usuario.username p.2 = username
                          ∧ Usuario.estado p.2 = Some "Activo") (usuarios bd))
      as [[k' w']|] eqn:Hq2; [|done].
    apply first_Some in Hq2 as (Hk' & Hname' & _). by destruct (Hq1 k' w').
Qed.

(** X7.  [CRUDBase.get] finds no id column for the class Usuario (table
    'usuarios': none of 'id_usuarios', 'id', 'id_solicitud', 'id_cita' is
    an attribute), so the user CRUD's [change_password], [activate_user]
    and [deactivate_user], and the generic [exists], [remove] and
    [soft_delete], raise for every id and every store and leave the store
    as it was: no user is changed through them. *)
Theorem CRUDUsuario_get_siempre_falla bd user_id new_password :
  let falla {B} : Resultado B :=
    Raise (Exception "No se pudo determinar el campo de ID") bd in
  CRUDBase.get (A:=Usuario.t) user_id bd = falla
  ∧ CRUDUsuario.change_password motor user_id new_password bd = falla
  ∧ CRUDUsuario.activate_user motor user_id bd = falla
  ∧ CRUDUsuario.deactivate_user motor user_id bd = falla
  ∧ Base.exists_ (A:=Usuario.t) user_id bd = falla
  ∧ Base.remove (A:=Usuario.t) motor user_id bd = falla
  ∧ Base.soft_delete (A:=Usuario.t) motor user_id bd = falla.
Proof. repeat split. Qed.

End Mas_propiedades.

(** ** The generic methods on a class whose id column is its primary key *)

Section Metodos_genericos.
Variable motor : BD → option string.
Context {A : Type} `{Modelo A}.

(** [CRUDBase.get] resolves the id column to the primary key. *)
Hypothesis id_es_clave : CRUDBase.id_field A = Some (primary_key A).
(** Writing a table and reading it back gives what was written. *)
Hypothesis tabla_con_tabla : ∀ bd (m : gmap Z A), tabla (con_tabla bd m) = m.

Lemma get_por_clave id bd :
  CRUDBase.get id bd = Ret (pair id <$> tabla bd !! id) bd.
Proof.
  unfold CRUDBase.get. rewrite id_es_clave, decide_True by done. done.
Qed.

Lemma remove_eq id bd :
  Base.remove motor id bd
  = match tabla bd !! id with
    | None => Ret None bd
    | Some o =>
        match motor (con_tabla bd (delete id (tabla bd))) with
        | None => Ret (Some (id, o)) (con_tabla bd (delete id (tabla bd)))
        | Some msg => Raise (Exception msg) bd
        end
    end.
Proof.
  unfold Base.remove, mbind, M_bind. rewrite get_por_clave.
  destruct (tabla bd !! id) as [o|]; simpl; [|done].
  unfold commit. by destruct (motor _).
Qed.

(** X8.  [remove] of a row that exists, once committed, returns the row
    and deletes exactly it: [get] and [exists] no longer find the id, every
    other row is as before, [count] drops by one, and removing the same id
    again returns None and changes nothing.  For an id with no row [remove]
    returns None without committing anything. *)
Theorem remove_luego_get bd id :
  (∀ o, tabla bd !! id = Some o →
     motor (con_tabla bd (delete id (tabla bd))) = None →
     ∃ bd',
       Base.remove motor id bd = Ret (Some (id, o)) bd'
       ∧ CRUDBase.get id bd' = Ret None bd'
       ∧ Base.exists_ id bd' = Ret false bd'
       ∧ (∀ j, j ≠ id → tabla bd' !! j = tabla bd !! j)
       ∧ S (Base.count bd') = Base.count bd
       ∧ Base.remove motor id bd' = Ret None bd')
  ∧ (tabla bd !! id = None → Base.remove motor id bd = Ret None bd).
Proof.
  split.
  - intros o Ho Hm. exists (con_tabla bd (delete id (tabla bd))).
    assert (Hgone : tabla (con_tabla bd (delete id (tabla bd))) !! id = None)
      by (by rewrite tabla_con_tabla, lookup_delete_eq).
    split; [by rewrite remove_eq, Ho, Hm|].
    split; [by rewrite get_por_clave, Hgone|].
    split.
    { unfold Base.exists_, mbind, M_bind. by rewrite get_por_clave, Hgone. }
    split; [intros j Hj; by rewrite tabla_con_tabla, lookup_delete_ne|].
    split.
    { unfold Base.count. rewrite tabla_con_tabla.
      rewrite <- (insert_delete_id (tabla bd) id o Ho) at 2.
      by rewrite map_size_insert_None by apply lookup_delete_eq. }
    by rewrite remove_eq, Hgone.
  - intros Hno. by rewrite remove_eq, Hno.
Qed.


(** X10.  [soft_delete] never deletes: whatever its outcome, the table
    has the same keys afterwards, and every row other than the one named is
    unchanged.  For a class without the attribute estado it writes
    nothing: it returns what [get] returns and the store is as before. *)
Theorem soft_delete_no_elimina `{!AtributoEstado A, !ColumnasEnum A} bd id :
  dom (tabla (estado_final (Base.soft_delete motor id bd))) = dom (tabla bd)
  ∧ (∀ j, j ≠ id →
       tabla (estado_final (Base.soft_delete motor id bd)) !! j = tabla bd !! j)
  ∧ (poner_estado (A:=A) = None →
     Base.soft_delete motor id bd = Ret (pair id <$> tabla bd !! id) bd).
Proof.
  unfold Base.soft_delete, mbind, M_bind. rewrite get_por_clave.
  destruct (tabla bd !! id) as [o|] eqn:Ho; simpl.
  - destruct poner_estado as [poner|]; simpl.
    + unfold fmap, M_fmap, guardar, commit, mbind, M_bind, mret, M_ret. simpl.
      destruct (motor _); simpl; [done|].
      unfold refresh. destruct (fuera_de_enum _ _); simpl;
        (rewrite tabla_con_tabla; split; [|split; [|done]]);
        try (by apply dom_insert_lookup_L);
        intros j Hj; by rewrite lookup_insert_ne.
    + done.
  - by destruct poner_estado.
Qed.

End Metodos_genericos.

(** ** Invariants of the clinical workflow *)

Section Invariantes.
Variable motor : BD → option string.
Variable validation_error : list string → string.

Section Reglas.
Variable P : BD → Prop.

Lemma conserva_mret {A} (a : A) : conserva P (mret a).
Proof. by intros bd HP. Qed.

Lemma conserva_raise {A} e : conserva P (raise (A:=A) e).
Proof. by intros bd HP. Qed.

Lemma conserva_leer {A} (f : BD → A) : conserva P (leer f).
Proof. by intros bd HP. Qed.

Lemma conserva_bind {A B} (m : M A) (f : A → M B) :
  conserva P m → (∀ a, conserva P (f a)) → conserva P (m ≫= f).
Proof.
  intros Hm Hf bd HP. unfold mbind, M_bind. specialize (Hm bd HP).
  destruct (m bd); simpl in *; [by apply Hf|done].
Qed.

Lemma conserva_fmap {A B} (g : A → B) (m : M A) :
  conserva P m → conserva P (g <$> m).
Proof.
  intros Hm bd HP. unfold fmap, M_fmap. specialize (Hm bd HP).
  by destruct (m bd).
Qed.

Lemma conserva_try_except {A} prefijo (m : M A) :
  conserva P m → conserva P (try_except prefijo m).
Proof.
  intros Hm bd HP. unfold try_except. specialize (Hm bd HP).
  by destruct (m bd) as [a bd'|[c d|msg] bd'].
Qed.

Lemma conserva_get {A} `{Modelo A} id : conserva P (CRUDBase.get (A:=A) id).
Proof.
  unfold CRUDBase.get. destruct (CRUDBase.id_field A); [|apply conserva_raise].
  destruct (decide _); apply conserva_leer.
Qed.

Lemma conserva_get_opcional {A} `{Modelo A} id :
  conserva P (Base.get_opcional (A:=A) id).
Proof.
  destruct id as [id|]; simpl; [apply conserva_get|].
  destruct (CRUDBase.id_field A); [|apply conserva_raise].
  destruct (decide _); [apply conserva_mret|apply conserva_leer].
Qed.

Lemma conserva_guardar {A} `{Modelo A} (obj : Z * A) :
  (∀ bd, P bd → P (con_tabla bd (<[obj.1 := obj.2]> (tabla bd)))) →
  conserva P (guardar motor obj).
Proof.
  intros Hw bd HP. unfold guardar, commit, mbind, M_bind.
  destruct (motor _); simpl; [done|by apply Hw].
Qed.

Lemma conserva_refresh {A} `{ColumnasEnum A} columna (obj : Z * A) :
  conserva P (refresh columna obj).
Proof. intros bd HP. unfold refresh. by destruct (fuera_de_enum _ _). Qed.

Lemma conserva_create {A} `{Modelo A, DesdeKwargs A, ValoresPorDefecto A} obj_in :
  (∀ bd k, P bd →
     P (con_tabla bd (<[k := por_defecto (de_kwargs obj_in)]> (tabla bd)))) →
  conserva P (create motor obj_in).
Proof.
  intros Hw bd HP. unfold create, mbind, M_bind, leer.
  by apply conserva_guardar; [intros bd'; apply Hw|].
Qed.

End Reglas.

Ltac conservar :=
  repeat match goal with
  | |- conserva _ (try_except _ _) => apply conserva_try_except
  | |- conserva _ (mret _) => apply conserva_mret
  | |- conserva _ (raise _) => apply conserva_raise
  | |- conserva _ (leer _) => apply conserva_leer
  | |- conserva _ (CRUDBase.get _) => apply conserva_get
  | |- conserva _ (Base.get_opcional _) => apply conserva_get_opcional
  | |- conserva _ (refresh _ _) => apply conserva_refresh
  | |- conserva _ (_ <$> _) => apply conserva_fmap
  | |- conserva _ (_ ≫= _) => apply conserva_bind; [|intros ?]
  | |- conserva _ (match ?x with _ => _ end) => destruct x
  end.

(** Writing a row whose estado is one of the five keeps the estados
    enumerated. *)
Lemma estados_enumerados_insert bd k (s : SolicitudAtencion.t) e :
  SolicitudAtencion.estado s = Some e → e ∈ estados_validos →
  estados_enumerados bd →
  estados_enumerados (con_solicitudes bd (<[k := s]> (solicitudes bd))).
Proof.
  intros Hs He Hbd i s' Hi. simpl in Hi.
  destruct (decide (i = k)) as [->|Hne].
  - rewrite lookup_insert_eq in Hi. injection Hi as <-. by exists e.
  - rewrite lookup_insert_ne in Hi by done. by apply (Hbd i).
Qed.

Lemma conserva_estados_cambiar_estado solicitud_id e :
  e ∈ estados_validos →
  conserva estados_enumerados (cambiar_estado motor solicitud_id e).
Proof.
  intros He. unfold cambiar_estado. conservar.
  apply conserva_guardar. intros bd Hbd.
  by apply (estados_enumerados_insert bd _ _ e).
Qed.

Lemma conserva_estados_create_solicitud_atencion ahora d :
  conserva estados_enumerados (create_solicitud_atencion motor ahora d).
Proof.
  unfold create_solicitud_atencion. conservar.
  apply conserva_create. intros bd k Hbd. rewrite de_kwargs_solicitud.
  apply (estados_enumerados_insert bd _ _ "Pendiente"); [done| |done].
  by apply (bool_decide_unpack _).
Qed.

Lemma conserva_estados_actualizar_estado_solicitud id e :
  conserva estados_enumerados (actualizar_estado_solicitud motor id e).
Proof.
  unfold actualizar_estado_solicitud. apply conserva_try_except.
  destruct (decide (e ∈ estados_validos)) as [He|He]; [|by intros bd Hbd].
  conservar. by apply conserva_estados_cambiar_estado.
Qed.

Lemma conserva_estados_create_consulta ahora d :
  conserva estados_enumerados (create_consulta motor validation_error ahora d).
Proof.
  unfold create_consulta, cambiar_disposicion, add_evento_consulta,
    nuevo_HistorialClinicoCreate, add_evento.
  conservar;
    try (apply conserva_estados_cambiar_estado; by apply (bool_decide_unpack _));
    try (apply conserva_create; intros bd k Hbd; exact Hbd);
    try (apply conserva_guardar; intros bd Hbd; exact Hbd).
Qed.

Lemma conserva_estados_finalizar_consulta id :
  conserva estados_enumerados (finalizar_consulta motor id).
Proof.
  unfold finalizar_consulta, cambiar_disposicion_de.
  conservar;
    try (apply conserva_estados_cambiar_estado; by apply (bool_decide_unpack _));
    try (apply conserva_guardar; intros bd Hbd; exact Hbd).
Qed.

(** X11.  Through any sequence of calls of the four handlers that write
    a solicitud or a consulta (creating a solicitud, updating its estado,
    creating a consulta, finalising a consulta), whatever each call answers
    and whichever commits the engine refuses, every stored solicitud keeps
    an estado among the five enumerated ones, provided that was so at the
    start. *)
Theorem estados_enumerados_invariante ps bd :
  estados_enumerados bd →
  estados_enumerados (tras_peticiones motor validation_error ps bd).
Proof.
  revert bd. induction ps as [|p ps IH]; intros bd Hbd; simpl; [done|].
  apply IH. destruct p as [ahora d|id e|ahora d|id]; simpl.
  - by apply conserva_estados_create_solicitud_atencion.
  - by apply conserva_estados_actualizar_estado_solicitud.
  - by apply conserva_estados_create_consulta.
  - by apply conserva_estados_finalizar_consulta.
Qed.

(** A column of the store that every step of a computation keeps is the
    same at its end. *)
Lemma conserva_proyeccion {A B} (f : BD → B) (m : M A) bd :
  (∀ c, conserva (λ b, f b = c) m) → f (estado_final (m bd)) = f bd.
Proof. intros Hm. by apply (Hm (f bd) bd). Qed.

(** The handlers other than [create_consulta] never write a consulta. *)
Lemma consultas_create_solicitud_atencion ahora d bd :
  consultas (estado_final (create_solicitud_atencion motor ahora d bd))
  = consultas bd.
Proof.
  apply (conserva_proyeccion consultas). intros c.
  unfold create_solicitud_atencion. conservar.
  apply conserva_create. by intros bd' k Hbd.
Qed.

Lemma consultas_actualizar_estado_solicitud id e bd :
  consultas (estado_final (actualizar_estado_solicitud motor id e bd))
  = consultas bd.
Proof.
  apply (conserva_proyeccion consultas). intros c.
  unfold actualizar_estado_solicitud, cambiar_estado. conservar.
  apply conserva_guardar. by intros bd' Hbd.
Qed.

Lemma consultas_finalizar_consulta id bd :
  consultas (estado_final (finalizar_consulta motor id bd)) = consultas bd.
Proof.
  apply (conserva_proyeccion consultas). intros c.
  unfold finalizar_consulta, cambiar_disposicion_de, cambiar_estado. conservar;
    apply conserva_guardar; by intros bd' Hbd.
Qed.

(** [create_consulta] when the solicitud of the triaje is not found: two
    commits, then the answer. *)
Lemma create_consulta_sin_solicitud bd ahora consulta_data v triaje_obj :
  triajes bd !! ConsultaCreate.id_triaje consulta_data = Some triaje_obj →
  veterinarios bd !! ConsultaCreate.id_veterinario consulta_data = Some v →
  get_by_triaje bd (ConsultaCreate.id_triaje consulta_data) = None →
  solicitudes bd !! Triaje.id_solicitud triaje_obj = None →
  create_consulta motor validation_error ahora consulta_data bd
  = match motor (tras_consulta bd consulta_data) with
    | Some msg => Raise (error_500 msg) bd
    | None =>
    match motor (tras_disposicion bd consulta_data v) with
    | Some msg => Raise (error_500 msg) (tras_consulta bd consulta_data)
    | None =>
        Ret (siguiente_id (consultas bd), fila_consulta consulta_data)
            (tras_disposicion bd consulta_data v)
    end end.
Proof.
  intros Htr Hv Hno Hsol.
  unfold create_consulta, try_except, mbind, M_bind.
  rewrite get_Triaje, Htr. simpl.
  rewrite Hv. simpl. rewrite Hno. simpl.
  unfold create, guardar, commit, mbind, M_bind, mret, M_ret, leer.
  rewrite de_kwargs_consulta. simpl.
  fold (tras_consulta bd consulta_data).
  destruct (motor (tras_consulta bd consulta_data)) as [msg|]; [done|].
  unfold cambiar_disposicion, mbind, M_bind. rewrite get_Veterinario. simpl.
  rewrite Hv. simpl.
  unfold fmap, M_fmap, guardar, commit, mbind, M_bind, mret, M_ret. simpl.
  fold (tras_consulta bd consulta_data). fold (tras_disposicion bd consulta_data v).
  destruct (motor (tras_disposicion bd consulta_data v)) as [msg|]; [done|].
  unfold refresh, fuera_de_enum. simpl.
  change (solicitudes (tras_disposicion bd consulta_data v)) with (solicitudes bd).
  rewrite Hsol. done.
Qed.

(** Whatever [create_consulta] answers, the consultas it leaves are those
    it found, or those with the new row added under a free key, and the
    second only for a triaje that had no consulta. *)
Lemma create_consulta_consultas bd ahora consulta_data :
  let bd' := estado_final
               (create_consulta motor validation_error ahora consulta_data bd) in
  consultas bd' = consultas bd
  ∨ (get_by_triaje bd (ConsultaCreate.id_triaje consulta_data) = None
     ∧ consultas bd'
       = <[siguiente_id (consultas bd) := fila_consulta consulta_data]>
           (consultas bd)).
Proof.
  simpl.
  destruct (create_consulta_verificaciones motor validation_error bd ahora
              consulta_data) as (Htri & Hvet & Hdup).
  destruct (triajes bd !! ConsultaCreate.id_triaje consulta_data)
    as [t|] eqn:Ht; [|rewrite Htri by done; by left].
  destruct (veterinarios bd !! ConsultaCreate.id_veterinario consulta_data)
    as [v|] eqn:Hv; [|rewrite Hvet by eauto; by left].
  destruct (get_by_triaje bd (ConsultaCreate.id_triaje consulta_data))
    as [c|] eqn:Hno; [rewrite Hdup by eauto; by left|].
  destruct (solicitudes bd !! Triaje.id_solicitud t) as [s|] eqn:Hs.
  - rewrite (create_consulta_pasos motor validation_error _ _ _ _ _ _ Ht Hv Hno Hs).
    destruct (motor (tras_consulta _ _)); [by left|].
    destruct (motor (tras_disposicion _ _ _)); [by right|].
    destruct (motor (tras_en_atencion _ _ _ _ _)); [by right|].
    destruct (SolicitudAtencion.id_mascota s); [|by right].
    destruct (motor (tras_evento _ _ _ _ _ _ _)); by right.
  - rewrite (create_consulta_sin_solicitud _ _ _ _ _ Ht Hv Hno Hs).
    destruct (motor (tras_consulta _ _)); [by left|].
    destruct (motor (tras_disposicion _ _ _)); by right.
Qed.

Lemma una_consulta_por_triaje_insert bd (consulta_data : ConsultaCreate.t) :
  get_by_triaje bd (ConsultaCreate.id_triaje consulta_data) = None →
  ∀ cs, cs = <[siguiente_id (consultas bd) := fila_consulta consulta_data]>
               (consultas bd) →
  (∀ i j c d t, consultas bd !! i = Some c → consultas bd !! j = Some d →
                Consulta.id_triaje c = Some t → Consulta.id_triaje d = Some t →
                i = j) →
  ∀ i j c d t, cs !! i = Some c → cs !! j = Some d →
               Consulta.id_triaje c = Some t → Consulta.id_triaje d = Some t →
               i = j.
Proof.
  intros Hno cs -> Hbd i j c d t Hi Hj Hc Hd.
  unfold get_by_triaje in Hno. rewrite first_None in Hno.
  destruct (decide (i = siguiente_id (consultas bd))) as [->|Hni];
    destruct (decide (j = siguiente_id (consultas bd))) as [->|Hnj]; [done|..].
  - rewrite lookup_insert_eq in Hi. injection Hi as <-.
    rewrite lookup_insert_ne in Hj by done. simpl in Hc. injection Hc as <-.
    by destruct (Hno j d Hj).
  - rewrite lookup_insert_eq in Hj. injection Hj as <-.
    rewrite lookup_insert_ne in Hi by done. simpl in Hd. injection Hd as <-.
    by destruct (Hno i c Hi).
  - rewrite lookup_insert_ne in Hi, Hj by done. by apply (Hbd i j c d t).
Qed.

(** X12.  No triaje ever gets a second consulta: through any sequence of
    calls of the four handlers, whatever each answers and whichever commits
    the engine refuses, no two stored consultas name the same triaje,
    provided that was so at the start. *)
Theorem una_consulta_por_triaje_invariante ps bd :
  una_consulta_por_triaje bd →
  una_consulta_por_triaje (tras_peticiones motor validation_error ps bd).
Proof.
  revert bd. induction ps as [|p ps IH]; intros bd Hbd; simpl; [done|].
  apply IH. unfold una_consulta_por_triaje in *.
  destruct p as [ahora d|id e|ahora d|id]; simpl.
  - by rewrite consultas_create_solicitud_atencion.
  - by rewrite consultas_actualizar_estado_solicitud.
  - destruct (create_consulta_consultas bd ahora d) as [->|[Hno Hcs]]; [done|].
    by apply (una_consulta_por_triaje_insert bd d Hno _ Hcs).
  - by rewrite consultas_finalizar_consulta.
Qed.

(** No handler of the workflow writes the triajes, and none removes or
    changes a consulta that is stored. *)
Lemma triajes_atender p bd :
  triajes (atender motor validation_error p bd) = triajes bd.
Proof.
  destruct p as [ahora d|id e|ahora d|id]; simpl;
    apply (conserva_proyeccion triajes); intros c;
    unfold create_solicitud_atencion, actualizar_estado_solicitud,
      create_consulta, finalizar_consulta, cambiar_disposicion,
      cambiar_disposicion_de, cambiar_estado, add_evento_consulta,
      nuevo_HistorialClinicoCreate, add_evento;
    conservar;
    try (apply conserva_create; by intros b k Hb);
    try (apply conserva_guardar; by intros b Hb).
Qed.

Lemma consultas_atender p bd i c :
  consultas bd !! i = Some c →
  consultas (atender motor validation_error p bd) !! i = Some c.
Proof.
  intros Hi. destruct p as [ahora d|id e|ahora d|id]; simpl.
  - by rewrite consultas_create_solicitud_atencion.
  - by rewrite consultas_actualizar_estado_solicitud.
  - destruct (create_consulta_consultas bd ahora d) as [->|[_ ->]]; [done|].
    rewrite lookup_insert_ne; [done|].
    intros <-. by rewrite siguiente_id_libre in Hi.
  - by rewrite consultas_finalizar_consulta.
Qed.

(** A triaje that has a consulta keeps it through any sequence of calls
    of the four handlers. *)
Lemma consulta_registrada_tras_peticiones ps bd triaje_id :
  is_Some (triajes bd !! triaje_id) →
  (∃ i c, consultas bd !! i = Some c ∧ Consulta.id_triaje c = Some triaje_id) →
  let bd' := tras_peticiones motor validation_error ps bd in
  is_Some (triajes bd' !! triaje_id) ∧ is_Some (get_by_triaje bd' triaje_id).
Proof.
  revert bd. induction ps as [|p ps IH]; intros bd Htri (i & c & Hi & Hc); simpl.
  - split; [done|].
    destruct (get_by_triaje bd triaje_id) as [x|] eqn:Hg; [by eexists|].
    unfold get_by_triaje in Hg. rewrite first_None in Hg.
    by destruct (Hg i c Hi).
  - apply IH.
    + by rewrite triajes_atender.
    + exists i, c. split; [by apply consultas_atender|done].
Qed.

(** X13.  A consulta whose creation got past its first commit cannot be
    created again through the workflow: whether the call returned or
    failed part-way with HTTP 500, once the consulta row is stored, every
    [create_consulta] for the same triaje that comes after it, directly or
    after any sequence of calls of the four handlers (creating a solicitud,
    updating its estado, creating a consulta, finalising a consulta, none
    of which deletes a consulta or a triaje), is refused with HTTP 400 and
    writes nothing; when the veterinarian it names exists the refusal is
    'Ya existe una consulta para este triaje'. *)
Theorem create_consulta_no_repetible bd ahora consulta_data :
  let bd' := estado_final
               (create_consulta motor validation_error ahora consulta_data bd) in
  consultas bd' ≠ consultas bd →
  ∀ ps ahora' consulta_data',
    ConsultaCreate.id_triaje consulta_data'
    = ConsultaCreate.id_triaje consulta_data →
    let bd'' := tras_peticiones motor validation_error ps bd' in
    let otra := create_consulta motor validation_error ahora' consulta_data' bd'' in
    (veterinarios bd'' !! ConsultaCreate.id_veterinario consulta_data' = None →
     otra = Raise (HTTPException 400 "Veterinario no encontrado") bd'')
    ∧ (is_Some (veterinarios bd'' !! ConsultaCreate.id_veterinario consulta_data') →
       otra = Raise (HTTPException 400 "Ya existe una consulta para este triaje")
                    bd'').
Proof.
  intros bd' Hcambio ps ahora' consulta_data' Higual bd'' otra.
  assert (Htri : is_Some (triajes bd' !! ConsultaCreate.id_triaje consulta_data)).
  { destruct (triajes bd !! ConsultaCreate.id_triaje consulta_data) as [t|] eqn:Ht.
    - pose proof (triajes_atender (PCrearConsulta ahora consulta_data) bd) as Heq.
      simpl in Heq. fold bd' in Heq. rewrite Heq, Ht. by eexists.
    - destruct Hcambio. unfold bd'.
      destruct (create_consulta_verificaciones motor validation_error bd ahora
                  consulta_data) as (Hno & _). by rewrite Hno. }
  assert (Hfila : ∃ i c, consultas bd' !! i = Some c
                         ∧ Consulta.id_triaje c
                           = Some (ConsultaCreate.id_triaje consulta_data)).
  { destruct (create_consulta_consultas bd ahora consulta_data) as [Hig|[_ Hcs]];
      [by destruct Hcambio|].
    fold bd' in Hcs.
    exists (siguiente_id (consultas bd)), (fila_consulta consulta_data).
    split; [by rewrite Hcs, lookup_insert_eq|done]. }
  destruct (consulta_registrada_tras_peticiones ps bd' _ Htri Hfila)
    as [Htri'' Hya].
  fold bd'' in Htri'', Hya. rewrite <- Higual in Htri'', Hya.
  destruct (create_consulta_verificaciones motor validation_error bd'' ahora'
              consulta_data') as (_ & Hvet & Hdup).
  split.
  - intros Hv. by apply Hvet.
  - intros Hv. by apply Hdup.
Qed.

(** *** Finalising a consulta *)

Lemma get_Consulta id bd :
  CRUDBase.get (A:=Consulta.t) id bd = Ret (pair id <$> consultas bd !! id) bd.
Proof. done. Qed.

Lemma finalizar_consulta_eq bd consulta_id c veterinario_id v triaje_id t s :
  consultas bd !! consulta_id = Some c →
  Consulta.id_veterinario c = Some veterinario_id →
  veterinarios bd !! veterinario_id = Some v →
  Consulta.id_triaje c = Some triaje_id →
  triajes bd !! triaje_id = Some t →
  solicitudes bd !! Triaje.id_solicitud t = Some s →
  finalizar_consulta motor consulta_id bd
  = match motor (tras_liberar bd veterinario_id v) with
    | Some msg =>
        Raise (HTTPException 500 ("Error al finalizar consulta: " +:+ msg)) bd
    | None =>
    match motor (tras_completada bd veterinario_id v (Triaje.id_solicitud t) s) with
    | Some msg =>
        Raise (HTTPException 500 ("Error al finalizar consulta: " +:+ msg))
              (tras_liberar bd veterinario_id v)
    | None =>
        Ret (mkConsultaFinalizada "Consulta finalizada exitosamente" true consulta_id)
            (tras_completada bd veterinario_id v (Triaje.id_solicitud t) s)
    end end.
Proof.
  intros Hc Hvid Hv Htid Ht Hs.
  unfold finalizar_consulta, try_except, mbind, M_bind.
  rewrite get_Consulta, Hc. simpl. rewrite Hvid, Htid.
  unfold cambiar_disposicion_de, mbind, M_bind. simpl. rewrite Hv. simpl.
  unfold fmap, M_fmap, guardar, commit, mbind, M_bind, mret, M_ret. simpl.
  fold (tras_liberar bd veterinario_id v).
  destruct (motor (tras_liberar bd veterinario_id v)) as [msg|]; [done|].
  unfold refresh, fuera_de_enum. simpl.
  change (triajes (tras_liberar bd veterinario_id v)) with (triajes bd).
  rewrite Ht. simpl.
  unfold cambiar_estado, mbind, M_bind. simpl.
  change (solicitudes (tras_liberar bd veterinario_id v)) with (solicitudes bd).
  rewrite Hs. simpl.
  unfold fmap, M_fmap, guardar, commit, mbind, M_bind, mret, M_ret. simpl.
  fold (tras_liberar bd veterinario_id v).
  fold (tras_completada bd veterinario_id v (Triaje.id_solicitud t) s).
  by destruct (motor (tras_completada _ _ _ _ _)).
Qed.

(** X14.  [finalizar_consulta] answers 404 for an id with no consulta
    and writes nothing.  For a consulta whose veterinarian, triaje and
    solicitud are stored it commits twice, whatever the disposicion and the
    estado stored: the veterinarian becomes 'Libre', then the solicitud
    becomes 'Completada'; the consulta itself and every other table are as
    before.  A refusal of the second commit is answered 500 with the
    veterinarian already 'Libre'. *)
Theorem finalizar_consulta_libera_y_completa bd consulta_id :
  (consultas bd !! consulta_id = None →
   finalizar_consulta motor consulta_id bd
   = Raise (HTTPException 404 "Consulta no encontrada") bd)
  ∧ (∀ c veterinario_id v triaje_id t s,
       consultas bd !! consulta_id = Some c →
       Consulta.id_veterinario c = Some veterinario_id →
       veterinarios bd !! veterinario_id = Some v →
       Consulta.id_triaje c = Some triaje_id →
       triajes bd !! triaje_id = Some t →
       solicitudes bd !! Triaje.id_solicitud t = Some s →
       let bd1 := tras_liberar bd veterinario_id v in
       let bd2 := tras_completada bd veterinario_id v (Triaje.id_solicitud t) s in
       (motor bd1 = None → motor bd2 = None →
        finalizar_consulta motor consulta_id bd
        = Ret (mkConsultaFinalizada "Consulta finalizada exitosamente" true
                 consulta_id) bd2
        ∧ veterinarios bd2 !! veterinario_id
          = Some (Veterinario.con_disposicion v (Some "Libre"))
        ∧ solicitudes bd2 !! Triaje.id_solicitud t
          = Some (SolicitudAtencion.con_estado s (Some "Completada"))
        ∧ (∀ j, j ≠ veterinario_id → veterinarios bd2 !! j = veterinarios bd !! j)
        ∧ (∀ j, j ≠ Triaje.id_solicitud t →
             solicitudes bd2 !! j = solicitudes bd !! j)
        ∧ consultas bd2 = consultas bd ∧ triajes bd2 = triajes bd
        ∧ historiales bd2 = historiales bd ∧ diagnosticos bd2 = diagnosticos bd
        ∧ citas bd2 = citas bd ∧ mascotas bd2 = mascotas bd
        ∧ usuarios bd2 = usuarios bd)
       ∧ (∀ msg, motor bd1 = None → motor bd2 = Some msg →
            finalizar_consulta motor consulta_id bd
            = Raise (HTTPException 500 ("Error al finalizar consulta: " +:+ msg))
                    bd1
            ∧ veterinarios bd1 !! veterinario_id
              = Some (Veterinario.con_disposicion v (Some "Libre"))
            ∧ solicitudes bd1 = solicitudes bd)).
Proof.
  split.
  - intros Hno. unfold finalizar_consulta, try_except, mbind, M_bind.
    by rewrite get_Consulta, Hno.
  - intros c veterinario_id v triaje_id t s Hc Hvid Hv Htid Ht Hs bd1 bd2.
    rewrite (finalizar_consulta_eq _ _ _ _ _ _ _ _ Hc Hvid Hv Htid Ht Hs).
    fold bd1 bd2. split.
    + intros -> ->. split; [done|]. unfold bd2, tras_completada, tras_liberar.
      simpl. rewrite !lookup_insert_eq.
      repeat split; try done; intros j Hj; by rewrite lookup_insert_ne.
    + intros msg -> ->. split; [done|]. unfold bd1, tras_liberar. simpl.
      by rewrite lookup_insert_eq.
Qed.

(** X15.  Creating a consulta and then finalising it, the engine
    accepting every commit: both calls succeed, the consulta stays stored,
    the veterinarian ends 'Libre' and the solicitud 'Completada'.  A
    veterinarian who was 'Libre' before the consulta is stored exactly as
    before it. *)
Theorem create_consulta_luego_finalizar_consulta
    bd ahora consulta_data v triaje_obj s mascota_id :
  (∀ b, motor b = None) →
  consulta_creable bd consulta_data v triaje_obj s mascota_id →
  ∃ nueva bd' bd'',
    create_consulta motor validation_error ahora consulta_data bd = Ret nueva bd'
    ∧ finalizar_consulta motor nueva.1 bd'
      = Ret (mkConsultaFinalizada "Consulta finalizada exitosamente" true nueva.1)
            bd''
    ∧ consultas bd'' !! nueva.1 = Some (fila_consulta consulta_data)
    ∧ veterinarios bd''
      = <[ConsultaCreate.id_veterinario consulta_data :=
            Veterinario.con_disposicion v (Some "Libre")]> (veterinarios bd)
    ∧ solicitudes bd''
      = <[Triaje.id_solicitud triaje_obj :=
            SolicitudAtencion.con_estado s (Some "Completada")]> (solicitudes bd)
    ∧ (Veterinario.disposicion v = Some "Libre" →
       veterinarios bd'' = veterinarios bd).
Proof.
  intros Hacepta Hpre.
  pose proof (create_consulta_eq motor validation_error bd ahora _ _ _ _ _ Hpre)
    as Hcrea.
  rewrite !Hacepta in Hcrea.
  destruct Hpre as [Htr Hv Hno Hsol Hmid].
  set (bd' := tras_evento bd ahora consulta_data v triaje_obj s mascota_id) in *.
  set (v' := Veterinario.con_disposicion v (Some "Ocupado")).
  set (s' := SolicitudAtencion.con_estado s (Some "En atencion")).
  assert (Hfin := finalizar_consulta_eq bd' (siguiente_id (consultas bd))
            (fila_consulta consulta_data)
            (ConsultaCreate.id_veterinario consulta_data) v'
            (ConsultaCreate.id_triaje consulta_data) triaje_obj s').
  rewrite !Hacepta in Hfin.
  eexists _, bd', _. split; [exact Hcrea|]. split.
  { apply Hfin; try done; unfold bd', tras_evento, tras_en_atencion,
      tras_disposicion, tras_consulta; simpl; by rewrite ?lookup_insert_eq. }
  unfold tras_completada, tras_liberar, bd', tras_evento, tras_en_atencion,
    tras_disposicion, tras_consulta. simpl.
  rewrite lookup_insert_eq, !insert_insert_eq.
  assert (Hv' : Veterinario.con_disposicion v' (Some "Libre")
                = Veterinario.con_disposicion v (Some "Libre")) by by destruct v.
  assert (Hs' : SolicitudAtencion.con_estado s' (Some "Completada")
                = SolicitudAtencion.con_estado s (Some "Completada"))
    by by destruct s.
  rewrite Hv', Hs'. repeat split; try done.
  intros Hlibre. apply insert_id. rewrite Hv. f_equal.
  destruct v. simpl in *. by rewrite Hlibre.
Qed.

(** X16.  A solicitud can be read back under the id its creation
    returned: [get_solicitud_atencion] returns the row created, and after
    an accepted update of its estado to one of the five states, the row
    with that estado.  An id with no solicitud is answered 404. *)
Theorem get_solicitud_atencion_tras_crear bd ahora solicitud_data :
  (∀ id, solicitudes bd !! id = None →
     get_solicitud_atencion id bd
     = Raise (HTTPException 404 "Solicitud no encontrada") bd)
  ∧ (∀ r bd',
       create_solicitud_atencion motor ahora solicitud_data bd = Ret r bd' →
       get_solicitud_atencion r.1 bd' = Ret r bd'
       ∧ ∀ e, e ∈ estados_validos →
           motor (tras_estado bd' r.1 r.2 e) = None →
           let actualizada := (r.1, SolicitudAtencion.con_estado r.2 (Some e)) in
           ∃ bd'',
             actualizar_estado_solicitud motor r.1 e bd'
             = Ret (mkEstadoActualizado "Estado actualizado exitosamente"
                      actualizada) bd''
             ∧ get_solicitud_atencion r.1 bd'' = Ret actualizada bd'').
Proof.
  assert (Hget : ∀ id b, get_solicitud_atencion id b
                 = match solicitudes b !! id with
                   | Some x => Ret (id, x) b
                   | None => Raise (HTTPException 404 "Solicitud no encontrada") b
                   end).
  { intros id b. unfold get_solicitud_atencion, try_except, mbind, M_bind.
    rewrite get_SolicitudAtencion. by destruct (solicitudes b !! id). }
  split.
  - intros id Hno. by rewrite Hget, Hno.
  - intros r bd' Hcrea. rewrite create_solicitud_atencion_eq in Hcrea.
    destruct (mascotas bd !! _); [|done].
    destruct (recepcionistas bd !! _); [|done].
    destruct (motor (tras_solicitud bd solicitud_data)); [done|].
    injection Hcrea as <- <-. simpl.
    assert (Hbd' : solicitudes (tras_solicitud bd solicitud_data)
                   !! siguiente_id (solicitudes bd)
                   = Some (fila_solicitud solicitud_data)).
    { unfold tras_solicitud. simpl. by rewrite lookup_insert_eq. }
    split; [by rewrite Hget, Hbd'|].
    intros e He Hm. eexists.
    unfold actualizar_estado_solicitud, try_except, mbind, M_bind.
    rewrite decide_True by done. simpl.
    rewrite cambiar_estado_eq, Hbd', Hm, decide_True by done. split; [done|].
    rewrite Hget. unfold tras_estado. simpl. by rewrite lookup_insert_eq.
Qed.

End Invariantes.

(** ** Appointments: slots *)

Section Horarios.
Variable motor : BD → option string.

(** [verificar_disponibilidad] answers True exactly when every
    'Programada' cita at the instant is the excluded one, an exclusion of
    None or 0 excluding nothing. *)
Lemma verificar_disponibilidad_True bd fecha_hora exclude_id :
  verificar_disponibilidad bd fecha_hora exclude_id = true
  ↔ ∀ j c, citas bd !! j = Some c →
           Cita.fecha_hora_programada c = fecha_hora →
           Cita.estado_cita c = Some "Programada" →
           Py.truthy_int exclude_id = true ∧ exclude_id = Some j.
Proof.
  unfold verificar_disponibilidad. rewrite bool_decide_eq_true, head_None.
  destruct (Py.truthy_int exclude_id) eqn:Htr; split.
  - intros Hnil j c Hj Ht He. split; [done|].
    destruct (decide (exclude_id = Some j)) as [|Hne]; [done|]. exfalso.
    apply (not_elem_of_nil (j, c)). rewrite <- Hnil.
    apply list_elem_of_filter. split; [simpl; congruence|].
    apply list_elem_of_filter. split; [done|]. by apply elem_of_map_to_list.
  - intros Hex. apply elem_of_nil_inv. intros [j c] Hin.
    apply list_elem_of_filter in Hin as [Hne Hin].
    apply list_elem_of_filter in Hin as [[Ht He] Hin].
    apply elem_of_map_to_list in Hin.
    destruct (Hex j c Hin Ht He) as [_ Heq]. simpl in Hne. congruence.
  - intros Hnil j c Hj Ht He. exfalso.
    apply (not_elem_of_nil (j, c)). rewrite <- Hnil.
    apply list_elem_of_filter. split; [done|]. by apply elem_of_map_to_list.
  - intros Hex. apply elem_of_nil_inv. intros [j c] Hin.
    apply list_elem_of_filter in Hin as [[Ht He] Hin].
    apply elem_of_map_to_list in Hin.
    by destruct (Hex j c Hin Ht He) as [? _].
Qed.

(** A cita that leaves 'Programada' cannot create a double booking. *)
Lemma sin_doble_reserva_estado bd cita_id c e :
  e ≠ "Programada" →
  sin_doble_reserva bd →
  sin_doble_reserva (tras_estado_cita bd cita_id c e).
Proof.
  intros He Hbd i j x y Hi Hj Hx Hy Hxy. unfold tras_estado_cita in *.
  simpl in *.
  destruct (decide (i = cita_id)) as [->|Hni].
  { rewrite lookup_insert_eq in Hi. injection Hi as <-. simpl in Hx. congruence. }
  destruct (decide (j = cita_id)) as [->|Hnj].
  { rewrite lookup_insert_eq in Hj. injection Hj as <-. simpl in Hy. congruence. }
  rewrite lookup_insert_ne in Hi, Hj by done. by apply (Hbd i j x y).
Qed.

Lemma sin_doble_reserva_atender_cita p bd :
  sin_doble_reserva bd →
  sin_doble_reserva (estado_final (atender_cita motor p bd)).
Proof.
  intros Hbd. destruct p as [cita_id|cita_id|cita_id nueva]; simpl.
  - destruct (ejecutar_estado_final motor (Cancelar cita_id) bd)
      as [Heq|(c & _ & _ & Heq)]; simpl in Heq; rewrite Heq; [done|].
    by apply sin_doble_reserva_estado.
  - destruct (ejecutar_estado_final motor (MarcarAtendida cita_id) bd)
      as [Heq|(c & _ & _ & Heq)]; simpl in Heq; rewrite Heq; [done|].
    by apply sin_doble_reserva_estado.
  - rewrite reprogramar_cita_eq.
    destruct (verificar_disponibilidad bd nueva (Some cita_id)) eqn:Hdisp; [|done].
    destruct (citas bd !! cita_id) as [c|] eqn:Hc; [|done].
    destruct (decide (Cita.estado_cita c = Some "Programada")) as [Hp|]; [|done].
    destruct (motor _); [done|]. simpl.
    rewrite verificar_disponibilidad_True in Hdisp.
    intros i j x y Hi Hj Hx Hy Hxy. unfold tras_reprogramar in *. simpl in *.
    destruct (decide (i = cita_id)) as [->|Hni];
      destruct (decide (j = cita_id)) as [->|Hnj]; [done|..].
    + rewrite lookup_insert_eq in Hi. injection Hi as <-.
      rewrite lookup_insert_ne in Hj by done. simpl in Hxy.
      destruct (Hdisp j y Hj (eq_sym Hxy) Hy) as [_ Heq]. congruence.
    + rewrite lookup_insert_eq in Hj. injection Hj as <-.
      rewrite lookup_insert_ne in Hi by done. simpl in Hxy.
      destruct (Hdisp i x Hi Hxy Hx) as [_ Heq]. congruence.
    + rewrite lookup_insert_ne in Hi, Hj by done. by apply (Hbd i j x y).
Qed.

(** X17.  No double booking: through any sequence of cancellations,
    attendances and reschedulings, whatever each call answers and whichever
    commits the engine refuses, no two 'Programada' citas hold the same
    instant, provided that was so at the start.  This holds also for a cita
    under key 0, which [verificar_disponibilidad] does not exclude. *)
Theorem sin_doble_reserva_invariante ps bd :
  sin_doble_reserva bd →
  sin_doble_reserva (tras_peticiones_cita motor ps bd).
Proof.
  revert bd. induction ps as [|p ps IH]; intros bd Hbd; simpl; [done|].
  apply IH. by apply sin_doble_reserva_atender_cita.
Qed.

(** X18.  Cancelling the cita that holds an instant frees it.  With no
    double booking, a 'Programada' cita [j] at an instant makes the instant
    unavailable, and a rescheduling of another cita to it returns None; once
    the cancellation of [j] is committed the instant is available, with or
    without an exclusion, and the same rescheduling of a 'Programada' cita
    moves it there. *)
Theorem cancelar_cita_libera_horario bd j c :
  sin_doble_reserva bd →
  citas bd !! j = Some c →
  Cita.estado_cita c = Some "Programada" →
  motor (tras_estado_cita bd j c "Cancelada") = None →
  let fecha_hora := Cita.fecha_hora_programada c in
  let bd' := tras_estado_cita bd j c "Cancelada" in
  verificar_disponibilidad bd fecha_hora None = false
  ∧ cancelar_cita motor j bd
    = Ret (Some (j, Cita.con_estado_cita c (Some "Cancelada"))) bd'
  ∧ (∀ exclude_id, verificar_disponibilidad bd' fecha_hora exclude_id = true)
  ∧ ∀ i d, i ≠ j → citas bd !! i = Some d →
      Cita.estado_cita d = Some "Programada" →
      reprogramar_cita motor i fecha_hora bd = Ret None bd
      ∧ (motor (tras_reprogramar bd' i d fecha_hora) = None →
         reprogramar_cita motor i fecha_hora bd'
         = Ret (Some (i, Cita.con_fecha_hora_programada d fecha_hora))
               (tras_reprogramar bd' i d fecha_hora)).
Proof.
  intros Hbd Hj Hp Hm fecha_hora bd'.
  assert (Hlibre : ∀ exclude_id,
            verificar_disponibilidad bd' fecha_hora exclude_id = true).
  { intros exclude_id. apply verificar_disponibilidad_True.
    intros k x Hk Hx Hpx. exfalso. unfold bd', tras_estado_cita in Hk.
    simpl in Hk. destruct (decide (k = j)) as [->|Hne].
    - rewrite lookup_insert_eq in Hk. injection Hk as <-. simpl in Hpx. congruence.
    - rewrite lookup_insert_ne in Hk by done.
      by destruct Hne; apply (Hbd k j x c). }
  split; [|split; [|split; [done|]]].
  - apply not_true_is_false. rewrite verificar_disponibilidad_True.
    intros Hex. by destruct (Hex j c Hj eq_refl Hp).
  - pose proof (ejecutar_eq motor (Cancelar j) bd) as Heq. simpl in Heq.
    by rewrite Heq, Hj, decide_True, Hm.
  - intros i d Hij Hi Hd. split.
    + rewrite reprogramar_cita_eq.
      replace (verificar_disponibilidad bd fecha_hora (Some i)) with false; [done|].
      symmetry. apply not_true_is_false. rewrite verificar_disponibilidad_True.
      intros Hex. destruct (Hex j c Hj eq_refl Hp) as [_ Heq]. congruence.
    + intros Hm'. rewrite reprogramar_cita_eq, Hlibre.
      assert (Hi' : citas bd' !! i = Some d).
      { unfold bd', tras_estado_cita. simpl. by rewrite lookup_insert_ne. }
      by rewrite Hi', decide_True, Hm'.
Qed.

End Horarios.

(** ** Pagination *)

Lemma total_pages_cota total per_page n :
  1 ≤ per_page → (total ≤ n * per_page ↔ total_pages total per_page ≤ n).
Proof.
  intros Hpp. unfold total_pages.
  pose proof (Z.mul_div_le (total + per_page - 1) per_page ltac:(lia)).
  pose proof (Z.mul_succ_div_gt (total + per_page - 1) per_page ltac:(lia)).
  split; intros; nia.
Qed.

Lemma paginas_hasta {A} (resultado : list A) per_page (n : nat) :
  1 ≤ per_page →
  mjoin ((λ k : nat, pagina resultado (Z.of_nat (S k)) per_page) <$> seq 0 n)
  = take (n * Z.to_nat per_page) resultado.
Proof.
  intros Hpp. induction n as [|n IH]; [done|].
  rewrite seq_S, fmap_app, join_app, IH. simpl. rewrite app_nil_r.
  unfold pagina.
  replace (Z.to_nat ((Z.of_nat (S n) - 1) * per_page))
    with (n * Z.to_nat per_page)%nat by lia.
  rewrite take_take_drop. f_equal. lia.
Qed.

(** X19.  The pages of a search cover its result exactly.  For a page
    size of at least 1, [total_pages] is the least number of pages that
    holds the whole result; every page has at most [per_page] rows; pages 1
    to [total_pages] are non-empty and, one after the other, give the
    result in order, each row once; every later page is empty. *)
Theorem paginacion_cubre_resultado {A} (resultado : list A) per_page :
  1 ≤ per_page →
  let total := Z.of_nat (length resultado) in
  let paginas := total_pages total per_page in
  (∀ n, total ≤ n * per_page ↔ paginas ≤ n)
  ∧ (∀ page, 1 ≤ page →
       Z.of_nat (length (pagina resultado page per_page)) ≤ per_page)
  ∧ (∀ page, 1 ≤ page ≤ paginas → pagina resultado page per_page ≠ [])
  ∧ (∀ page, paginas < page → pagina resultado page per_page = [])
  ∧ mjoin ((λ k : nat, pagina resultado (Z.of_nat (S k)) per_page)
             <$> seq 0 (Z.to_nat paginas))
    = resultado.
Proof.
  intros Hpp total paginas.
  assert (Hcota := λ n, total_pages_cota total per_page n Hpp).
  fold paginas in Hcota.
  split; [done|]. split; [|split; [|split]].
  - intros page Hpage. unfold pagina. rewrite length_take. lia.
  - intros page [H1 H2] Hnil. apply (f_equal length) in Hnil.
    unfold pagina in Hnil. rewrite length_take, length_drop in Hnil.
    simpl in Hnil.
    assert (¬ total ≤ (page - 1) * per_page) by (rewrite Hcota; lia).
    unfold total in *. nia.
  - intros page Hpage. unfold pagina.
    rewrite drop_ge; [by rewrite take_nil|].
    assert (total ≤ (page - 1) * per_page) by (rewrite Hcota; lia).
    unfold total in *. lia.
  - rewrite paginas_hasta by done. apply take_ge.
    assert (0 ≤ paginas).
    { unfold paginas, total_pages. apply Z.div_pos; lia. }
    assert (total ≤ paginas * per_page) by (by rewrite Hcota).
    unfold total in *. nia.
Qed.

(** ** Diagnoses and usernames *)

Section Diagnosticos_y_usernames.
Variable motor : BD → option string.

(** X20.  [confirmar_diagnostico] changes a diagnosis only from
    'Presuntivo' to 'Confirmado': a diagnosis of any other type is returned
    as it is and nothing is written, an id with no diagnosis gives None.
    Confirming is idempotent: a second call returns the confirmed diagnosis
    and leaves the store as the first call left it.  Only the type of the
    diagnosis named changes. *)
Theorem confirmar_diagnostico_solo_presuntivo bd diagnostico_id :
  (diagnosticos bd !! diagnostico_id = None →
   confirmar_diagnostico motor diagnostico_id bd = Ret None bd)
  ∧ ∀ d, diagnosticos bd !! diagnostico_id = Some d →
      (Diagnostico.tipo_diagnostico d ≠ "Presuntivo" →
       confirmar_diagnostico motor diagnostico_id bd
       = Ret (Some (diagnostico_id, d)) bd)
      ∧ (Diagnostico.tipo_diagnostico d = "Presuntivo" →
         let d' := Diagnostico_con_tipo d "Confirmado" in
         let bd' := con_tabla bd (<[diagnostico_id := d']> (diagnosticos bd)) in
         (∀ msg, motor bd' = Some msg →
            confirmar_diagnostico motor diagnostico_id bd
            = Raise (Exception msg) bd)
         ∧ (motor bd' = None →
            confirmar_diagnostico motor diagnostico_id bd
            = Ret (Some (diagnostico_id, d')) bd'
            ∧ confirmar_diagnostico motor diagnostico_id bd'
              = Ret (Some (diagnostico_id, d')) bd'
            ∧ (∀ j, j ≠ diagnostico_id →
                 diagnosticos bd' !! j = diagnosticos bd !! j)
            ∧ Diagnostico.id_consulta d' = Diagnostico.id_consulta d
            ∧ Diagnostico.id_patologia d' = Diagnostico.id_patologia d
            ∧ Diagnostico.diagnostico d' = Diagnostico.diagnostico d
            ∧ consultas bd' = consultas bd)).
Proof.
  assert (Heq : ∀ b, confirmar_diagnostico motor diagnostico_id b
                = match diagnosticos b !! diagnostico_id with
                  | None => Ret None b
                  | Some d =>
                      if decide (Diagnostico.tipo_diagnostico d = "Presuntivo")
                      then
                        match motor (con_tabla b
                                       (<[diagnostico_id :=
                                            Diagnostico_con_tipo d "Confirmado"]>
                                          (diagnosticos b))) with
                        | None =>
                            Ret (Some (diagnostico_id,
                                       Diagnostico_con_tipo d "Confirmado"))
                                (con_tabla b
                                   (<[diagnostico_id :=
                                        Diagnostico_con_tipo d "Confirmado"]>
                                      (diagnosticos b)))
                        | Some msg => Raise (Exception msg) b
                        end
                      else Ret (Some (diagnostico_id, d)) b
                  end).
  { intros b. unfold confirmar_diagnostico, mbind, M_bind.
    change (CRUDBase.get (A:=Diagnostico.t) diagnostico_id b)
      with (Ret (pair diagnostico_id <$> diagnosticos b !! diagnostico_id) b).
    destruct (diagnosticos b !! diagnostico_id) as [d|]; simpl; [|done].
    destruct (decide _); [|done].
    unfold fmap, M_fmap, guardar, commit, mbind, M_bind, mret, M_ret. simpl.
    by destruct (motor _). }
  split.
  - intros Hno. by rewrite Heq, Hno.
  - intros d Hd. split.
    + intros Hno. by rewrite Heq, Hd, decide_False.
    + intros Hp d' bd'. split.
      * intros msg Hm. rewrite Heq, Hd, decide_True by done.
        fold d'. fold bd'. by rewrite Hm.
      * intros Hm. split.
        { rewrite Heq, Hd, decide_True by done. fold d'. fold bd'. by rewrite Hm. }
        split.
        { rewrite Heq. unfold bd' at 1. simpl. rewrite lookup_insert_eq.
          by rewrite decide_False. }
        split; [|done].
        intros j Hj. unfold bd'. simpl. by rewrite lookup_insert_ne.
Qed.

Lemma exists_by_username_True bd username exclude_id :
  CRUDUsuario.exists_by_username bd username exclude_id = true
  ↔ ∃ j u, usuarios bd !! j = Some u ∧ Usuario.username u = username
           ∧ (Py.truthy_int exclude_id = true → exclude_id ≠ Some j).
Proof.
  unfold CRUDUsuario.exists_by_username.
  rewrite bool_decide_eq_true, head_None, lista_no_vacia.
  destruct (Py.truthy_int exclude_id); split.
  - intros [[j u] Hin]. apply list_elem_of_filter in Hin as [Hne Hin].
    apply list_elem_of_filter in Hin as [Hn Hin].
    apply elem_of_map_to_list in Hin. exists j, u.
    split; [done|split; [done|]]. intros _ Heq. by apply Hne.
  - intros (j & u & Hj & Hn & Hne). exists (j, u).
    apply list_elem_of_filter. split; [simpl; intros Heq; by apply Hne|].
    apply list_elem_of_filter. split; [done|]. by apply elem_of_map_to_list.
  - intros [[j u] Hin]. apply list_elem_of_filter in Hin as [Hn Hin].
    apply elem_of_map_to_list in Hin. by exists j, u.
  - intros (j & u & Hj & Hn & _). exists (j, u).
    apply list_elem_of_filter. split; [done|]. by apply elem_of_map_to_list.
Qed.

(** X21.  [exists_by_username] without exclusion answers whether the
    username is stored; with the exclusion of a user id other than 0 it
    answers whether some other user holds it, so that, usernames being
    unique, a user's own username is reported as free for that user; an
    exclusion of 0 excludes nothing. *)
Theorem exists_by_username_excluye_al_propio bd username :
  (CRUDUsuario.exists_by_username bd username None = true
   ↔ username ∈ usernames bd)
  ∧ (∀ i, i ≠ 0 →
       (CRUDUsuario.exists_by_username bd username (Some i) = true
        ↔ ∃ j u, j ≠ i ∧ usuarios bd !! j = Some u
                 ∧ Usuario.username u = username))
  ∧ CRUDUsuario.exists_by_username bd username (Some 0)
    = CRUDUsuario.exists_by_username bd username None
  ∧ (NoDup (usernames bd) →
     ∀ i u, i ≠ 0 → usuarios bd !! i = Some u →
            Usuario.username u = username →
            CRUDUsuario.exists_by_username bd username (Some i) = false
            ∧ CRUDUsuario.exists_by_username bd username None = true).
Proof.
  assert (Hex : ∀ i, i ≠ 0 →
            (CRUDUsuario.exists_by_username bd username (Some i) = true
             ↔ ∃ j u, j ≠ i ∧ usuarios bd !! j = Some u
                      ∧ Usuario.username u = username)).
  { intros i Hi. rewrite exists_by_username_True. simpl.
    replace (negb (i =? 0)) with true by (symmetry; apply negb_true_iff; lia).
    split.
    - intros (j & u & Hj & Hn & Hne). exists j, u. repeat split; try done.
      intros ->. by apply Hne.
    - intros (j & u & Hne & Hj & Hn). exists j, u. repeat split; try done.
      intros _ [= ->]. done. }
  split; [|split; [done|split; [done|]]].
  - rewrite exists_by_username_True. unfold usernames.
    rewrite list_elem_of_fmap. split.
    + intros (j & u & Hj & Hn & _). exists (j, u). split; [done|].
      by apply elem_of_map_to_list.
    + intros ([j u] & Hn & Hin). apply elem_of_map_to_list in Hin.
      by exists j, u.
  - intros Hnd i u Hi Hu Hn. split.
    + apply not_true_is_false. rewrite (Hex i Hi).
      intros (j & v & Hne & Hj & Hv).
      destruct (username_determina_usuario bd j i v u Hnd Hj Hu); congruence.
    + apply exists_by_username_True. by exists i, u.
Qed.

End Diagnosticos_y_usernames.

(** * Worked examples of the further properties

    The properties that have preconditions, at the example clinic. *)

Lemma usernames_ejemplo_unicos : NoDup (usernames bd_ejemplo).
Proof. por_calculo. Qed.

Lemma estados_enumerados_ejemplo : estados_enumerados bd_ejemplo.
Proof.
  intros i s Hi. simpl in Hi. apply lookup_singleton_Some in Hi as [_ <-].
  exists "En triaje". split; [done|]. by apply (bool_decide_unpack _).
Qed.

Lemma una_consulta_por_triaje_ejemplo : una_consulta_por_triaje bd_ejemplo.
Proof. intros i j c d t Hi. simpl in Hi. by rewrite lookup_empty in Hi. Qed.

Lemma sin_doble_reserva_ejemplo : sin_doble_reserva bd_ejemplo.
Proof.
  intros i j c d Hi Hj Hc Hd Hcd. simpl in Hi, Hj.
  repeat (apply lookup_insert_Some in Hi as [[<- <-]|[? Hi]]);
    try (apply lookup_singleton_Some in Hi as [<- <-]);
    repeat (apply lookup_insert_Some in Hj as [[<- <-]|[? Hj]]);
    try (apply lookup_singleton_Some in Hj as [<- <-]);
    try done; by vm_compute in Hcd.
Qed.

Lemma change_password_luego_authenticate_user_witness :
  ∃ bd',
    change_password motor_acepta 1 "admin123" "nueva" bd_ejemplo
    = Ret (true, "Contraseña cambiada exitosamente") bd'
    ∧ CRUDAuth.authenticate_user bd' "admin" "nueva" ≠ None
    ∧ ("admin123" ≠ "nueva" →
       CRUDAuth.authenticate_user bd' "admin" "admin123" = None).
Proof.
  apply (change_password_luego_authenticate_user motor_acepta bd_ejemplo 1
           (Usuario.mk "admin" "admin123" "Administrador" None (Some "Activo"))
           "admin123" "nueva").
  - por_calculo.
  - reflexivity.
  - reflexivity.
  - reflexivity.
  - vm_compute; lia.
  - reflexivity.
Defined.

Lemma change_password_ida_y_vuelta_witness :
  ∃ bd',
    change_password motor_acepta 1 "admin123" "nueva" bd_ejemplo
    = Ret (true, "Contraseña cambiada exitosamente") bd'
    ∧ change_password motor_acepta 1 "nueva" "admin123" bd'
      = Ret (true, "Contraseña cambiada exitosamente") bd_ejemplo.
Proof.
  apply (change_password_ida_y_vuelta motor_acepta bd_ejemplo 1
           (Usuario.mk "admin" "admin123" "Administrador" None (Some "Activo"))
           "nueva").
  - reflexivity.
  - vm_compute; lia.
  - vm_compute; lia.
  - reflexivity.
  - reflexivity.
Defined.

Lemma CRUDUsuario_authenticate_coincide_witness :
  CRUDUsuario.authenticate bd_ejemplo "admin" "admin123"
  = CRUDAuth.usuario <$> CRUDAuth.authenticate_user bd_ejemplo "admin" "admin123".
Proof.
  apply CRUDUsuario_authenticate_coincide. por_calculo.
Defined.

Lemma remove_luego_get_witness :
  ∃ bd',
    Base.remove motor_acepta 2 bd_ejemplo
    = Ret (Some (2, cita_ejemplo 6000 "Cancelada")) bd'
    ∧ CRUDBase.get (A:=Cita.t) 2 bd' = Ret None bd'
    ∧ Base.exists_ (A:=Cita.t) 2 bd' = Ret false bd'
    ∧ (∀ j, j ≠ 2 → citas bd' !! j = citas bd_ejemplo !! j)
    ∧ S (Base.count (A:=Cita.t) bd') = Base.count (A:=Cita.t) bd_ejemplo
    ∧ Base.remove (A:=Cita.t) motor_acepta 2 bd' = Ret None bd'.
Proof.
  destruct (remove_luego_get motor_acepta (A:=Cita.t) id_field_Cita
              (λ _ _, eq_refl) bd_ejemplo 2) as [Hhay _].
  apply (Hhay (cita_ejemplo 6000 "Cancelada")); reflexivity.
Defined.

Lemma solicitud_sin_fecha_en_enumeraciones columna :
  fuera_de_enum columna
    (por_defecto (A:=SolicitudAtencion.t)
       (de_kwargs (SolicitudAtencionCreate.dict solicitud_sin_fecha)))
  = None.
Proof.
  unfold fuera_de_enum, enum, SolicitudAtencion_enum.
  repeat case_decide; by vm_compute.
Qed.


Lemma soft_delete_no_elimina_witness :
  Base.soft_delete (A:=Mascota.t) motor_acepta 3 bd_ejemplo
  = Ret (pair 3 <$> mascotas bd_ejemplo !! 3) bd_ejemplo
  ∧ dom (solicitudes
           (estado_final
              (Base.soft_delete (A:=SolicitudAtencion.t) motor_acepta 1 bd_ejemplo)))
    = dom (solicitudes bd_ejemplo).
Proof.
  split.
  - destruct (soft_delete_no_elimina motor_acepta (A:=Mascota.t) id_field_Mascota
                (λ _ _, eq_refl) bd_ejemplo 3) as (_ & _ & Hsin).
    by apply Hsin.
  - by destruct (soft_delete_no_elimina motor_acepta (A:=SolicitudAtencion.t)
                   id_field_SolicitudAtencion (λ _ _, eq_refl) bd_ejemplo 1)
      as (Hdom & _).
Defined.

Lemma estados_enumerados_invariante_witness :
  estados_enumerados
    (tras_peticiones motor_sin_historial texto_validacion
       [ PCrearConsulta 1000 consulta_ejemplo;
         PActualizarEstado 1 "Archivada";
         PCrearSolicitud 1100 solicitud_sin_fecha;
         PFinalizarConsulta 1 ]
       bd_ejemplo).
Proof.
  apply estados_enumerados_invariante. exact estados_enumerados_ejemplo.
Defined.

Lemma una_consulta_por_triaje_invariante_witness :
  una_consulta_por_triaje
    (tras_peticiones motor_sin_historial texto_validacion
       [ PCrearConsulta 1000 consulta_ejemplo;
         PCrearConsulta 2000 consulta_ejemplo;
         PFinalizarConsulta 1;
         PCrearConsulta 3000 consulta_ejemplo ]
       bd_ejemplo).
Proof.
  apply una_consulta_por_triaje_invariante.
  exact una_consulta_por_triaje_ejemplo.
Defined.

(** The call that fails at its fourth commit has stored the consulta,
    and the same request sent again, at once or after other calls, is
    refused. *)
Lemma create_consulta_no_repetible_witness :
  let bd' :=
    estado_final
      (create_consulta motor_sin_historial texto_validacion 1000 consulta_ejemplo
         bd_ejemplo) in
  let bd'' :=
    tras_peticiones motor_sin_historial texto_validacion
      [PFinalizarConsulta 1; PActualizarEstado 1 "Pendiente"] bd' in
  status_http 201
    (create_consulta motor_sin_historial texto_validacion 1000 consulta_ejemplo
       bd_ejemplo) = 500
  ∧ create_consulta motor_sin_historial texto_validacion 2000 consulta_ejemplo bd'
    = Raise (HTTPException 400 "Ya existe una consulta para este triaje") bd'
  ∧ create_consulta motor_sin_historial texto_validacion 3000 consulta_ejemplo bd''
    = Raise (HTTPException 400 "Ya existe una consulta para este triaje") bd''.
Proof.
  intros bd' bd''. split; [by vm_compute|].
  assert (Hcambio : consultas bd' ≠ consultas bd_ejemplo) by por_calculo.
  destruct (create_consulta_no_repetible motor_sin_historial texto_validacion
              bd_ejemplo 1000 consulta_ejemplo Hcambio [] 2000 consulta_ejemplo
              eq_refl) as [_ Hya].
  destruct (create_consulta_no_repetible motor_sin_historial texto_validacion
              bd_ejemplo 1000 consulta_ejemplo Hcambio
              [PFinalizarConsulta 1; PActualizarEstado 1 "Pendiente"]
              3000 consulta_ejemplo eq_refl) as [_ Hluego].
  split; [apply Hya | apply Hluego]; por_calculo.
Defined.

Lemma create_consulta_luego_finalizar_consulta_witness :
  ∃ nueva bd' bd'',
    create_consulta motor_acepta texto_validacion 1000 consulta_ejemplo bd_ejemplo
    = Ret nueva bd'
    ∧ finalizar_consulta motor_acepta nueva.1 bd'
      = Ret (mkConsultaFinalizada "Consulta finalizada exitosamente" true nueva.1)
            bd''
    ∧ consultas bd'' !! nueva.1 = Some (fila_consulta consulta_ejemplo)
    ∧ veterinarios bd''
      = <[1 := Veterinario.con_disposicion veterinario_ejemplo (Some "Libre")]>
          (veterinarios bd_ejemplo)
    ∧ solicitudes bd''
      = <[1 := SolicitudAtencion.con_estado solicitud_ejemplo (Some "Completada")]>
          (solicitudes bd_ejemplo)
    ∧ (Veterinario.disposicion veterinario_ejemplo = Some "Libre" →
       veterinarios bd'' = veterinarios bd_ejemplo).
Proof.
  exact (create_consulta_luego_finalizar_consulta motor_acepta texto_validacion
           bd_ejemplo 1000 consulta_ejemplo veterinario_ejemplo triaje_ejemplo
           solicitud_ejemplo 3 (λ _, eq_refl) consulta_ejemplo_creable).
Defined.

Lemma sin_doble_reserva_invariante_witness :
  sin_doble_reserva
    (tras_peticiones_cita motor_acepta
       [ PReprogramar 3 5000; PCancelar 1; PReprogramar 3 5000;
         PMarcarAtendida 3; PReprogramar 1 5000 ]
       bd_ejemplo).
Proof.
  apply sin_doble_reserva_invariante. exact sin_doble_reserva_ejemplo.
Defined.

Lemma cancelar_cita_libera_horario_witness :
  let bd' :=
    tras_estado_cita bd_ejemplo 1 (cita_ejemplo 5000 "Programada") "Cancelada" in
  verificar_disponibilidad bd_ejemplo 5000 None = false
  ∧ verificar_disponibilidad bd' 5000 None = true
  ∧ reprogramar_cita motor_acepta 3 5000 bd_ejemplo = Ret None bd_ejemplo
  ∧ reprogramar_cita motor_acepta 3 5000 bd'
    = Ret (Some (3, cita_ejemplo 5000 "Programada"))
          (tras_reprogramar bd' 3 (cita_ejemplo 7000 "Programada") 5000).
Proof.
  intros bd'.
  destruct (cancelar_cita_libera_horario motor_acepta bd_ejemplo 1
              (cita_ejemplo 5000 "Programada") sin_doble_reserva_ejemplo
              eq_refl eq_refl eq_refl) as (Hocupado & _ & Hlibre & Hotra).
  destruct (Hotra 3 (cita_ejemplo 7000 "Programada") ltac:(done) eq_refl eq_refl)
    as [Hantes Hdespues].
  split; [exact Hocupado|]. split; [exact (Hlibre None)|].
  split; [exact Hantes|]. exact (Hdespues eq_refl).
Defined.

Lemma paginacion_cubre_resultado_witness :
  total_pages 5 2 = 3
  ∧ pagina ["a"; "b"; "c"; "d"; "e"] 3 2 = ["e"]
  ∧ pagina ["a"; "b"; "c"; "d"; "e"] 4 2 = []
  ∧ mjoin ((λ k : nat, pagina ["a"; "b"; "c"; "d"; "e"] (Z.of_nat (S k)) 2)
             <$> seq 0 (Z.to_nat (total_pages 5 2)))
    = ["a"; "b"; "c"; "d"; "e"].
Proof.
  destruct (paginacion_cubre_resultado ["a"; "b"; "c"; "d"; "e"] 2 ltac:(lia))
    as (_ & _ & _ & Hvacia & Htodas).
  split; [reflexivity|]. split; [reflexivity|].
  split; [apply Hvacia; by vm_compute|]. exact Htodas.
Defined.
